(* ===== verification/_CoqProject ===== *)
-Q . S2P
Prelude.v
Scalar.v
Float32.v
Vec.v
Engine.v
ImpactData.v
Component.v
Frame.v
Samples.v
Grab.v
GrabMachine.v
Tick.v
Proximity.v
Lifecycle.v
Damage.v
Audio.v
Host.v
Scheduler.v
Notify.v
Session.v
Temporal.v
Liveness.v
