(* ===== verification/Prelude.v ===== *)
(** * GenericPhysicPropSystem: a verification development

    The program is an Unreal Engine plugin with one class of substance,
    [UPhysicsPropComponent] (src/Source/GenericPhysicPropSystem/Private/
    PhysicsPropComponent.cpp and Public/PhysicsPropComponent.h).  An instance
    is attached to an actor, takes over one static mesh ("physicalizes" it)
    and from then on reacts to engine callbacks: the per-frame tick, a
    repeating timer, sleep / wake notifications of the rigid body, three
    kinds of damage notifications and collision hits.  Two small headers
    declare data only: [UPhysicsPropDamageType] (PhysicsPropDamageType.h) and
    the impact sound table (PropPhysicsImpactData.h).

    ** How the program is modelled

    - Numbers.  The source computes on C++ [float].  [Scalar.v] states the
      arithmetic the code uses as a class [Scalar] (literals, + - * /, sqrt,
      < <= ==) and the order laws the control flow depends on as a class
      [ScalarOrder].  [Float32.v] instantiates both with IEEE-754 binary32
      (the Standard Library's [SpecFloat], precision 24, emax 128): every
      definition of the development evaluates on binary32 values, NaN and
      infinities included, and the theorems named "_b32" hold for all of
      them.  The engine's [FVector] is single precision before UE5 and
      double precision from UE5 on; the model uses one scalar type for both,
      so the intermediate double precision of UE5 is not modelled.
    - Engine objects.  [Engine.v] keeps the objects the component points to
      in stores indexed by object identity ([gmap positive _]): static
      meshes ([Mesh], with the physics body's flags), actors ([Actor]) and
      scene components ([Scene], the holders).  A C++ pointer is an
      [option positive]; aliasing is therefore explicit (a holder's owner
      may be the prop's own actor).  Every engine call the source makes is a
      primitive of [Engine.v] that (1) changes exactly the field the call
      sets and (2) appends the call with its arguments to the world's
      [calls] log.  The solver's own dynamics (integration, contact
      resolution, when a body falls asleep) are not modelled: velocity,
      location and the awake flag of a body are inputs that only
      the modelled calls and the host change.
    - Control.  Handlers run in the monad [M] of this file: a state monad
      over [State] (world and component) whose second outcome, [Fault],
      stands for the undefined behaviour of dereferencing a null or stale
      pointer.  A C++ early [return] is [skip] in a branch of an [if].
    - The host.  The engine decides when a handler runs.  [Host.v] names
      the entry points of the component as events ([Event], dispatched by
      [handle]) and lets any enabled event, or any change of the world that
      removes no object ([same_objects]), come next ([step]).  The theorems
      about sequences hold for every path of [step], or take the sequence
      as a list of operations ([GrabMachine.runOps]), of frames
      ([Tick.frames]) or of events ([Host.deliver]) and hold for every such
      list.
    - The scheduler.  [Scheduler.v] adds the engine's rules of order as
      guards of a labelled step relation [sstep] over the state and the
      engine's own bookkeeping ([Sched]): [BeginPlay] runs once, the tick
      only while the component tick is enabled, the timer only while it
      is set with a positive rate, a body notifies the component only
      when it generates wake events ([bGenerateWakeEvents], a setting of
      the body that no code of the component touches) and its sleep state
      differs from the one it reported last, and nothing runs once the
      owner is destroyed.  A notification, a hit or
      a damage runs the callbacks bound to the delegate of the object it
      happens on, in the order of binding ([Broadcast]).  These rules are
      the engine's, not code of the repository; they are stated from the
      engine's documented behaviour and from section 9 of the
      specification.  Time is not measured: that the timer comes round is
      a fairness assumption on the runs ([Temporal.fair]).

    ** Files, in dependency order

    - [Prelude.v]     this file: the monad [M], total correctness [twp] and
                      [hoare], weakest liberal preconditions [wlp], tactics,
                      the hint database [prop] and list lemmas for call logs.
    - [Scalar.v]      classes [Scalar], [ScalarOrder]; [Clamp], [Min], [Max],
                      [Abs], [Lerp] with their order lemmas.
    - [Float32.v]     the binary32 instance and the proof of its order laws.
    - [Vec.v]         [FVector] operations used by the source.
    - [Engine.v]      object stores, the call log, engine primitives.
    - [ImpactData.v]  the data of PropPhysicsImpactData.h.
    - [Component.v]   the component's fields (PhysicsPropComponent.h), its
                      constructor, [State], accessors, the tactics that run
                      a handler symbolically ([hrun], [wlp_auto]) and the
                      well-formedness predicate [wf].
    - [Frame.v]       the interface [WorldRel] of the relations on worlds
                      that every engine call keeps, its instances
                      [evolves] (objects, bodies and bindings only grow)
                      and [calm] (no sleep state changes), the typing of
                      delegates [typedWorld].
    - [Samples.v]     a concrete binary32 scene: one prop, one player with a
                      holder, a second holder.  The witnesses and examples
                      evaluate the handlers on it.
    - [Grab.v]        Grab, Drop, Throw, IsGrabbed, UpdateGrabbedPosition.
    - [GrabMachine.v] the four operations as steps, the invariant of the
                      grab state, the Idle / Held machine of the design.
    - [Tick.v]        TickComponent: the CCD gate and the per-tick grab update.
    - [Proximity.v]   CheckDistanceToPlayer and the sleep / wake callbacks.
    - [Lifecycle.v]   Physicalize and BeginPlay.
    - [Damage.v]      OnTakeAnyDamage, OnTakePointDamage, OnTakeRadialDamage
                      and the damage types.
    - [Audio.v]       OnComponentHit.
    - [Host.v]        the events of the host, the step relation, the states
                      in which no handler faults ([ready]).
    - [Scheduler.v]   the engine's rules of order: labels, guards, the
                      multicast delegates, the step relation [sstep] and
                      its executable form [fire] / [fires].
    - [Notify.v]      the sleep and wake notifications as a rewriting
                      system: it terminates, [settle] computes its end.
    - [Session.v]     what each step keeps of the component's fields, and
                      the chain of the proximity scheduler (timer, forced
                      sleep, notification, tick disabled); bodies without
                      wake events, props that never slept, stale bindings.
    - [Temporal.v]    runs that do not end, [always], [leads_to], weak
                      fairness and the rule WF1; no coinduction.
    - [Liveness.v]    the distance timer is live: a fair timer grades the
                      prop by its distance to the player.

    Each definition that models code carries the name of the function or
    field it models; a block of a function that is given a name of its own
    ([ignoreHolderOwner], [restoreHolderOwner], [updateCCD], [cullFar],
    [replicateMovement], [configureBody], [startDistanceCheck],
    [bindDamage], [resolveDamageType], [impulseDirection],
    [impactIntensity], [findSoundEntry], [impactVolume]) is the block of
    statements its comment cites.

    ** What the theorems show

    - Grab.v.  For each operation, its result on every branch: the no-op
      branches (null holder, no mesh, not held), the state it leaves and the
      calls it makes otherwise.  After [Grab] the hold distance lies in
      [50, 250] for every binary32 input.  [Throw] is [Drop] followed by
      exactly one velocity-change [AddImpulse]; along a direction shorter
      than 1e-4 the impulse is zero ([Throw_tiny_direction]).  [Grab] then [Drop] leaves
      the prop free and simulating.  A second [Grab] while held leaks a
      move-ignore entry.  [UpdateGrabbedPosition] without an owner faults.
    - GrabMachine.v.  [bIsGrabbed] is set exactly when [CurrentHolder] is,
      after any sequence of operations (proved with [wlp], so without
      assumptions on the world), and every finished run of the code is a run
      of the two-state machine of the design ([runOps_refine_b32]).  The
      machine has one transition the design does not have: [Grab] while
      [Held].
    - Tick.v.  A tick calls [SetUseCCD] exactly when the body's flag differs
      from [SpeedSq > Threshold * Threshold]; over a run of frames the number
      of calls is the number of changes of that flag; a second tick at the
      same velocity calls nothing.  With a threshold that is not positive
      the tick returns before the grab block, so a held prop is not moved.
    - Proximity.v.  The distance check on each of its branches (no mesh, no
      world, below the floor, no player controller, far, near); run twice
      beyond the cull distance it forces sleep once and sets the tick
      interval twice; it never changes a field of the component; with a
      cull distance of 0 it culls at every positive distance
      ([CheckDistanceToPlayer_cull_zero]).  The sleep
      and wake callbacks switch the component tick, the owner's tick and,
      with authority, the replication of movement.

    - Lifecycle.v.  What [Physicalize] leaves (the flags of the body, the
      bindings, the owner's tick, the sleep family and the dampings), its
      calls in order, and its timer: started only with a positive cull
      distance, with the period [DistanceCheckInterval + RandRange(0, 0.5)].
      [Physicalize] twice binds every callback twice; without an owner it
      faults before the block that tests the owner.  [BeginPlay] leaves a
      component that manages a mesh as it is and otherwise is
      [Physicalize] of the owner's first static mesh, if that mesh
      simulates ([BeginPlay_finds]).
    - Damage.v.  Each handler on a simulating body: the optional wake and
      the one impulse call with its arguments (at the hit location for point
      damage, radial with radius 500 and linear falloff, as a velocity
      change along the resolved direction for any damage); all three do
      nothing when the body does not simulate.  [OnTakeAnyDamage] wakes
      the body only when the damage type asks for it and applies a
      velocity change, against two comments of the source
      ([OnTakeAnyDamage_no_wake]).
    - Audio.v.  The two gates of [OnComponentHit] (cooldown, threshold, the
      latter inclusive), the sound that is played with its volume and pitch,
      the recorded time; a first hit in the first tenth of a second of the
      world is discarded.
    - Host.v.  From a [ready] state (the pointers of the component lead to
      objects, the managed mesh has a body instance) every handler runs to
      its end and leaves a ready state, provided the pointers the event
      carries lead to objects ([enabled]); hence no enabled event faults in
      any state the host can reach ([reachable_safe]).  In every reachable
      state [bIsGrabbed] is set exactly when a holder is recorded, and the
      hold distance of a held prop lies in [50, 250]
      ([reachable_compInv_b32]).  What [ready] and [enabled] demand is what
      the code leaves unchecked: the examples of the other files that end in
      [Fault] start from states that are not ready.
    - Frame.v.  Every engine primitive keeps every relation of the
      interface [WorldRel]; the handlers' proofs that they keep [evolves]
      or [calm] are the composition of these facts ([hkeeps_auto]).
    - Scheduler.v.  Every run of the scheduler is a run of the host, and
      from a ready state every label whose guard holds runs without a
      fault in every state the scheduler reaches
      ([scheduler_refines_host]); [fire] computes exactly the steps of
      [sstep].  Delegates stay typed: each holds only the callback of its
      signature, so a notification of a body is the sleep or the wake
      callback once per binding ([delegates_typed]).
    - Notify.v.  The callbacks of a notification change no sleep state,
      so each notification removes one body from the set of bodies with an
      unreported state: the notifications terminate (the relation is
      strongly normalising) and [settle] reaches a state without pending
      notification ([settle_terminates]).
    - Session.v.  The tick of the component is switched by a notification
      and by [Grab] only; the timer, the hits and the damages leave it
      ([tick_switched_by_notifications]).  Beyond the cull distance one
      firing of the timer and the notification that follows put the body
      to sleep, set the tick interval of the mesh to one second and
      disable the ticks of component and owner ([cull_chain]).  Three
      behaviours the rules allow and the design does not intend, each
      for all states and runs that meet its hypotheses: a body that does
      not generate wake events never notifies, and no handler switches
      them on ([wake_events_never_enabled]); while every body is awake
      and nobody grabs the prop, a component whose tick is off, as the
      constructor leaves it, is never ticked
      ([fresh_prop_is_not_ticked]); the sleep of any body with the
      callback bound, managed or not, stops the tick of a held prop
      ([stale_mesh_stops_tick]).
    - Temporal.v and Liveness.v.  The rule WF1 for runs given as functions
      of the index.  On every run of the scheduler that is fair to the
      timer, an armed timer leads to a prop graded by its distance (far:
      body not simulating awake, mesh ticking once a second; near: mesh
      ticking every frame) or to a timer that is no longer armed
      ([timer_grades]); above the floor a firing leaves the timer armed
      ([timer_again]), so the run of timer firings [timerRun] is an
      instance.

    A theorem stated for a generic [F] assumes nothing of the arithmetic but
    the operations; the theorems that depend on the order of two literals
    are stated on binary32, where the order is computed.  No theorem is
    stated over the real numbers: a formula of the source is a claim about
    binary32 values or about any arithmetic with the operations.

    ** Fuel and bounds

    Every handler is a finite sequence of calls, and the runs of
    operations, of frames, of events and of labels are structural
    recursions on the list.  The one definition with fuel is
    [Notify.settle]: its fuel is the number of bodies with a pending
    notification, which [settle_terminates] proves enough, each
    notification removing one.

    ** Plan of the following extensions

    The duration of a timer period and of a frame (the scheduler orders
    the steps and leaves their times open); the solver as a constrained
    change of the world (a body at rest falls asleep, a sleeping body
    does not move) instead of the free [drift]; the bounds of the volume
    of an impact and of the interpolation of a held prop for all binary32
    inputs, which need the monotonicity of rounding (the Standard
    Library's [SpecFloat] defines the operations and proves nothing about
    them).

    ** Not modelled

    The rigid-body solver, the scene graph, audio playback, replication,
    the clock of the timer manager, the Unreal reflection macros (UCLASS, UPROPERTY, GENERATED_BODY) and the
    module boilerplate of GenericPhysicPropSystem.cpp, whose two functions
    are empty.

    ** Simplifications of the engine model

    - An actor and the mesh it owns have separate locations: moving the
      actor ([SetActorLocationAndRotation]) does not move the mesh, which
      the engine does for a mesh attached to the actor.  The theorems on
      runs let the locations change freely between two handlers.
    - [Destroy] marks the actor and removes nothing: the objects stay in
      the stores, as they do in the engine until the garbage collector
      runs, and the scheduler calls no handler of a destroyed owner.
    - [Invoke] skips a callback whose signature is not the delegate's;
      the engine cannot hold one ([AddDynamic] is typed), and
      [Scheduler.delegates_typed] shows that none arises.
    - The engine's [InvSqrt] in [GetSafeNormal] is taken to be [1 / sqrt];
      the engine uses an approximation on some platforms. *)

From Stdlib Require Import ZArith.
From stdpp Require Import base tactics option list.

(** ** The handler monad

    A handler is a function from the state to an outcome: either it
    finishes with a value and a new state, or it faults.  [E] is the type
    of faults, [S] the state. *)

Inductive outcome (E S A : Type) : Type :=
| Done (a : A) (s : S)
| Fault (e : E).
Arguments Done {E S A} a s.
Arguments Fault {E S A} e.

Definition M (E S A : Type) : Type := S -> outcome E S A.

(** Sequencing: a fault ends the run. *)
Definition bind {E S A B} (m : M E S A) (k : A -> M E S B) : M E S B := fun s =>
  match m s with
  | Done a s' => k a s'
  | Fault e => Fault e
  end.

(** The notations of stdpp's monads, bound to [bind] directly so that the
    type of the bound variable is known where the continuation is read. *)
Declare Scope handler_scope.
Delimit Scope handler_scope with H.
Notation "x ← y ; z" := (bind y (fun x => z))
  (at level 20, y at level 100, z at level 200, only parsing) : handler_scope.
Notation "x ;; z" := (bind x (fun _ => z))
  (at level 100, z at level 200, only parsing, right associativity) : handler_scope.

Local Open Scope handler_scope.

Section Monad.
Context {E S : Type}.

#[export] Instance M_ret : MRet (M E S) := fun A a s => Done a s.

#[export] Instance M_bind : MBind (M E S) := fun A B k m => bind m k.

#[export] Instance M_fmap : FMap (M E S) := fun A B f m s =>
  match m s with
  | Done a s' => Done (f a) s'
  | Fault e => Fault e
  end.

Definition get : M E S S := fun s => Done s s.
Definition gets {A} (f : S -> A) : M E S A := fun s => Done (f s) s.
Definition put (s : S) : M E S unit := fun _ => Done tt s.
Definition modify (f : S -> S) : M E S unit := fun s => Done tt (f s).
Definition throw {A} (e : E) : M E S A := fun _ => Fault e.

(** Dereference: [None] is the null pointer. *)
Definition deref {A} (e : E) (o : option A) : M E S A :=
  match o with
  | Some a => mret a
  | None => throw e
  end.

(** [skip] does nothing: the C++ statement [return;] of a [void] handler,
    and the missing [else] of an [if]. *)
Definition skip : M E S unit := mret tt.

(** [when b m] is the C++ statement [if (b) { m }]. *)
Definition when (b : bool) (m : M E S unit) : M E S unit :=
  if b then m else skip.

(** The final state of a run, when there is one. *)
Definition exec {A} (m : M E S A) (s : S) : option S :=
  match m s with
  | Done _ s' => Some s'
  | Fault _ => None
  end.

Definition faults {A} (m : M E S A) (s : S) : Prop :=
  exists e, m s = Fault e.

(** ** Total correctness

    [twp m Q s]: from [s] the handler [m] finishes, and the value and the
    state it ends with satisfy [Q].  [hoare P m Q] is the same for every
    state that satisfies [P]. *)

Definition twp {A} (m : M E S A) (Q : A -> S -> Prop) (s : S) : Prop :=
  match m s with
  | Done a s' => Q a s'
  | Fault _ => False
  end.

Definition hoare {A} (P : S -> Prop) (m : M E S A) (Q : A -> S -> Prop) : Prop :=
  forall s, P s -> twp m Q s.

Lemma bind_Done {A B} (m : M E S A) (k : A -> M E S B) s a s' :
  m s = Done a s' -> bind m k s = k a s'.
Proof. unfold bind. by intros ->. Qed.

Lemma bind_Fault {A B} (m : M E S A) (k : A -> M E S B) s e :
  m s = Fault e -> bind m k s = Fault e.
Proof. unfold bind. by intros ->. Qed.

Lemma bind_inv {A B} (m : M E S A) (k : A -> M E S B) s b s2 :
  bind m k s = Done b s2 ->
  exists a s1, m s = Done a s1 /\ k a s1 = Done b s2.
Proof.
  unfold bind. destruct (m s) as [a s1|e]; [eauto | discriminate].
Qed.

Lemma ret_bind {A B} (a : A) (k : A -> M E S B) s : bind (mret a) k s = k a s.
Proof. reflexivity. Qed.

Lemma bind_ret {A} (m : M E S A) s : (bind m mret) s = m s.
Proof. unfold bind, mret, M_ret. by destruct (m s). Qed.

Lemma bind_assoc {A B C} (m : M E S A) (k : A -> M E S B) (h : B -> M E S C) s :
  bind (bind m k) h s = bind m (fun a => bind (k a) h) s.
Proof. unfold bind. by destruct (m s). Qed.

(** The same two facts as rules for a goal [bind m k s = o]: they apply at
    the head of the goal, without rewriting inside it. *)
Lemma bind_step {A B} (m : M E S A) (k : A -> M E S B) s a s1 o :
  m s = Done a s1 -> k a s1 = o -> bind m k s = o.
Proof. intros Hm Hk. by rewrite (bind_Done _ _ _ _ _ Hm). Qed.

Lemma bind_assoc_step {A B C} (m : M E S A) (k : A -> M E S B) (h : B -> M E S C) s o :
  bind m (fun a => bind (k a) h) s = o -> bind (bind m k) h s = o.
Proof. intros Hm. by rewrite bind_assoc. Qed.

Lemma twp_Done {A} (m : M E S A) (Q : A -> S -> Prop) s a s' :
  m s = Done a s' -> Q a s' -> twp m Q s.
Proof. unfold twp. by intros ->. Qed.

Lemma twp_step {A B} (m : M E S A) (k : A -> M E S B) (Q : B -> S -> Prop) s a s1 :
  m s = Done a s1 -> twp (k a) Q s1 -> twp (bind m k) Q s.
Proof. unfold twp, bind. by intros ->. Qed.

Lemma twp_assoc {A B C} (m : M E S A) (k : A -> M E S B) (h : B -> M E S C)
    (Q : C -> S -> Prop) s :
  twp (bind m (fun a => bind (k a) h)) Q s -> twp (bind (bind m k) h) Q s.
Proof. unfold twp. by rewrite bind_assoc. Qed.

Lemma twp_bind {A B} (m : M E S A) (k : A -> M E S B) (Q : B -> S -> Prop) s :
  twp m (fun a s1 => twp (k a) Q s1) s -> twp (bind m k) Q s.
Proof. unfold twp, bind. by destruct (m s). Qed.

Lemma twp_mono {A} (m : M E S A) (Q Q' : A -> S -> Prop) s :
  (forall a s', Q a s' -> Q' a s') -> twp m Q s -> twp m Q' s.
Proof. unfold twp. intros HQ. destruct (m s); [apply HQ | done]. Qed.

Lemma twp_ret {A} (a : A) (Q : A -> S -> Prop) s : Q a s -> twp (mret a) Q s.
Proof. done. Qed.

Lemma twp_exec {A} (m : M E S A) (Q : A -> S -> Prop) s :
  twp m Q s -> exists a s', m s = Done a s' /\ Q a s'.
Proof. unfold twp. destruct (m s); [eauto | done]. Qed.

Lemma hoare_ret {A} (P : S -> Prop) (Q : A -> S -> Prop) a :
  (forall s, P s -> Q a s) -> hoare P (mret a) Q.
Proof. intros H s Hs. by apply H. Qed.

Lemma hoare_bind {A B} (P : S -> Prop) (R : A -> S -> Prop) (Q : B -> S -> Prop)
    (m : M E S A) (k : A -> M E S B) :
  hoare P m R -> (forall a, hoare (R a) (k a) Q) -> hoare P (bind m k) Q.
Proof.
  intros Hm Hk s Hs. specialize (Hm s Hs). unfold twp, bind in *.
  destruct (m s) as [a s1|e]; [by apply Hk | done].
Qed.

Lemma hoare_consequence {A} (P P' : S -> Prop) (Q Q' : A -> S -> Prop) m :
  hoare P' m Q' -> (forall s, P s -> P' s) -> (forall a s, Q' a s -> Q a s) ->
  hoare P m Q.
Proof.
  intros H HP HQ s Hs. specialize (H s (HP s Hs)). unfold twp in *.
  destruct (m s); [by apply HQ | done].
Qed.

Lemma hoare_gets {A} (P : S -> Prop) (f : S -> A) :
  hoare P (gets f) (fun a s => a = f s /\ P s).
Proof. by intros s Hs. Qed.

Lemma hoare_modify (P : S -> Prop) (f : S -> S) :
  hoare P (modify f) (fun _ s' => exists s, P s /\ s' = f s).
Proof. intros s Hs. unfold twp. simpl. eauto. Qed.

Lemma hoare_when (P : S -> Prop) (Q : unit -> S -> Prop) b m :
  (b = true -> hoare P m Q) -> (b = false -> forall s, P s -> Q tt s) ->
  hoare P (when b m) Q.
Proof. destruct b; intros Ht Hf; [by apply Ht | by apply hoare_ret, Hf]. Qed.

Lemma hoare_exec {A} (P : S -> Prop) (Q : A -> S -> Prop) m s :
  hoare P m Q -> P s -> exists a s', m s = Done a s' /\ Q a s'.
Proof. intros H Hs. by apply twp_exec, H. Qed.

(** ** Weakest liberal preconditions

    [wlp m Q s]: if [m] finishes from [s], the value and the state it ends
    with satisfy [Q].  A run that faults satisfies every postcondition, so
    the rules below need no lookup to succeed: they are the ones invariants
    of the component's own fields are proved with. *)

Definition wlp {A} (m : M E S A) (Q : A -> S -> Prop) (s : S) : Prop :=
  match m s with
  | Done a s' => Q a s'
  | Fault _ => True
  end.

Lemma wlp_Done {A} (m : M E S A) (Q : A -> S -> Prop) s a s' :
  wlp m Q s -> m s = Done a s' -> Q a s'.
Proof. unfold wlp. intros Hw Hm. by rewrite Hm in Hw. Qed.

Lemma wlp_ret {A} (a : A) (Q : A -> S -> Prop) s : Q a s -> wlp (mret a) Q s.
Proof. done. Qed.

Lemma wlp_bind {A B} (m : M E S A) (k : A -> M E S B) (Q : B -> S -> Prop) s :
  wlp m (fun a s' => wlp (k a) Q s') s -> wlp (bind m k) Q s.
Proof. unfold wlp, bind. by destruct (m s). Qed.

Lemma wlp_mono {A} (m : M E S A) (Q Q' : A -> S -> Prop) s :
  (forall a s', Q a s' -> Q' a s') -> wlp m Q s -> wlp m Q' s.
Proof. unfold wlp. intros HQ. destruct (m s); [apply HQ | done]. Qed.

Lemma wlp_gets {A} (f : S -> A) (Q : A -> S -> Prop) s :
  Q (f s) s -> wlp (gets f) Q s.
Proof. done. Qed.

Lemma wlp_modify (f : S -> S) (Q : unit -> S -> Prop) s :
  Q tt (f s) -> wlp (modify f) Q s.
Proof. done. Qed.

Lemma wlp_throw {A} (e : E) (Q : A -> S -> Prop) s : wlp (throw e) Q s.
Proof. done. Qed.

Lemma wlp_deref {A} (e : E) (o : option A) (Q : A -> S -> Prop) s :
  (forall a, o = Some a -> Q a s) -> wlp (deref e o) Q s.
Proof. destruct o; [by intros HQ; apply HQ | done]. Qed.

Lemma wlp_skip (Q : unit -> S -> Prop) s : Q tt s -> wlp skip Q s.
Proof. done. Qed.

Lemma wlp_when (b : bool) m (Q : unit -> S -> Prop) s :
  (b = true -> wlp m Q s) -> (b = false -> Q tt s) -> wlp (when b m) Q s.
Proof. destruct b; intros Ht Hf; [by apply Ht | by apply Hf]. Qed.

Lemma twp_wlp {A} (m : M E S A) (Q R : A -> S -> Prop) s :
  twp m Q s -> wlp m R s -> twp m (fun a s' => Q a s' /\ R a s') s.
Proof. unfold twp, wlp. by destruct (m s). Qed.

End Monad.

(** ** Automation *)

Create HintDb prop discriminated.
Create Rewrite HintDb prop.

#[export] Hint Rewrite @ret_bind @bind_ret @bind_assoc : prop.
#[export] Hint Resolve hoare_ret hoare_gets hoare_modify : prop.

(** Unfold the monad's operations in the goal and in every hypothesis. *)
Ltac munfold :=
  unfold when, skip, deref, mbind, M_bind, bind, mret, M_ret, fmap, M_fmap,
    gets, get, put, modify, throw, exec in *.

(** Close a goal that is an instance of a theorem at concrete arguments,
    after evaluating both. *)
Ltac by_instance W :=
  let X := fresh "W" in
  pose proof W as X; vm_compute in X; vm_compute; exact X.

(** Case analysis on the next test or lookup the goal is stuck on. *)
Ltac mcase :=
  match goal with
  | |- context [match ?x with _ => _ end] =>
      (is_var x; destruct x) || (let E := fresh "E" in destruct x eqn:E)
  | |- context [if ?b then _ else _] =>
      (is_var b; destruct b) || (let E := fresh "E" in destruct b eqn:E)
  end.

Ltac mcases := repeat (mcase; simpl in *; try done; simplify_eq).

(** ** Lists as call logs

    The world records every engine call in a list, oldest first.  A handler
    appends; the calls a run issued are the suffix it added. *)

Section Logs.
Context {A : Type}.

(** [issued old new] is what was appended to [old] to obtain [new]. *)
Definition issued (old new : list A) : list A := drop (length old) new.

Lemma issued_app (l k : list A) : issued l (l ++ k) = k.
Proof. unfold issued. by rewrite drop_app_length. Qed.

Lemma issued_refl (l : list A) : issued l l = [].
Proof. unfold issued. by rewrite drop_all. Qed.

Lemma issued_snoc (l : list A) x : issued l (l ++ [x]) = [x].
Proof. apply issued_app. Qed.

Lemma issued_app_assoc (l k1 k2 : list A) :
  issued l ((l ++ k1) ++ k2) = k1 ++ k2.
Proof. by rewrite <- app_assoc, issued_app. Qed.

(** How many entries of a log satisfy a boolean test. *)
Definition count (p : A -> bool) (l : list A) : nat := length (List.filter p l).

Lemma count_app p (l k : list A) : count p (l ++ k) = count p l + count p k.
Proof. unfold count. by rewrite List.filter_app, length_app. Qed.

Lemma count_nil p : count p [] = 0.
Proof. reflexivity. Qed.

Lemma count_cons p x (l : list A) :
  count p (x :: l) = (if p x then 1 else 0) + count p l.
Proof. unfold count. simpl. by destruct (p x). Qed.

End Logs.

#[export] Hint Rewrite @issued_app @issued_refl @issued_snoc @issued_app_assoc
  @count_app @count_nil @count_cons : prop.

(** ** Booleans *)

Lemma negb_true_false b : negb b = true <-> b = false.
Proof. by destruct b. Qed.

Lemma negb_false_true b : negb b = false <-> b = true.
Proof. by destruct b. Qed.

Lemma orb_false_both a b : a || b = false <-> a = false /\ b = false.
Proof. destruct a, b; simpl; intuition congruence. Qed.

Lemma andb_true_both a b : a && b = true <-> a = true /\ b = true.
Proof. destruct a, b; simpl; intuition congruence. Qed.

(** Inequality of booleans as the code writes it ([a != b]). *)
Definition bool_neq (a b : bool) : bool := xorb a b.

Lemma bool_neq_false a b : bool_neq a b = false <-> a = b.
Proof. destruct a, b; simpl; intuition congruence. Qed.

Lemma bool_neq_true a b : bool_neq a b = true <-> a <> b.
Proof. destruct a, b; simpl; intuition congruence. Qed.

Lemma bool_neq_refl a : bool_neq a a = false.
Proof. by destruct a. Qed.

#[export] Hint Rewrite bool_neq_refl : prop.
