(* ===== verification/Scalar.v ===== *)
(** * Scalar: the arithmetic of the source, as an interface

    The component computes on C++ [float].  This file states what the code
    uses of it: the class [Scalar] gives the operations, the class
    [ScalarOrder] the laws of the comparisons that the control flow of the
    handlers relies on.  The laws are the ones IEEE-754 comparisons satisfy
    with NaN present: [<] is a strict order, [<=] is transitive, and the two
    are total only on values that are numbers ([isnum]).  [Float32.v] proves
    them for binary32.

    The engine's scalar helpers that the source calls ([FMath::Clamp],
    [FMath::Min], [FMath::Max], [FMath::Abs], [FMath::IsNearlyZero],
    [FMath::GetMappedRangeValueClamped]) are
    defined on top of the class, with the lemmas the handlers' proofs use. *)

From Stdlib Require Import ZArith.
From stdpp Require Import base tactics.
From S2P Require Import Prelude.

Declare Scope scalar_scope.
Delimit Scope scalar_scope with F.

(** The operations.  [ofZ] is an integer literal; [fltb], [fleb], [feqb] are
    the C++ operators [<], [<=], [==]. *)
Class Scalar (F : Type) : Type := {
  ofZ : Z -> F;
  fadd : F -> F -> F;
  fsub : F -> F -> F;
  fmul : F -> F -> F;
  fdiv : F -> F -> F;
  fsqrt : F -> F;
  fltb : F -> F -> bool;
  fleb : F -> F -> bool;
  feqb : F -> F -> bool
}.

Infix "+" := fadd : scalar_scope.
Infix "-" := fsub : scalar_scope.
Infix "*" := fmul : scalar_scope.
Infix "/" := fdiv : scalar_scope.
Infix "<?" := fltb (at level 70) : scalar_scope.
Infix "<=?" := fleb (at level 70) : scalar_scope.
Infix "=?" := feqb (at level 70) : scalar_scope.
Notation "x >? y" := (fltb y x) (at level 70, only parsing) : scalar_scope.
Notation "x >=? y" := (fleb y x) (at level 70, only parsing) : scalar_scope.
Notation "x < y" := (fltb x y = true) : scalar_scope.
Notation "x <= y" := (fleb x y = true) : scalar_scope.

Local Open Scope scalar_scope.

(** A decimal literal of the source, [n / d]: [dec 1 10] is [0.1f].  Both
    parts are small integers, exactly representable, and the division rounds
    once, as the compiler rounds the literal. *)
Definition dec {F} `{Scalar F} (n : Z) (d : positive) : F := ofZ n / ofZ (Zpos d).

(** [isnum x]: [x] compares with itself, that is, [x] is not a NaN. *)
Definition isnum {F} `{Scalar F} (x : F) : bool := x <=? x.

Class ScalarOrder (F : Type) `{Scalar F} : Prop := {
  fltb_irrefl (x : F) : (x <? x) = false;
  fltb_trans (x y z : F) : x < y -> y < z -> x < z;
  fleb_trans (x y z : F) : x <= y -> y <= z -> x <= z;
  fltb_fleb (x y : F) : x < y -> x <= y;
  fltb_fleb_trans (x y z : F) : x < y -> y <= z -> x < z;
  fleb_fltb_trans (x y z : F) : x <= y -> y < z -> x < z;
  fltb_asym (x y : F) : x < y -> (y <=? x) = false;
  fleb_total (x y : F) : isnum x = true -> isnum y = true -> (x <? y) = false -> y <= x;
  fltb_num (x y : F) : x < y -> isnum x = true /\ isnum y = true;
  fleb_num (x y : F) : x <= y -> isnum x = true /\ isnum y = true;
  feqb_fleb (x y : F) : (x =? y) = (x <=? y) && (y <=? x)
}.

#[export] Hint Resolve fltb_fleb fltb_trans fleb_trans fltb_fleb_trans
  fleb_fltb_trans : prop.

(** ** The engine's scalar helpers *)

Section Helpers.
Context {F : Type} `{Scalar F}.

(** [FMath::Min] and [FMath::Max]: [(A < B) ? A : B] and [(B < A) ? A : B]. *)
Definition Min (a b : F) : F := if a <? b then a else b.
Definition Max (a b : F) : F := if b <? a then a else b.

(** [FMath::Clamp(X, Min, Max)]: [X < Min ? Min : X < Max ? X : Max]. *)
Definition Clamp (x lo hi : F) : F :=
  if x <? lo then lo else if x <? hi then x else hi.

(** [FMath::Abs]. *)
Definition Abs (x : F) : F := if x <? ofZ 0 then ofZ 0 - x else x.

(** [SMALL_NUMBER] (1.e-8f) and [KINDA_SMALL_NUMBER] (1.e-4f). *)
Definition SMALL_NUMBER : F := dec 1 100000000.
Definition KINDA_SMALL_NUMBER : F := dec 1 10000.

(** [FMath::IsNearlyZero(Value, SMALL_NUMBER)]. *)
Definition IsNearlyZero (x : F) : bool := Abs x <=? SMALL_NUMBER.

(** [FMath::Lerp(A, B, Alpha)]: [A + Alpha * (B - A)]. *)
Definition Lerp (a b alpha : F) : F := a + alpha * (b - a).

(** [FMath::GetRangePct(MinValue, MaxValue, Value)]: where [Value] lies
    between the two, as a fraction; a range that is a point gives 0 or 1. *)
Definition GetRangePct (MinValue MaxValue Value : F) : F :=
  let Divisor := MaxValue - MinValue in
  if IsNearlyZero Divisor then (if Value >=? MaxValue then ofZ 1 else ofZ 0)
  else (Value - MinValue) / Divisor.

(** [FMath::GetMappedRangeValueClamped(InputRange, OutputRange, Value)]. *)
Definition GetMappedRangeValueClamped (InMin InMax OutMin OutMax Value : F) : F :=
  let ClampedPct := Clamp (GetRangePct InMin InMax Value) (ofZ 0) (ofZ 1) in
  Lerp OutMin OutMax ClampedPct.

End Helpers.

(** ** Consequences of the order laws *)

Section Order.
Context {F : Type} `{ScalarOrder F}.
Implicit Types x y z lo hi : F.

Lemma fleb_refl x : isnum x = true -> x <= x.
Proof. done. Qed.

Lemma fltb_isnum_l x y : x < y -> isnum x = true.
Proof. intros Hxy. by destruct (fltb_num x y Hxy). Qed.

Lemma fltb_isnum_r x y : x < y -> isnum y = true.
Proof. intros Hxy. by destruct (fltb_num x y Hxy). Qed.

Lemma fleb_isnum_l x y : x <= y -> isnum x = true.
Proof. intros Hxy. by destruct (fleb_num x y Hxy). Qed.

Lemma fleb_isnum_r x y : x <= y -> isnum y = true.
Proof. intros Hxy. by destruct (fleb_num x y Hxy). Qed.

(** [x <= y] excludes [y < x]. *)
Lemma fleb_not_fltb x y : x <= y -> (y <? x) = false.
Proof.
  intros Hxy. destruct (y <? x) eqn:Hyx; [|done].
  apply fltb_asym in Hyx. congruence.
Qed.

(** A comparison with a NaN is false. *)
Lemma fltb_nan_l x y : isnum x = false -> (x <? y) = false.
Proof.
  intros Hx. destruct (x <? y) eqn:Hxy; [|done].
  apply fltb_isnum_l in Hxy. congruence.
Qed.

Lemma fltb_nan_r x y : isnum y = false -> (x <? y) = false.
Proof.
  intros Hy. destruct (x <? y) eqn:Hxy; [|done].
  apply fltb_isnum_r in Hxy. congruence.
Qed.

Lemma fleb_nan_l x y : isnum x = false -> (x <=? y) = false.
Proof.
  intros Hx. destruct (x <=? y) eqn:Hxy; [|done].
  apply fleb_isnum_l in Hxy. congruence.
Qed.

Lemma fleb_nan_r x y : isnum y = false -> (x <=? y) = false.
Proof.
  intros Hy. destruct (x <=? y) eqn:Hxy; [|done].
  apply fleb_isnum_r in Hxy. congruence.
Qed.

(** On numbers, exactly one of [x < y] and [y <= x] holds. *)
Lemma fltb_fleb_dichotomy x y :
  isnum x = true -> isnum y = true -> (x <? y) = negb (y <=? x).
Proof.
  intros Hx Hy. destruct (x <? y) eqn:Hxy.
  - by rewrite (fltb_asym _ _ Hxy).
  - by rewrite (fleb_total _ _ Hx Hy Hxy).
Qed.

(** *** Clamp *)

Lemma Clamp_cases x lo hi :
  Clamp x lo hi = lo \/ Clamp x lo hi = x \/ Clamp x lo hi = hi.
Proof. unfold Clamp. repeat case_match; auto. Qed.

(** The result lies in the interval, whatever [x] is (a NaN included). *)
Lemma Clamp_bounds x lo hi :
  lo <= hi -> lo <= Clamp x lo hi /\ Clamp x lo hi <= hi.
Proof.
  intros Hlh. pose proof (fleb_isnum_l _ _ Hlh) as Hlo.
  pose proof (fleb_isnum_r _ _ Hlh) as Hhi.
  unfold Clamp. destruct (x <? lo) eqn:Hxl; [done|].
  destruct (x <? hi) eqn:Hxh; [|done].
  split; [|by apply fltb_fleb].
  apply fleb_total; [by apply (fltb_isnum_l x hi) | done | done].
Qed.

Lemma Clamp_inside x lo hi : lo <= x -> x < hi -> Clamp x lo hi = x.
Proof.
  intros Hlx Hxh. unfold Clamp.
  by rewrite (fleb_not_fltb _ _ Hlx), Hxh.
Qed.

Lemma Clamp_below x lo hi : x < lo -> Clamp x lo hi = lo.
Proof. intros Hxl. unfold Clamp. by rewrite Hxl. Qed.

Lemma Clamp_above x lo hi : lo <= hi -> hi <= x -> Clamp x lo hi = hi.
Proof.
  intros Hlh Hhx. unfold Clamp.
  rewrite (fleb_not_fltb lo x) by eauto with prop.
  by rewrite (fleb_not_fltb _ _ Hhx).
Qed.

(** A NaN is clamped to the upper bound: both tests are false. *)
Lemma Clamp_nan x lo hi : isnum x = false -> Clamp x lo hi = hi.
Proof.
  intros Hx. unfold Clamp. by rewrite !(fltb_nan_l x) by done.
Qed.

Lemma Clamp_idem x lo hi :
  lo < hi -> Clamp (Clamp x lo hi) lo hi = Clamp x lo hi.
Proof.
  intros Hlh. unfold Clamp. destruct (x <? lo) eqn:Hxl.
  - by rewrite fltb_irrefl, Hlh.
  - destruct (x <? hi) eqn:Hxh; [by rewrite Hxl, Hxh|].
    rewrite (fleb_not_fltb lo hi) by (by apply fltb_fleb).
    by rewrite fltb_irrefl.
Qed.

(** *** Min and Max *)

Lemma Min_cases x y : Min x y = x \/ Min x y = y.
Proof. unfold Min. case_match; auto. Qed.

Lemma Max_cases x y : Max x y = x \/ Max x y = y.
Proof. unfold Max. case_match; auto. Qed.

Lemma Min_le_r x y : isnum y = true -> Min x y <= y.
Proof. intros Hy. unfold Min. case_match; [by apply fltb_fleb | done]. Qed.

Lemma Max_ge_r x y : isnum y = true -> y <= Max x y.
Proof. intros Hy. unfold Max. case_match; [by apply fltb_fleb | done]. Qed.

End Order.

#[export] Hint Resolve Clamp_bounds Clamp_inside Clamp_below Clamp_above
  Clamp_nan : prop.
