(* ===== verification/Float32.v ===== *)
(** * Float32: C++ [float] as IEEE-754 binary32

    The instance of [Scalar] the handlers are evaluated on.  A value is a
    [spec_float] of the Standard Library: a signed zero, a signed infinity,
    NaN, or a finite number [(-1)^s * m * 2^e].  The operations are the
    library's, at precision 24 and maximal exponent 128 (round to nearest,
    ties to even), so [fadd], [fmul], [fdiv] and [fsqrt] round exactly as the
    hardware does.  The comparisons are [SFltb], [SFleb], [SFeqb]: false as
    soon as one operand is NaN, and [-0 == +0].

    The order laws of [ScalarOrder] are proved for every [spec_float], by
    case analysis on the class and sign of the operands. *)

From Stdlib Require Import ZArith Lia Floats.SpecFloat.
From stdpp Require Import base tactics.
From S2P Require Import Prelude Scalar.

Abbreviation b32 := spec_float (only parsing).

Definition b32_prec : Z := 24.
Definition b32_emax : Z := 128.

#[export] Instance b32_scalar : Scalar b32 := {|
  ofZ z := binary_normalize b32_prec b32_emax z 0 false;
  fadd := SFadd b32_prec b32_emax;
  fsub := SFsub b32_prec b32_emax;
  fmul := SFmul b32_prec b32_emax;
  fdiv := SFdiv b32_prec b32_emax;
  fsqrt := SFsqrt b32_prec b32_emax;
  fltb := SFltb;
  fleb := SFleb;
  feqb := SFeqb
|}.

(** The NaN and the infinities, for examples. *)
Definition b32_nan : b32 := S754_nan.
Definition b32_inf : b32 := S754_infinity false.

(** ** The order laws *)

(** Replace every comparison of exponents or mantissas by its three cases. *)
Ltac sf_compare :=
  repeat match goal with
  | |- context [Z.compare ?a ?b] => destruct (Z.compare_spec a b)
  | H : context [Z.compare ?a ?b] |- _ => destruct (Z.compare_spec a b)
  | |- context [PosDef.Pos.compare_cont Eq ?a ?b] =>
      change (PosDef.Pos.compare_cont Eq a b) with (Pos.compare a b);
      destruct (Pos.compare_spec a b)
  | H : context [PosDef.Pos.compare_cont Eq ?a ?b] |- _ =>
      change (PosDef.Pos.compare_cont Eq a b) with (Pos.compare a b) in H;
      destruct (Pos.compare_spec a b)
  end.

(** Case analysis on the class and the sign of a float. *)
Ltac sf_destruct x :=
  let s := fresh "s" in let m := fresh "m" in let e := fresh "e" in
  destruct x as [[]|[]| |[] m e].

Ltac sf_solve :=
  unfold isnum, fltb, fleb, feqb, b32_scalar, SFltb, SFleb, SFeqb in *;
  simpl in *; try congruence; sf_compare; simpl in *;
  try congruence; try lia; auto.

Local Open Scope scalar_scope.

Lemma b32_fltb_irrefl (x : b32) : (x <? x) = false.
Proof. sf_destruct x; sf_solve. Qed.

Lemma b32_fltb_trans (x y z : b32) : x < y -> y < z -> x < z.
Proof. sf_destruct x; sf_destruct y; sf_destruct z; sf_solve. Qed.

Lemma b32_fleb_trans (x y z : b32) : x <= y -> y <= z -> x <= z.
Proof. sf_destruct x; sf_destruct y; sf_destruct z; sf_solve. Qed.

Lemma b32_fltb_fleb (x y : b32) : x < y -> x <= y.
Proof. sf_destruct x; sf_destruct y; sf_solve. Qed.

Lemma b32_fltb_fleb_trans (x y z : b32) : x < y -> y <= z -> x < z.
Proof. sf_destruct x; sf_destruct y; sf_destruct z; sf_solve. Qed.

Lemma b32_fleb_fltb_trans (x y z : b32) : x <= y -> y < z -> x < z.
Proof. sf_destruct x; sf_destruct y; sf_destruct z; sf_solve. Qed.

Lemma b32_fltb_asym (x y : b32) : x < y -> (y <=? x) = false.
Proof. sf_destruct x; sf_destruct y; sf_solve. Qed.

Lemma b32_fleb_total (x y : b32) :
  isnum x = true -> isnum y = true -> (x <? y) = false -> y <= x.
Proof. sf_destruct x; sf_destruct y; sf_solve. Qed.

Lemma b32_fltb_num (x y : b32) : x < y -> isnum x = true /\ isnum y = true.
Proof. sf_destruct x; sf_destruct y; sf_solve. Qed.

Lemma b32_fleb_num (x y : b32) : x <= y -> isnum x = true /\ isnum y = true.
Proof. sf_destruct x; sf_destruct y; sf_solve. Qed.

Lemma b32_feqb_fleb (x y : b32) : (x =? y) = (x <=? y) && (y <=? x).
Proof. sf_destruct x; sf_destruct y; sf_solve. Qed.

#[export] Instance b32_order : ScalarOrder b32 := {|
  fltb_irrefl := b32_fltb_irrefl;
  fltb_trans := b32_fltb_trans;
  fleb_trans := b32_fleb_trans;
  fltb_fleb := b32_fltb_fleb;
  fltb_fleb_trans := b32_fltb_fleb_trans;
  fleb_fltb_trans := b32_fleb_fltb_trans;
  fltb_asym := b32_fltb_asym;
  fleb_total := b32_fleb_total;
  fltb_num := b32_fltb_num;
  fleb_num := b32_fleb_num;
  feqb_fleb := b32_feqb_fleb
|}.

(** ** What is a number *)

Lemma b32_isnum_iff (x : b32) : isnum x = true <-> x <> S754_nan.
Proof. sf_destruct x; sf_solve; split; congruence. Qed.

(** ** The literals of the source, evaluated *)

Example b32_lit_50 : (ofZ 50 : b32) = S754_finite false 13107200 (-18).
Proof. reflexivity. Qed.

Example b32_lit_tenth : (dec 1 10 : b32) = S754_finite false 13421773 (-27).
Proof. reflexivity. Qed.

Example b32_lit_order :
  (ofZ 50 : b32) < ofZ 250 /\ (ofZ (-20000) : b32) < ofZ 0 /\
  (dec 85 100 : b32) < dec 11 10.
Proof. by vm_compute. Qed.

(** The three separations of the hold-distance test: 10, 150 and 10000
    clamp to 50, 150 and 250; NaN and +infinity clamp to 250. *)
Example b32_clamp_examples :
  Clamp (ofZ 10 : b32) (ofZ 50) (ofZ 250) = ofZ 50 /\
  Clamp (ofZ 150 : b32) (ofZ 50) (ofZ 250) = ofZ 150 /\
  Clamp (ofZ 10000 : b32) (ofZ 50) (ofZ 250) = ofZ 250 /\
  Clamp b32_nan (ofZ 50) (ofZ 250) = ofZ 250 /\
  Clamp b32_inf (ofZ 50) (ofZ 250) = ofZ 250.
Proof. by vm_compute. Qed.
