(* ===== verification/Vec.v ===== *)
(** * Vec: the engine's vectors and rotators, as far as the source uses them

    [FVector] is a triple of scalars; the operations are the ones the
    handlers call, written with the engine's formulas and operand order, so
    that they round as the engine's do on binary32:
    [operator+], [operator-], [operator*(float)], [SizeSquared], [Size],
    [DistSquared], [Distance], [GetSafeNormal], [FMath::VInterpTo], and the
    constants [ZeroVector] and [UpVector].  [FRotator] is a triple of angles
    that the source only copies and hands to [FMath::RInterpTo]. *)

From Stdlib Require Import ZArith.
From stdpp Require Import base tactics.
From S2P Require Import Prelude Scalar.

Local Open Scope scalar_scope.

Section Vec.
Context {F : Type} `{Scalar F}.

Record FVector : Type := mkVec { vX : F; vY : F; vZ : F }.

Record FRotator : Type := mkRot { Pitch : F; Yaw : F; Roll : F }.

Definition ZeroVector : FVector := mkVec (ofZ 0) (ofZ 0) (ofZ 0).
Definition UpVector : FVector := mkVec (ofZ 0) (ofZ 0) (ofZ 1).

Definition vadd (a b : FVector) : FVector :=
  mkVec (vX a + vX b) (vY a + vY b) (vZ a + vZ b).

Definition vsub (a b : FVector) : FVector :=
  mkVec (vX a - vX b) (vY a - vY b) (vZ a - vZ b).

(** [V * Scale]. *)
Definition vscale (a : FVector) (s : F) : FVector :=
  mkVec (vX a * s) (vY a * s) (vZ a * s).

(** [X*X + Y*Y + Z*Z]. *)
Definition SizeSquared (a : FVector) : F :=
  vX a * vX a + vY a * vY a + vZ a * vZ a.

Definition Size (a : FVector) : F := fsqrt (SizeSquared a).

(** [Square(V2.X-V1.X) + Square(V2.Y-V1.Y) + Square(V2.Z-V1.Z)]. *)
Definition DistSquared (a b : FVector) : F :=
  (vX b - vX a) * (vX b - vX a) + (vY b - vY a) * (vY b - vY a)
  + (vZ b - vZ a) * (vZ b - vZ a).

Definition Distance (a b : FVector) : F := fsqrt (DistSquared a b).

(** [GetSafeNormal(SMALL_NUMBER)]: the vector itself when its squared length
    is exactly 1, the zero vector when it is below the tolerance, and the
    vector scaled by the inverse square root otherwise.  The engine's
    [InvSqrt] is taken to be [1 / sqrt]. *)
Definition GetSafeNormal (a : FVector) : FVector :=
  let SquareSum := SizeSquared a in
  if SquareSum =? ofZ 1 then a
  else if SquareSum <? SMALL_NUMBER then ZeroVector
  else vscale a (ofZ 1 / fsqrt SquareSum).

(** [FMath::VInterpTo(Current, Target, DeltaTime, InterpSpeed)]. *)
Definition VInterpTo (Current Target : FVector) (DeltaTime InterpSpeed : F) : FVector :=
  if InterpSpeed <=? ofZ 0 then Target
  else
    let Dist := vsub Target Current in
    if SizeSquared Dist <? KINDA_SMALL_NUMBER then Target
    else
      let DeltaMove := vscale Dist (Clamp (DeltaTime * InterpSpeed) (ofZ 0) (ofZ 1)) in
      vadd Current DeltaMove.

End Vec.

Arguments FVector F : clear implicits.
Arguments FRotator F : clear implicits.

Section VecFacts.
Context {F : Type} `{ScalarOrder F}.
Implicit Types a b : FVector F.

Lemma FVector_eq a b : vX a = vX b -> vY a = vY b -> vZ a = vZ b -> a = b.
Proof. destruct a, b. simpl. by intros -> -> ->. Qed.

Lemma FVector_eta a : mkVec (vX a) (vY a) (vZ a) = a.
Proof. by destruct a. Qed.

(** The result of [GetSafeNormal] is the vector, zero, or a rescaling. *)
Lemma GetSafeNormal_cases a :
  GetSafeNormal a = a \/ GetSafeNormal a = ZeroVector \/
  GetSafeNormal a = vscale a (ofZ 1 / fsqrt (SizeSquared a)).
Proof. unfold GetSafeNormal. repeat case_match; auto. Qed.

(** A vector with a NaN squared length is rescaled, not zeroed: neither
    test of [GetSafeNormal] holds for it. *)
Lemma GetSafeNormal_nan a :
  isnum (SizeSquared a) = false ->
  GetSafeNormal a = vscale a (ofZ 1 / fsqrt (SizeSquared a)).
Proof.
  intros Hn. unfold GetSafeNormal.
  rewrite feqb_fleb, (fleb_nan_l _ _ Hn), (fltb_nan_l _ _ Hn). done.
Qed.

(** A vector whose squared length is below the tolerance has the zero
    vector as its safe normal (the tolerance being below 1). *)
Lemma GetSafeNormal_tiny a :
  SMALL_NUMBER < ofZ 1 -> SizeSquared a < SMALL_NUMBER -> GetSafeNormal a = ZeroVector.
Proof.
  intros Hsmall Ha. unfold GetSafeNormal.
  rewrite feqb_fleb, (fltb_asym _ _ (fltb_trans _ _ _ Ha Hsmall)), andb_false_r.
  by rewrite Ha.
Qed.

Lemma VInterpTo_no_speed a b dt speed :
  speed <= ofZ 0 -> VInterpTo a b dt speed = b.
Proof. intros Hs. unfold VInterpTo. by rewrite Hs. Qed.

Lemma VInterpTo_cases a b dt speed :
  VInterpTo a b dt speed = b \/
  VInterpTo a b dt speed =
    vadd a (vscale (vsub b a) (Clamp (dt * speed) (ofZ 0) (ofZ 1))).
Proof. unfold VInterpTo. repeat case_match; auto. Qed.

End VecFacts.
