(* ===== verification/Engine.v ===== *)
(** * Engine: the objects the component points to, and the calls it makes

    The source never owns the mesh, the actors or the holder: it keeps
    pointers and calls the engine through them.  The model keeps these
    objects in stores indexed by identity, so a pointer is an
    [option positive] and two pointers may alias.  Each record has the
    fields that the source reads or that one of its calls sets.

    Every call is a primitive in the monad [W] over [World]: it changes the
    field the call sets, appends itself to the log [calls], and faults when
    its receiver is not in the store.  Getters do not log.  What the solver
    does with a call later (how an impulse changes the velocity, when a body
    falls asleep on its own) is not part of the model. *)

From Stdlib Require Import ZArith.
From stdpp Require Import base tactics option list gmap.
From S2P Require Import Prelude Scalar Vec.

Local Open Scope scalar_scope.
Local Open Scope handler_scope.

(** Object identities. *)
Abbreviation ptr := positive (only parsing).

(** What dereferencing can go wrong with: a null owner, a null world, a
    null body instance, or a pointer to an object that no longer exists. *)
Inductive fault : Type :=
| NullOwner
| NullWorld
| NullBodyInstance
| Dangling.

#[export] Instance fault_eq_dec : EqDecision fault.
Proof. solve_decision. Defined.

Inductive ESleepFamily : Type := SleepNormal | SleepSensitive | SleepCustom.

#[export] Instance ESleepFamily_eq_dec : EqDecision ESleepFamily.
Proof. solve_decision. Defined.

Inductive ERadialImpulseFalloff : Type := RIF_Constant | RIF_Linear.

#[export] Instance ERadialImpulseFalloff_eq_dec : EqDecision ERadialImpulseFalloff.
Proof. solve_decision. Defined.

(** The member functions of the component that are bound to delegates. *)
Inductive Callback : Type :=
| CbSleep
| CbWake
| CbHit
| CbAnyDamage
| CbPointDamage
| CbRadialDamage.

#[export] Instance Callback_eq_dec : EqDecision Callback.
Proof. solve_decision. Defined.

Section Data.
Context {F : Type} `{Scalar F}.

(** A static mesh component with its physics body.  [hasBodyInstance]
    says whether [GetBodyInstance()] returns a body; [bGenerateWakeEvents]
    is the setting of the body that makes the engine broadcast
    [OnComponentSleep] and [OnComponentWake] (off unless the asset or
    [SetGenerateWakeEvents] switches it on; no code of the component
    does). *)
Record Mesh : Type := mkMesh {
  bSimulatePhysics : bool;
  bNotifyRigidBodyCollision : bool;
  bGenerateOverlapEvents : bool;
  hasBodyInstance : bool;
  bGenerateWakeEvents : bool;
  SleepFamily : ESleepFamily;
  LinearDamping : F;
  AngularDamping : F;
  bUseCCD : bool;
  bAwake : bool;
  ComponentVelocity : FVector F;
  ComponentLocation : FVector F;
  Mass : F;
  TickInterval : F;
  MoveIgnoreActors : gset positive;
  OnComponentSleep : list Callback;
  OnComponentWake : list Callback;
  OnComponentHit : list Callback
}.

(** An actor: the prop's owner, or the owner of a holder (possibly a pawn). *)
Record Actor : Type := mkActor {
  bActorTickEnabled : bool;
  ActorLocation : FVector F;
  ActorRotation : FRotator F;
  ActorVelocity : FVector F;
  bReplicateMovement : bool;
  hasAuthority : bool;
  isPawn : bool;
  PawnMoveIgnore : gset positive;
  bDestroyed : bool;
  FirstStaticMesh : option positive;
  OnTakeAnyDamage : list Callback;
  OnTakePointDamage : list Callback;
  OnTakeRadialDamage : list Callback
}.

(** A scene component used as a holder. *)
Record Scene : Type := mkScene {
  SceneLocation : FVector F;
  SceneForward : FVector F;
  SceneRotation : FRotator F;
  SceneOwner : option positive
}.

(** The part of [FHitResult] the source reads. *)
Record HitResult : Type := mkHit {
  HitLocation : FVector F;
  ImpactNormal : FVector F;
  ImpactPoint : FVector F;
  PhysMaterial : option positive
}.

(** The calls that are logged, with their receiver and arguments. *)
Inductive Call : Type :=
| CallSetSimulatePhysics (m : positive) (b : bool)
| CallSetNotifyRigidBodyCollision (m : positive) (b : bool)
| CallSetGenerateOverlapEvents (m : positive) (b : bool)
| CallSetLinearDamping (m : positive) (x : F)
| CallSetAngularDamping (m : positive) (x : F)
| CallSetUseCCD (m : positive) (b : bool)
| CallPutAllRigidBodiesToSleep (m : positive)
| CallWakeAllRigidBodies (m : positive)
| CallSetPhysicsLinearVelocity (m : positive) (v : FVector F)
| CallSetComponentTickInterval (m : positive) (x : F)
| CallIgnoreActorWhenMoving (m : positive) (a : positive) (b : bool)
| CallAddImpulse (m : positive) (v : FVector F) (bVelChange : bool)
| CallAddImpulseAtLocation (m : positive) (v loc : FVector F)
| CallAddRadialImpulse (m : positive) (origin : FVector F) (radius strength : F)
    (falloff : ERadialImpulseFalloff) (bVelChange : bool)
| CallAddDynamic (cb : Callback)
| CallSetActorTickEnabled (a : positive) (b : bool)
| CallSetReplicateMovement (a : positive) (b : bool)
| CallMoveIgnoreActorAdd (pawn : positive) (a : option positive)
| CallMoveIgnoreActorRemove (pawn : positive) (a : option positive)
| CallSetActorLocationAndRotation (a : positive) (loc : FVector F)
    (rot : FRotator F) (bSweep : bool)
| CallDestroy (a : positive)
| CallSetTimer (rate : F) (bLoop : bool)
| CallSetComponentTickEnabled (b : bool)
| CallPlaySoundAtLocation (sound : positive) (loc : FVector F) (volume pitch : F).

(** The world: the stores, the clock, the player's view point, the answers
    of the geometry queries, the random source, and the call log.
    - [sweepOracle start end radius ignored] is the first blocking hit of
      [SweepSingleByChannel] along the segment, [None] for no hit.
    - [moveOracle a from to] is where a sweeping move of actor [a] ends.
    - [rinterp] is [FMath::RInterpTo].
    - [randoms i] is the [i]-th value [FMath::FRand] returns. *)
Record World : Type := mkWorld {
  meshes : gmap positive Mesh;
  actors : gmap positive Actor;
  scenes : gmap positive Scene;
  TimeSeconds : F;
  DeltaSeconds : F;
  playerView : option (FVector F);
  sweepOracle : FVector F -> FVector F -> F -> list (option positive) -> option HitResult;
  moveOracle : positive -> FVector F -> FVector F -> FVector F;
  rinterp : FRotator F -> FRotator F -> F -> F -> FRotator F;
  randoms : nat -> F;
  randIdx : nat;
  calls : list Call
}.

(** ** Field updates *)

Definition set_bSimulatePhysics (v : bool) (x : Mesh) : Mesh :=
  mkMesh v (bNotifyRigidBodyCollision x) (bGenerateOverlapEvents x)
    (hasBodyInstance x) (bGenerateWakeEvents x) (SleepFamily x) (LinearDamping x) (AngularDamping x)
    (bUseCCD x) (bAwake x) (ComponentVelocity x) (ComponentLocation x)
    (Mass x) (TickInterval x) (MoveIgnoreActors x) (OnComponentSleep x)
    (OnComponentWake x) (OnComponentHit x).
Definition set_bNotifyRigidBodyCollision (v : bool) (x : Mesh) : Mesh :=
  mkMesh (bSimulatePhysics x) v (bGenerateOverlapEvents x)
    (hasBodyInstance x) (bGenerateWakeEvents x) (SleepFamily x) (LinearDamping x) (AngularDamping x)
    (bUseCCD x) (bAwake x) (ComponentVelocity x) (ComponentLocation x)
    (Mass x) (TickInterval x) (MoveIgnoreActors x) (OnComponentSleep x)
    (OnComponentWake x) (OnComponentHit x).
Definition set_bGenerateOverlapEvents (v : bool) (x : Mesh) : Mesh :=
  mkMesh (bSimulatePhysics x) (bNotifyRigidBodyCollision x) v
    (hasBodyInstance x) (bGenerateWakeEvents x) (SleepFamily x) (LinearDamping x) (AngularDamping x)
    (bUseCCD x) (bAwake x) (ComponentVelocity x) (ComponentLocation x)
    (Mass x) (TickInterval x) (MoveIgnoreActors x) (OnComponentSleep x)
    (OnComponentWake x) (OnComponentHit x).
Definition set_bGenerateWakeEvents (v : bool) (x : Mesh) : Mesh :=
  mkMesh (bSimulatePhysics x) (bNotifyRigidBodyCollision x)
    (bGenerateOverlapEvents x) (hasBodyInstance x) v (SleepFamily x)
    (LinearDamping x) (AngularDamping x) (bUseCCD x) (bAwake x)
    (ComponentVelocity x) (ComponentLocation x) (Mass x) (TickInterval x)
    (MoveIgnoreActors x) (OnComponentSleep x) (OnComponentWake x)
    (OnComponentHit x).
Definition set_SleepFamily (v : ESleepFamily) (x : Mesh) : Mesh :=
  mkMesh (bSimulatePhysics x) (bNotifyRigidBodyCollision x)
    (bGenerateOverlapEvents x) (hasBodyInstance x) (bGenerateWakeEvents x) v (LinearDamping x)
    (AngularDamping x) (bUseCCD x) (bAwake x) (ComponentVelocity x)
    (ComponentLocation x) (Mass x) (TickInterval x) (MoveIgnoreActors x)
    (OnComponentSleep x) (OnComponentWake x) (OnComponentHit x).
Definition set_LinearDamping (v : F) (x : Mesh) : Mesh :=
  mkMesh (bSimulatePhysics x) (bNotifyRigidBodyCollision x)
    (bGenerateOverlapEvents x) (hasBodyInstance x) (bGenerateWakeEvents x) (SleepFamily x) v
    (AngularDamping x) (bUseCCD x) (bAwake x) (ComponentVelocity x)
    (ComponentLocation x) (Mass x) (TickInterval x) (MoveIgnoreActors x)
    (OnComponentSleep x) (OnComponentWake x) (OnComponentHit x).
Definition set_AngularDamping (v : F) (x : Mesh) : Mesh :=
  mkMesh (bSimulatePhysics x) (bNotifyRigidBodyCollision x)
    (bGenerateOverlapEvents x) (hasBodyInstance x) (bGenerateWakeEvents x) (SleepFamily x)
    (LinearDamping x) v (bUseCCD x) (bAwake x) (ComponentVelocity x)
    (ComponentLocation x) (Mass x) (TickInterval x) (MoveIgnoreActors x)
    (OnComponentSleep x) (OnComponentWake x) (OnComponentHit x).
Definition set_bUseCCD (v : bool) (x : Mesh) : Mesh :=
  mkMesh (bSimulatePhysics x) (bNotifyRigidBodyCollision x)
    (bGenerateOverlapEvents x) (hasBodyInstance x) (bGenerateWakeEvents x) (SleepFamily x)
    (LinearDamping x) (AngularDamping x) v (bAwake x) (ComponentVelocity x)
    (ComponentLocation x) (Mass x) (TickInterval x) (MoveIgnoreActors x)
    (OnComponentSleep x) (OnComponentWake x) (OnComponentHit x).
Definition set_bAwake (v : bool) (x : Mesh) : Mesh :=
  mkMesh (bSimulatePhysics x) (bNotifyRigidBodyCollision x)
    (bGenerateOverlapEvents x) (hasBodyInstance x) (bGenerateWakeEvents x) (SleepFamily x)
    (LinearDamping x) (AngularDamping x) (bUseCCD x) v (ComponentVelocity x)
    (ComponentLocation x) (Mass x) (TickInterval x) (MoveIgnoreActors x)
    (OnComponentSleep x) (OnComponentWake x) (OnComponentHit x).
Definition set_ComponentVelocity (v : FVector F) (x : Mesh) : Mesh :=
  mkMesh (bSimulatePhysics x) (bNotifyRigidBodyCollision x)
    (bGenerateOverlapEvents x) (hasBodyInstance x) (bGenerateWakeEvents x) (SleepFamily x)
    (LinearDamping x) (AngularDamping x) (bUseCCD x) (bAwake x) v
    (ComponentLocation x) (Mass x) (TickInterval x) (MoveIgnoreActors x)
    (OnComponentSleep x) (OnComponentWake x) (OnComponentHit x).
Definition set_TickInterval (v : F) (x : Mesh) : Mesh :=
  mkMesh (bSimulatePhysics x) (bNotifyRigidBodyCollision x)
    (bGenerateOverlapEvents x) (hasBodyInstance x) (bGenerateWakeEvents x) (SleepFamily x)
    (LinearDamping x) (AngularDamping x) (bUseCCD x) (bAwake x)
    (ComponentVelocity x) (ComponentLocation x) (Mass x) v
    (MoveIgnoreActors x) (OnComponentSleep x) (OnComponentWake x)
    (OnComponentHit x).
Definition set_MoveIgnoreActors (v : gset positive) (x : Mesh) : Mesh :=
  mkMesh (bSimulatePhysics x) (bNotifyRigidBodyCollision x)
    (bGenerateOverlapEvents x) (hasBodyInstance x) (bGenerateWakeEvents x) (SleepFamily x)
    (LinearDamping x) (AngularDamping x) (bUseCCD x) (bAwake x)
    (ComponentVelocity x) (ComponentLocation x) (Mass x) (TickInterval x) v
    (OnComponentSleep x) (OnComponentWake x) (OnComponentHit x).
Definition set_OnComponentSleep (v : list Callback) (x : Mesh) : Mesh :=
  mkMesh (bSimulatePhysics x) (bNotifyRigidBodyCollision x)
    (bGenerateOverlapEvents x) (hasBodyInstance x) (bGenerateWakeEvents x) (SleepFamily x)
    (LinearDamping x) (AngularDamping x) (bUseCCD x) (bAwake x)
    (ComponentVelocity x) (ComponentLocation x) (Mass x) (TickInterval x)
    (MoveIgnoreActors x) v (OnComponentWake x) (OnComponentHit x).
Definition set_OnComponentWake (v : list Callback) (x : Mesh) : Mesh :=
  mkMesh (bSimulatePhysics x) (bNotifyRigidBodyCollision x)
    (bGenerateOverlapEvents x) (hasBodyInstance x) (bGenerateWakeEvents x) (SleepFamily x)
    (LinearDamping x) (AngularDamping x) (bUseCCD x) (bAwake x)
    (ComponentVelocity x) (ComponentLocation x) (Mass x) (TickInterval x)
    (MoveIgnoreActors x) (OnComponentSleep x) v (OnComponentHit x).
Definition set_OnComponentHit (v : list Callback) (x : Mesh) : Mesh :=
  mkMesh (bSimulatePhysics x) (bNotifyRigidBodyCollision x)
    (bGenerateOverlapEvents x) (hasBodyInstance x) (bGenerateWakeEvents x) (SleepFamily x)
    (LinearDamping x) (AngularDamping x) (bUseCCD x) (bAwake x)
    (ComponentVelocity x) (ComponentLocation x) (Mass x) (TickInterval x)
    (MoveIgnoreActors x) (OnComponentSleep x) (OnComponentWake x) v.

Definition set_bActorTickEnabled (v : bool) (x : Actor) : Actor :=
  mkActor v (ActorLocation x) (ActorRotation x) (ActorVelocity x)
    (bReplicateMovement x) (hasAuthority x) (isPawn x) (PawnMoveIgnore x)
    (bDestroyed x) (FirstStaticMesh x) (OnTakeAnyDamage x)
    (OnTakePointDamage x) (OnTakeRadialDamage x).
Definition set_ActorLocation (v : FVector F) (x : Actor) : Actor :=
  mkActor (bActorTickEnabled x) v (ActorRotation x) (ActorVelocity x)
    (bReplicateMovement x) (hasAuthority x) (isPawn x) (PawnMoveIgnore x)
    (bDestroyed x) (FirstStaticMesh x) (OnTakeAnyDamage x)
    (OnTakePointDamage x) (OnTakeRadialDamage x).
Definition set_ActorRotation (v : FRotator F) (x : Actor) : Actor :=
  mkActor (bActorTickEnabled x) (ActorLocation x) v (ActorVelocity x)
    (bReplicateMovement x) (hasAuthority x) (isPawn x) (PawnMoveIgnore x)
    (bDestroyed x) (FirstStaticMesh x) (OnTakeAnyDamage x)
    (OnTakePointDamage x) (OnTakeRadialDamage x).
Definition set_bReplicateMovement (v : bool) (x : Actor) : Actor :=
  mkActor (bActorTickEnabled x) (ActorLocation x) (ActorRotation x)
    (ActorVelocity x) v (hasAuthority x) (isPawn x) (PawnMoveIgnore x)
    (bDestroyed x) (FirstStaticMesh x) (OnTakeAnyDamage x)
    (OnTakePointDamage x) (OnTakeRadialDamage x).
Definition set_PawnMoveIgnore (v : gset positive) (x : Actor) : Actor :=
  mkActor (bActorTickEnabled x) (ActorLocation x) (ActorRotation x)
    (ActorVelocity x) (bReplicateMovement x) (hasAuthority x) (isPawn x) v
    (bDestroyed x) (FirstStaticMesh x) (OnTakeAnyDamage x)
    (OnTakePointDamage x) (OnTakeRadialDamage x).
Definition set_bDestroyed (v : bool) (x : Actor) : Actor :=
  mkActor (bActorTickEnabled x) (ActorLocation x) (ActorRotation x)
    (ActorVelocity x) (bReplicateMovement x) (hasAuthority x) (isPawn x)
    (PawnMoveIgnore x) v (FirstStaticMesh x) (OnTakeAnyDamage x)
    (OnTakePointDamage x) (OnTakeRadialDamage x).
Definition set_OnTakeAnyDamage (v : list Callback) (x : Actor) : Actor :=
  mkActor (bActorTickEnabled x) (ActorLocation x) (ActorRotation x)
    (ActorVelocity x) (bReplicateMovement x) (hasAuthority x) (isPawn x)
    (PawnMoveIgnore x) (bDestroyed x) (FirstStaticMesh x) v
    (OnTakePointDamage x) (OnTakeRadialDamage x).
Definition set_OnTakePointDamage (v : list Callback) (x : Actor) : Actor :=
  mkActor (bActorTickEnabled x) (ActorLocation x) (ActorRotation x)
    (ActorVelocity x) (bReplicateMovement x) (hasAuthority x) (isPawn x)
    (PawnMoveIgnore x) (bDestroyed x) (FirstStaticMesh x) (OnTakeAnyDamage x)
    v (OnTakeRadialDamage x).
Definition set_OnTakeRadialDamage (v : list Callback) (x : Actor) : Actor :=
  mkActor (bActorTickEnabled x) (ActorLocation x) (ActorRotation x)
    (ActorVelocity x) (bReplicateMovement x) (hasAuthority x) (isPawn x)
    (PawnMoveIgnore x) (bDestroyed x) (FirstStaticMesh x) (OnTakeAnyDamage x)
    (OnTakePointDamage x) v.

Definition set_meshes (v : gmap positive Mesh) (x : World) : World :=
  mkWorld v (actors x) (scenes x) (TimeSeconds x) (DeltaSeconds x)
    (playerView x) (sweepOracle x) (moveOracle x) (rinterp x) (randoms x)
    (randIdx x) (calls x).
Definition set_actors (v : gmap positive Actor) (x : World) : World :=
  mkWorld (meshes x) v (scenes x) (TimeSeconds x) (DeltaSeconds x)
    (playerView x) (sweepOracle x) (moveOracle x) (rinterp x) (randoms x)
    (randIdx x) (calls x).
Definition set_randIdx (v : nat) (x : World) : World :=
  mkWorld (meshes x) (actors x) (scenes x) (TimeSeconds x) (DeltaSeconds x)
    (playerView x) (sweepOracle x) (moveOracle x) (rinterp x) (randoms x) v
    (calls x).
Definition set_calls (v : list Call) (x : World) : World :=
  mkWorld (meshes x) (actors x) (scenes x) (TimeSeconds x) (DeltaSeconds x)
    (playerView x) (sweepOracle x) (moveOracle x) (rinterp x) (randoms x)
    (randIdx x) v.

End Data.

Arguments Mesh F : clear implicits.
Arguments Actor F : clear implicits.
Arguments Scene F : clear implicits.
Arguments HitResult F : clear implicits.
Arguments Call F : clear implicits.
Arguments World F : clear implicits.

(** ** The monad of engine calls *)

Abbreviation W F A := (M fault (World F) A) (only parsing).

Section Calls.
Context {F : Type} `{Scalar F}.

Definition logCall (c : Call F) : W F unit :=
  modify (fun w => set_calls (calls w ++ [c]) w).

Definition getMesh (p : positive) : W F (Mesh F) :=
  w ← get; deref Dangling (meshes w !! p).

Definition updMesh (p : positive) (f : Mesh F -> Mesh F) : W F unit :=
  m ← getMesh p; modify (fun w => set_meshes (<[p := f m]> (meshes w)) w).

Definition getActor (p : positive) : W F (Actor F) :=
  w ← get; deref Dangling (actors w !! p).

Definition updActor (p : positive) (f : Actor F -> Actor F) : W F unit :=
  a ← getActor p; modify (fun w => set_actors (<[p := f a]> (actors w)) w).

Definition getScene (p : positive) : W F (Scene F) :=
  w ← get; deref Dangling (scenes w !! p).

(** A call on a mesh, or on an actor: update the receiver, then log. *)
Definition meshCall (p : positive) (f : Mesh F -> Mesh F) (c : Call F) : W F unit :=
  updMesh p f;; logCall c.

Definition actorCall (p : positive) (f : Actor F -> Actor F) (c : Call F) : W F unit :=
  updActor p f;; logCall c.

(** *** Calls on the managed mesh *)

Definition SetSimulatePhysics (p : positive) (b : bool) : W F unit :=
  meshCall p (set_bSimulatePhysics b) (CallSetSimulatePhysics p b).

Definition SetNotifyRigidBodyCollision (p : positive) (b : bool) : W F unit :=
  meshCall p (set_bNotifyRigidBodyCollision b) (CallSetNotifyRigidBodyCollision p b).

Definition SetGenerateOverlapEvents (p : positive) (b : bool) : W F unit :=
  meshCall p (set_bGenerateOverlapEvents b) (CallSetGenerateOverlapEvents p b).

Definition SetLinearDamping (p : positive) (x : F) : W F unit :=
  meshCall p (set_LinearDamping x) (CallSetLinearDamping p x).

Definition SetAngularDamping (p : positive) (x : F) : W F unit :=
  meshCall p (set_AngularDamping x) (CallSetAngularDamping p x).

Definition SetUseCCD (p : positive) (b : bool) : W F unit :=
  meshCall p (set_bUseCCD b) (CallSetUseCCD p b).

Definition PutAllRigidBodiesToSleep (p : positive) : W F unit :=
  meshCall p (set_bAwake false) (CallPutAllRigidBodiesToSleep p).

Definition WakeAllRigidBodies (p : positive) : W F unit :=
  meshCall p (set_bAwake true) (CallWakeAllRigidBodies p).

Definition SetPhysicsLinearVelocity (p : positive) (v : FVector F) : W F unit :=
  meshCall p (set_ComponentVelocity v) (CallSetPhysicsLinearVelocity p v).

Definition SetComponentTickInterval (p : positive) (x : F) : W F unit :=
  meshCall p (set_TickInterval x) (CallSetComponentTickInterval p x).

(** [IgnoreActorWhenMoving(Actor, bShouldIgnore)]: [AddUnique] or remove. *)
Definition IgnoreActorWhenMoving (p a : positive) (b : bool) : W F unit :=
  meshCall p
    (fun m => set_MoveIgnoreActors
       (if b then {[a]} ∪ MoveIgnoreActors m else MoveIgnoreActors m ∖ {[a]}) m)
    (CallIgnoreActorWhenMoving p a b).

Definition AddImpulse (p : positive) (v : FVector F) (bVelChange : bool) : W F unit :=
  meshCall p id (CallAddImpulse p v bVelChange).

Definition AddImpulseAtLocation (p : positive) (v loc : FVector F) : W F unit :=
  meshCall p id (CallAddImpulseAtLocation p v loc).

Definition AddRadialImpulse (p : positive) (origin : FVector F) (radius strength : F)
    (falloff : ERadialImpulseFalloff) (bVelChange : bool) : W F unit :=
  meshCall p id (CallAddRadialImpulse p origin radius strength falloff bVelChange).

(** The three multicast delegates of the mesh. *)
Definition BindSleep (p : positive) (cb : Callback) : W F unit :=
  meshCall p (fun m => set_OnComponentSleep (OnComponentSleep m ++ [cb]) m) (CallAddDynamic cb).

Definition BindWake (p : positive) (cb : Callback) : W F unit :=
  meshCall p (fun m => set_OnComponentWake (OnComponentWake m ++ [cb]) m) (CallAddDynamic cb).

Definition BindHit (p : positive) (cb : Callback) : W F unit :=
  meshCall p (fun m => set_OnComponentHit (OnComponentHit m ++ [cb]) m) (CallAddDynamic cb).

(** *** Calls on actors *)

Definition SetActorTickEnabled (a : positive) (b : bool) : W F unit :=
  actorCall a (set_bActorTickEnabled b) (CallSetActorTickEnabled a b).

Definition SetReplicateMovement (a : positive) (b : bool) : W F unit :=
  actorCall a (set_bReplicateMovement b) (CallSetReplicateMovement a b).

(** [APawn::MoveIgnoreActorAdd] and [MoveIgnoreActorRemove]; a null actor
    changes nothing. *)
Definition MoveIgnoreActorAdd (pawn : positive) (a : option positive) : W F unit :=
  actorCall pawn
    (fun x => match a with
              | Some i => set_PawnMoveIgnore ({[i]} ∪ PawnMoveIgnore x) x
              | None => x
              end)
    (CallMoveIgnoreActorAdd pawn a).

Definition MoveIgnoreActorRemove (pawn : positive) (a : option positive) : W F unit :=
  actorCall pawn
    (fun x => match a with
              | Some i => set_PawnMoveIgnore (PawnMoveIgnore x ∖ {[i]}) x
              | None => x
              end)
    (CallMoveIgnoreActorRemove pawn a).

(** [SetActorLocationAndRotation(NewLoc, NewRot, bSweep)]: with [bSweep] the
    move ends where the world lets it end. *)
Definition SetActorLocationAndRotation (a : positive) (loc : FVector F)
    (rot : FRotator F) (bSweep : bool) : W F unit :=
  w ← get;
  actorCall a
    (fun x => set_ActorRotation rot
       (set_ActorLocation
          (if bSweep then moveOracle w a (ActorLocation x) loc else loc) x))
    (CallSetActorLocationAndRotation a loc rot bSweep).

Definition Destroy (a : positive) : W F unit :=
  actorCall a (set_bDestroyed true) (CallDestroy a).

Definition BindAnyDamage (a : positive) (cb : Callback) : W F unit :=
  actorCall a (fun x => set_OnTakeAnyDamage (OnTakeAnyDamage x ++ [cb]) x) (CallAddDynamic cb).

Definition BindPointDamage (a : positive) (cb : Callback) : W F unit :=
  actorCall a (fun x => set_OnTakePointDamage (OnTakePointDamage x ++ [cb]) x) (CallAddDynamic cb).

Definition BindRadialDamage (a : positive) (cb : Callback) : W F unit :=
  actorCall a (fun x => set_OnTakeRadialDamage (OnTakeRadialDamage x ++ [cb]) x) (CallAddDynamic cb).

(** *** World queries and statics *)

Definition SweepSingleByChannel (start stop : FVector F) (radius : F)
    (ignored : list (option positive)) : W F (option (HitResult F)) :=
  gets (fun w => sweepOracle w start stop radius ignored).

(** [FMath::FRand]: the next value of the random source. *)
Definition FRand : W F F :=
  w ← get; modify (set_randIdx (S (randIdx w)));; mret (randoms w (randIdx w)).

(** [FMath::RandRange(Min, Max)]: [Min + (Max - Min) * FRand()]. *)
Definition RandRange (lo hi : F) : W F F :=
  r ← FRand; mret (lo + (hi - lo) * r).

Definition PlaySoundAtLocation (sound : positive) (loc : FVector F) (volume pitch : F) : W F unit :=
  logCall (CallPlaySoundAtLocation sound loc volume pitch).

End Calls.

(** ** How the primitives run

    One equation per primitive and outcome: the receiver is in the store
    ([_Done]) or it is not ([_Fault]).  The handlers' proofs step through a
    body with these, never by unfolding the monad. *)

Section CallFacts.
Context {F : Type} `{Scalar F}.
Implicit Types w : World F.

Lemma logCall_Done w c : logCall c w = Done tt (set_calls (calls w ++ [c]) w).
Proof. reflexivity. Qed.

Lemma getMesh_Done w p x : meshes w !! p = Some x -> getMesh p w = Done x w.
Proof. unfold getMesh. munfold. by intros ->. Qed.

Lemma getMesh_Fault w p : meshes w !! p = None -> getMesh p w = Fault Dangling.
Proof. unfold getMesh. munfold. by intros ->. Qed.

Lemma getActor_Done w p x : actors w !! p = Some x -> getActor p w = Done x w.
Proof. unfold getActor. munfold. by intros ->. Qed.

Lemma getActor_Fault w p : actors w !! p = None -> getActor p w = Fault Dangling.
Proof. unfold getActor. munfold. by intros ->. Qed.

Lemma getScene_Done w p x : scenes w !! p = Some x -> getScene p w = Done x w.
Proof. unfold getScene. munfold. by intros ->. Qed.

Lemma getScene_Fault w p : scenes w !! p = None -> getScene p w = Fault Dangling.
Proof. unfold getScene. munfold. by intros ->. Qed.

Lemma updMesh_Done w p f x :
  meshes w !! p = Some x ->
  updMesh p f w = Done tt (set_meshes (<[p := f x]> (meshes w)) w).
Proof. unfold updMesh, getMesh. munfold. by intros ->. Qed.

Lemma updActor_Done w p f x :
  actors w !! p = Some x ->
  updActor p f w = Done tt (set_actors (<[p := f x]> (actors w)) w).
Proof. unfold updActor, getActor. munfold. by intros ->. Qed.

Lemma meshCall_Done w p f c x :
  meshes w !! p = Some x ->
  meshCall p f c w
  = Done tt (set_calls (calls w ++ [c]) (set_meshes (<[p := f x]> (meshes w)) w)).
Proof. unfold meshCall, updMesh, getMesh, logCall. munfold. by intros ->. Qed.

Lemma meshCall_Fault w p f c :
  meshes w !! p = None -> meshCall p f c w = Fault Dangling.
Proof. unfold meshCall, updMesh, getMesh, logCall. munfold. by intros ->. Qed.

Lemma actorCall_Done w p f c x :
  actors w !! p = Some x ->
  actorCall p f c w
  = Done tt (set_calls (calls w ++ [c]) (set_actors (<[p := f x]> (actors w)) w)).
Proof. unfold actorCall, updActor, getActor, logCall. munfold. by intros ->. Qed.

Lemma actorCall_Fault w p f c :
  actors w !! p = None -> actorCall p f c w = Fault Dangling.
Proof. unfold actorCall, updActor, getActor, logCall. munfold. by intros ->. Qed.

Lemma SetActorLocationAndRotation_Done w a loc rot bSweep x :
  actors w !! a = Some x ->
  SetActorLocationAndRotation a loc rot bSweep w
  = Done tt (set_calls (calls w ++ [CallSetActorLocationAndRotation a loc rot bSweep])
       (set_actors
          (<[a := set_ActorRotation rot
                    (set_ActorLocation
                       (if bSweep then moveOracle w a (ActorLocation x) loc else loc) x)]>
             (actors w)) w)).
Proof.
  intros Hx. unfold SetActorLocationAndRotation, get, bind.
  by rewrite (actorCall_Done _ _ _ _ _ Hx).
Qed.

Lemma SetActorLocationAndRotation_Fault w a loc rot bSweep :
  actors w !! a = None ->
  SetActorLocationAndRotation a loc rot bSweep w = Fault Dangling.
Proof.
  intros Hx. unfold SetActorLocationAndRotation, get, bind.
  by rewrite (actorCall_Fault _ _ _ _ Hx).
Qed.

Lemma FRand_Done w :
  FRand w = Done (randoms w (randIdx w)) (set_randIdx (S (randIdx w)) w).
Proof. reflexivity. Qed.

Lemma RandRange_Done w lo hi :
  RandRange lo hi w
  = Done (lo + (hi - lo) * randoms w (randIdx w)) (set_randIdx (S (randIdx w)) w).
Proof. reflexivity. Qed.

End CallFacts.

(** Reduce projections of updated records, and nothing else.  The updates of
    the world are unfolded, so that a world is always [mkWorld] applied to
    its twelve fields. *)
Ltac engine_simpl :=
  cbv beta delta [set_meshes set_actors set_randIdx set_calls] in *;
  cbn [bSimulatePhysics bNotifyRigidBodyCollision bGenerateOverlapEvents
       hasBodyInstance bGenerateWakeEvents SleepFamily LinearDamping AngularDamping
       bUseCCD bAwake
       ComponentVelocity ComponentLocation Mass TickInterval MoveIgnoreActors
       OnComponentSleep OnComponentWake OnComponentHit
       set_bSimulatePhysics set_bNotifyRigidBodyCollision
       set_bGenerateOverlapEvents set_bGenerateWakeEvents set_SleepFamily
       set_LinearDamping
       set_AngularDamping set_bUseCCD set_bAwake set_ComponentVelocity
       set_TickInterval set_MoveIgnoreActors set_OnComponentSleep
       set_OnComponentWake set_OnComponentHit
       bActorTickEnabled ActorLocation ActorRotation ActorVelocity
       bReplicateMovement hasAuthority isPawn PawnMoveIgnore bDestroyed
       FirstStaticMesh OnTakeAnyDamage OnTakePointDamage OnTakeRadialDamage
       set_bActorTickEnabled set_ActorLocation set_ActorRotation
       set_bReplicateMovement set_PawnMoveIgnore set_bDestroyed
       set_OnTakeAnyDamage set_OnTakePointDamage set_OnTakeRadialDamage
       SceneLocation SceneForward SceneRotation SceneOwner
       HitLocation ImpactNormal ImpactPoint PhysMaterial
       meshes actors scenes TimeSeconds DeltaSeconds playerView sweepOracle
       moveOracle rinterp randoms randIdx calls] in *.

(** Solve a lookup in a store that was updated. *)
Ltac lookup_solve :=
  engine_simpl;
  first [ eassumption
        | apply lookup_insert_eq
        | rewrite lookup_insert_ne by congruence; lookup_solve ].

(** Unfold the named calls to [meshCall] and [actorCall]. *)
Ltac unfold_calls :=
  unfold SetSimulatePhysics, SetNotifyRigidBodyCollision,
    SetGenerateOverlapEvents, SetLinearDamping, SetAngularDamping, SetUseCCD,
    PutAllRigidBodiesToSleep, WakeAllRigidBodies, SetPhysicsLinearVelocity,
    SetComponentTickInterval, IgnoreActorWhenMoving, AddImpulse,
    AddImpulseAtLocation, AddRadialImpulse, BindSleep, BindWake, BindHit,
    SetActorTickEnabled, SetReplicateMovement, MoveIgnoreActorAdd,
    MoveIgnoreActorRemove, Destroy, BindAnyDamage, BindPointDamage,
    BindRadialDamage, SweepSingleByChannel, PlaySoundAtLocation in *.
