(* ===== verification/ImpactData.v ===== *)
(** * ImpactData: the impact sound table (PropPhysicsImpactData.h)

    [FImpactSoundEntry] pairs a sound asset with a volume multiplier;
    [UPropPhysicsImpactData] maps physical materials to entries and has one
    default entry.  The table is authored outside the component and never
    written by it, so the component holds it by value.  A key of the map is
    a [UPhysicalMaterial*], which may be null: the key type is
    [option positive]. *)

From Stdlib Require Import ZArith.
From stdpp Require Import base tactics option gmap.
From S2P Require Import Prelude Scalar.

Section ImpactData.
Context {F : Type} `{Scalar F}.

Record FImpactSoundEntry : Type := mkEntry {
  ImpactSound : option positive;
  VolumeMultiplier : F
}.

(** The default member initialisers: no sound, multiplier 1. *)
Definition defaultEntry : FImpactSoundEntry :=
  mkEntry None (ofZ 1).

Record UPropPhysicsImpactData : Type := mkImpactData {
  ImpactMap : gmap (option positive) FImpactSoundEntry;
  DefaultSound : FImpactSoundEntry
}.

(** A freshly created asset: an empty map and a default entry. *)
Definition emptyImpactData : UPropPhysicsImpactData :=
  mkImpactData ∅ defaultEntry.

End ImpactData.

Arguments FImpactSoundEntry F : clear implicits.
Arguments UPropPhysicsImpactData F : clear implicits.
