(* ===== verification/Component.v ===== *)
(** * Component: the fields of [UPhysicsPropComponent] and its state monad

    [Config] holds the editable properties of PhysicsPropComponent.h,
    [Comp] the private members and what the handlers use of the
    [UActorComponent] base (owner, world, tick function).  [newComp] is the
    constructor together with the default member initialisers.

    A handler runs on [State], the world and the component, in the monad
    [H].  [call] runs an engine primitive of [Engine.v] in it; [theOwner]
    and [theWorld] are the unchecked dereferences [GetOwner()->] and
    [GetWorld()->] of the source. *)

From Stdlib Require Import ZArith.
From stdpp Require Import base tactics option list gmap.
From S2P Require Import Prelude Scalar Vec Engine ImpactData.

Local Open Scope scalar_scope.
Local Open Scope handler_scope.

Section Component.
Context {F : Type} `{Scalar F}.

(** The editable properties. *)
Record Config : Type := mkConfig {
  PhysicsCullDistance : F;
  DistanceCheckInterval : F;
  CCDSpeedThreshold : F;
  ImpactTable : option (UPropPhysicsImpactData F);
  MinImpactThreshold : F;
  ImpactCooldown : F
}.

(** The active distance-check timer: its period, and whether it loops. *)
Record Timer : Type := mkTimer { timerRate : F; timerLoop : bool }.

Record Comp : Type := mkComp {
  cfg : Config;
  ManagedMesh : option positive;
  LastImpactTime : F;
  bIsGrabbed : bool;
  CurrentHolder : option positive;
  HoldDistance : F;
  TimerHandle_DistanceCheck : option Timer;
  bCanEverTick : bool;
  bStartWithTickEnabled : bool;
  bTickEnabled : bool;
  compOwner : option positive;
  hasWorld : bool
}.

(** The initial values of the properties in the class declaration. *)
Definition defaultConfig : Config :=
  mkConfig (ofZ 3000) (ofZ 1) (ofZ 500) None (ofZ 10000) (dec 1 10).

(** The constructor: the component can tick but does not start ticking,
    and the three optimisation properties are assigned again.  [owner] and
    [inWorld] are what the engine sets when it registers the component. *)
Definition newComp (owner : option positive) (inWorld : bool) : Comp :=
  let c := defaultConfig in
  {| cfg := mkConfig (ofZ 3000) (ofZ 1) (ofZ 500)
              (ImpactTable c) (MinImpactThreshold c) (ImpactCooldown c);
     ManagedMesh := None;
     LastImpactTime := ofZ 0;
     bIsGrabbed := false;
     CurrentHolder := None;
     HoldDistance := ofZ 0;
     TimerHandle_DistanceCheck := None;
     bCanEverTick := true;
     bStartWithTickEnabled := false;
     bTickEnabled := false;
     compOwner := owner;
     hasWorld := inWorld |}.

Record State : Type := mkState { world : World F; self : Comp }.

(** ** Field updates *)

Definition set_cfg (v : Config) (x : Comp) : Comp :=
  mkComp v (ManagedMesh x) (LastImpactTime x) (bIsGrabbed x)
    (CurrentHolder x) (HoldDistance x) (TimerHandle_DistanceCheck x)
    (bCanEverTick x) (bStartWithTickEnabled x) (bTickEnabled x) (compOwner x)
    (hasWorld x).
Definition set_ManagedMesh (v : option positive) (x : Comp) : Comp :=
  mkComp (cfg x) v (LastImpactTime x) (bIsGrabbed x) (CurrentHolder x)
    (HoldDistance x) (TimerHandle_DistanceCheck x) (bCanEverTick x)
    (bStartWithTickEnabled x) (bTickEnabled x) (compOwner x) (hasWorld x).
Definition set_LastImpactTime (v : F) (x : Comp) : Comp :=
  mkComp (cfg x) (ManagedMesh x) v (bIsGrabbed x) (CurrentHolder x)
    (HoldDistance x) (TimerHandle_DistanceCheck x) (bCanEverTick x)
    (bStartWithTickEnabled x) (bTickEnabled x) (compOwner x) (hasWorld x).
Definition set_bIsGrabbed (v : bool) (x : Comp) : Comp :=
  mkComp (cfg x) (ManagedMesh x) (LastImpactTime x) v (CurrentHolder x)
    (HoldDistance x) (TimerHandle_DistanceCheck x) (bCanEverTick x)
    (bStartWithTickEnabled x) (bTickEnabled x) (compOwner x) (hasWorld x).
Definition set_CurrentHolder (v : option positive) (x : Comp) : Comp :=
  mkComp (cfg x) (ManagedMesh x) (LastImpactTime x) (bIsGrabbed x) v
    (HoldDistance x) (TimerHandle_DistanceCheck x) (bCanEverTick x)
    (bStartWithTickEnabled x) (bTickEnabled x) (compOwner x) (hasWorld x).
Definition set_HoldDistance (v : F) (x : Comp) : Comp :=
  mkComp (cfg x) (ManagedMesh x) (LastImpactTime x) (bIsGrabbed x)
    (CurrentHolder x) v (TimerHandle_DistanceCheck x) (bCanEverTick x)
    (bStartWithTickEnabled x) (bTickEnabled x) (compOwner x) (hasWorld x).
Definition set_TimerHandle (v : option Timer) (x : Comp) : Comp :=
  mkComp (cfg x) (ManagedMesh x) (LastImpactTime x) (bIsGrabbed x)
    (CurrentHolder x) (HoldDistance x) v (bCanEverTick x)
    (bStartWithTickEnabled x) (bTickEnabled x) (compOwner x) (hasWorld x).
Definition set_bTickEnabled (v : bool) (x : Comp) : Comp :=
  mkComp (cfg x) (ManagedMesh x) (LastImpactTime x) (bIsGrabbed x)
    (CurrentHolder x) (HoldDistance x) (TimerHandle_DistanceCheck x)
    (bCanEverTick x) (bStartWithTickEnabled x) v (compOwner x) (hasWorld x).

Definition set_world (v : World F) (x : State) : State := mkState v (self x).
Definition set_self (v : Comp) (x : State) : State := mkState (world x) v.

End Component.

Arguments Config F : clear implicits.
Arguments Timer F : clear implicits.
Arguments Comp F : clear implicits.
Arguments State F : clear implicits.

(** ** The handler monad *)

Abbreviation H F A := (M fault (State F) A) (only parsing).

Section Handlers.
Context {F : Type} `{Scalar F}.

(** Run an engine primitive on the world of the state. *)
Definition call {A} (m : W F A) : H F A := fun s =>
  match m (world s) with
  | Done a w => Done a (set_world w s)
  | Fault e => Fault e
  end.

(** Read a member of [this]; assign members of [this]. *)
Definition this {A} (f : Comp F -> A) : H F A := gets (fun s => f (self s)).
Definition assign (f : Comp F -> Comp F) : H F unit :=
  modify (fun s => set_self (f (self s)) s).

(** [GetOwner()], and [GetOwner()->]: the second faults on null. *)
Definition GetOwner : H F (option positive) := this compOwner.
Definition theOwner : H F positive := o ← GetOwner; deref NullOwner o.

(** [GetWorld()] as a test, and [GetWorld()->]. *)
Definition GetWorld : H F bool := this hasWorld.
Definition theWorld : H F unit :=
  b ← GetWorld; if b then skip else throw NullWorld.

(** [SetComponentTickEnabled]: effective only if the component can tick. *)
Definition SetComponentTickEnabled (b : bool) : H F unit :=
  can ← this bCanEverTick;
  when can (assign (set_bTickEnabled b));;
  call (logCall (CallSetComponentTickEnabled b)).

(** [GetOwnerRole() == ROLE_Authority]; no owner means no authority. *)
Definition OwnerHasAuthority : H F bool :=
  o ← GetOwner;
  match o with
  | Some a => x ← call (getActor a); mret (hasAuthority x)
  | None => mret false
  end.

End Handlers.

(** ** How the component's operations run *)

Section HandlerFacts.
Context {F : Type} `{Scalar F}.
Implicit Types s : State F.

Lemma call_Done {A} (m : W F A) s a w :
  m (world s) = Done a w -> call m s = Done a (set_world w s).
Proof. unfold call. by intros ->. Qed.

Lemma call_Fault {A} (m : W F A) s e :
  m (world s) = Fault e -> call m s = Fault e.
Proof. unfold call. by intros ->. Qed.

Lemma this_Done {A} (f : Comp F -> A) s : this f s = Done (f (self s)) s.
Proof. reflexivity. Qed.

Lemma assign_Done (f : Comp F -> Comp F) s :
  assign f s = Done tt (set_self (f (self s)) s).
Proof. reflexivity. Qed.

Lemma skip_Done s : skip s = @Done fault _ _ tt s.
Proof. reflexivity. Qed.

Lemma GetOwner_Done s : GetOwner s = Done (compOwner (self s)) s.
Proof. reflexivity. Qed.

Lemma GetWorld_Done s : GetWorld s = Done (hasWorld (self s)) s.
Proof. reflexivity. Qed.

Lemma theOwner_Done s a : compOwner (self s) = Some a -> theOwner s = Done a s.
Proof. unfold theOwner, GetOwner, this. munfold. by intros ->. Qed.

Lemma theOwner_Fault s : compOwner (self s) = None -> theOwner s = Fault NullOwner.
Proof. unfold theOwner, GetOwner, this. munfold. by intros ->. Qed.

Lemma theWorld_Done s : hasWorld (self s) = true -> theWorld s = Done tt s.
Proof. unfold theWorld, GetWorld, this. munfold. by intros ->. Qed.

Lemma theWorld_Fault s : hasWorld (self s) = false -> theWorld s = Fault NullWorld.
Proof. unfold theWorld, GetWorld, this. munfold. by intros ->. Qed.

Lemma SetComponentTickEnabled_Done s b :
  SetComponentTickEnabled b s
  = Done tt
      (mkState
         (set_calls (calls (world s) ++ [CallSetComponentTickEnabled b]) (world s))
         (if bCanEverTick (self s) then set_bTickEnabled b (self s) else self s)).
Proof.
  unfold SetComponentTickEnabled, this, assign, call, logCall. munfold.
  destruct s as [w c]. simpl. by destruct (bCanEverTick c).
Qed.

(** *** Rules of [wlp] for the component's operations

    An engine call may return anything and leave any world; what the
    component's own fields satisfy afterwards is what they satisfied
    before. *)

Lemma wlp_call {A} (m : W F A) (Q : A -> State F -> Prop) s :
  (forall a w, Q a (set_world w s)) -> wlp (call m) Q s.
Proof. intros HQ. unfold wlp, call. destruct (m (world s)); [apply HQ | done]. Qed.

Lemma wlp_this {A} (f : Comp F -> A) (Q : A -> State F -> Prop) s :
  Q (f (self s)) s -> wlp (this f) Q s.
Proof. done. Qed.

Lemma wlp_assign (f : Comp F -> Comp F) (Q : unit -> State F -> Prop) s :
  Q tt (set_self (f (self s)) s) -> wlp (assign f) Q s.
Proof. done. Qed.

Lemma wlp_theOwner (Q : positive -> State F -> Prop) s :
  (forall a, compOwner (self s) = Some a -> Q a s) -> wlp theOwner Q s.
Proof.
  intros HQ. unfold wlp. destruct (compOwner (self s)) as [a|] eqn:Ho.
  - rewrite (theOwner_Done s a Ho). by apply HQ.
  - by rewrite (theOwner_Fault s Ho).
Qed.

Lemma wlp_theWorld (Q : unit -> State F -> Prop) s :
  (hasWorld (self s) = true -> Q tt s) -> wlp theWorld Q s.
Proof.
  intros HQ. unfold wlp. destruct (hasWorld (self s)) eqn:Hw.
  - rewrite (theWorld_Done s Hw). by apply HQ.
  - by rewrite (theWorld_Fault s Hw).
Qed.

Lemma wlp_SetComponentTickEnabled b (Q : unit -> State F -> Prop) s :
  (forall w, Q tt (mkState w (if bCanEverTick (self s)
                               then set_bTickEnabled b (self s) else self s))) ->
  wlp (SetComponentTickEnabled b) Q s.
Proof. intros HQ. unfold wlp. rewrite SetComponentTickEnabled_Done. apply HQ. Qed.

End HandlerFacts.

(** Reduce projections of updated records of the component and the state;
    a state is always [mkState] applied to a world and a component. *)
Ltac state_simpl :=
  cbv beta delta [set_world set_self] in *;
  cbn [world self
       cfg ManagedMesh LastImpactTime bIsGrabbed CurrentHolder HoldDistance
       TimerHandle_DistanceCheck bCanEverTick bStartWithTickEnabled bTickEnabled
       compOwner hasWorld
       set_cfg set_ManagedMesh set_LastImpactTime set_bIsGrabbed
       set_CurrentHolder set_HoldDistance set_TimerHandle set_bTickEnabled
       PhysicsCullDistance DistanceCheckInterval CCDSpeedThreshold ImpactTable
       MinImpactThreshold ImpactCooldown timerRate timerLoop
       negb andb orb xorb bool_neq] in *;
  engine_simpl.

(** The outcome of the first operation of a sequence. *)
Ltac run1 :=
  state_simpl;
  first
    [ apply this_Done | apply assign_Done | apply skip_Done
    | apply GetOwner_Done | apply GetWorld_Done
    | apply SetComponentTickEnabled_Done
    | apply theOwner_Done; state_simpl; eassumption
    | apply theWorld_Done; state_simpl; eassumption
    | apply call_Done;
      first
        [ apply logCall_Done
        | apply meshCall_Done; state_simpl; lookup_solve
        | apply updMesh_Done; state_simpl; lookup_solve
        | apply updActor_Done; state_simpl; lookup_solve
        | apply actorCall_Done; state_simpl; lookup_solve
        | apply getMesh_Done; state_simpl; lookup_solve
        | apply getActor_Done; state_simpl; lookup_solve
        | apply getScene_Done; state_simpl; lookup_solve
        | apply SetActorLocationAndRotation_Done; state_simpl; lookup_solve
        | apply FRand_Done | apply RandRange_Done
        | reflexivity ]
    | reflexivity ].

(** The first operation of a sequence faults. *)
Ltac fault1 :=
  state_simpl;
  first
    [ apply theOwner_Fault; state_simpl; eassumption
    | apply theWorld_Fault; state_simpl; eassumption
    | apply call_Fault;
      first
        [ apply meshCall_Fault; state_simpl; lookup_solve
        | apply actorCall_Fault; state_simpl; lookup_solve
        | apply getMesh_Fault; state_simpl; lookup_solve
        | apply getActor_Fault; state_simpl; lookup_solve
        | apply getScene_Fault; state_simpl; lookup_solve
        | apply SetActorLocationAndRotation_Fault; state_simpl; lookup_solve
        | reflexivity ] ].

(** Decide a test of the body with an equation of the context. *)
Ltac hsubst :=
  repeat match goal with
  | Heq : ?x = _ |- context [match ?x with _ => _ end] => rewrite Heq
  | Heq : ?x = _ |- context [if ?x then _ else _] => rewrite Heq
  | Heq : ?x = true |- context [if ?c then _ else _] =>
      match c with context [x] => rewrite Heq; cbn [negb andb orb bool_neq xorb] end
  | Heq : ?x = false |- context [if ?c then _ else _] =>
      match c with context [x] => rewrite Heq; cbn [negb andb orb bool_neq xorb] end
  end.

(** One step of a handler: run the first operation, continue with the rest. *)
Ltac hstep :=
  lazymatch goal with
  | |- bind (bind _ _) _ _ = _ => apply bind_assoc_step
  | |- bind _ _ _ = _ => eapply bind_step; [run1|]
  end; cbv beta; state_simpl; rewrite ?insert_insert_eq; hsubst.

(** Run a whole body: the goal is [body s = Done ?a ?s']. *)
Ltac hrun :=
  unfold_calls; unfold when; state_simpl; hsubst; repeat hstep;
  lazymatch goal with
  | |- Done _ _ = _ => reflexivity
  | |- _ => first [ run1 | reflexivity ]
  end.

(** Run a body whatever its outcome: the goal is [body s = ?o], and the
    lookups the body depends on are in the context. *)
Ltac hrun_any :=
  unfold_calls; unfold when; state_simpl; hsubst;
  repeat first
    [ rewrite bind_assoc | erewrite bind_Done by run1
    | erewrite bind_Fault by fault1 | progress (state_simpl; hsubst) ];
  first [ reflexivity | run1 | fault1 ].

(** One rule of [wlp], chosen by the head of the program. *)
Ltac wlp_step :=
  lazymatch goal with
  | |- wlp (bind _ _) _ _ => apply wlp_bind
  | |- wlp (this _) _ _ => apply wlp_this
  | |- wlp (assign _) _ _ => apply wlp_assign
  | |- wlp (call _) _ _ => apply wlp_call; intros ? ?
  | |- wlp skip _ _ => apply wlp_skip
  | |- wlp (mret _) _ _ => apply wlp_ret
  | |- wlp theOwner _ _ => apply wlp_theOwner; intros ? ?
  | |- wlp theWorld _ _ => apply wlp_theWorld; intros ?
  | |- wlp GetOwner _ _ => apply wlp_this
  | |- wlp GetWorld _ _ => apply wlp_this
  | |- wlp (SetComponentTickEnabled _) _ _ =>
      apply wlp_SetComponentTickEnabled; intros ?
  | |- wlp (when _ _) _ _ => apply wlp_when; intros ?
  | |- wlp (match ?x with _ => _ end) _ _ => destruct x eqn:?
  | |- wlp (if ?x then _ else _) _ _ => destruct x eqn:?
  end; cbv beta.

(** All of them, down to the facts about the component's fields. *)
Ltac wlp_auto := repeat wlp_step; state_simpl.

(** ** Well-formed states

    The pointers of the component lead to objects of the world: the managed
    mesh, the holder and its owner, the component's own actor; and the
    component is registered in a world.  In such a state no handler
    dereferences a null or stale pointer. *)

Section WellFormed.
Context {F : Type} `{Scalar F}.

Definition mesh_ok (w : World F) (o : option positive) : Prop :=
  match o with
  | Some m => is_Some (meshes w !! m)
  | None => True
  end.

Definition owner_ok (w : World F) (o : option positive) : Prop :=
  match o with
  | Some a => is_Some (actors w !! a)
  | None => True
  end.

Definition holder_ok (w : World F) (o : option positive) : Prop :=
  match o with
  | Some h =>
      match scenes w !! h with
      | Some hs => owner_ok w (SceneOwner hs)
      | None => False
      end
  | None => True
  end.

Definition wf (s : State F) : Prop :=
  mesh_ok (world s) (ManagedMesh (self s)) /\
  holder_ok (world s) (CurrentHolder (self s)) /\
  is_Some (compOwner (self s)) /\
  owner_ok (world s) (compOwner (self s)) /\
  hasWorld (self s) = true.

#[export] Instance mesh_ok_dec w o : Decision (mesh_ok w o).
Proof. unfold mesh_ok. destruct o; apply _. Defined.

#[export] Instance owner_ok_dec w o : Decision (owner_ok w o).
Proof. unfold owner_ok. destruct o; apply _. Defined.

#[export] Instance holder_ok_dec w o : Decision (holder_ok w o).
Proof.
  unfold holder_ok. destruct o as [h|]; [|apply _].
  destruct (scenes w !! h); apply _.
Defined.

#[export] Instance wf_dec s : Decision (wf s).
Proof. unfold wf. apply _. Defined.

End WellFormed.
