(* ===== verification/Frame.v ===== *)
(** * Frame: what a handler keeps of the world

    A handler reaches the world through the primitives of [Engine.v] only.
    To show that a handler keeps a relation between the world before and
    the world after, it is enough to show it of the primitives the handler
    calls: the relation is a preorder, and a handler is a sequence of
    calls.

    - [WorldRel R] is the interface: [R] is a preorder that appending to
      the log and drawing a random number keep, with the updates of one
      mesh ([mesh_rel]) and of one actor ([actor_rel]) that keep it.
    - [wkeeps R m] says that the primitive [m] keeps [R], [hkeeps R body]
      that a handler does; [wlp_call_keeps] is the rule of [wlp] for a
      call with the world's history kept, and [hkeeps_auto] walks through
      a body with it.
    - [evolves] is the instance for what no handler changes: no object is
      removed or added, no mesh gains or loses its body instance, no
      callback is unbound, no scene component changes, no logged call is
      erased.  [calm] is the instance of the handlers that touch no mesh
      and destroy no actor.

    The delegates of the model are lists of [Callback]; in the source a
    delegate has a signature, and [AddDynamic] accepts a member function
    of that signature only.  [typedMesh] and [typedActor] say that every
    callback in a delegate is the one of its signature; [evolves] keeps
    them. *)

From Stdlib Require Import ZArith.
From stdpp Require Import base tactics option list gmap.
From S2P Require Import Prelude Scalar Vec Engine ImpactData Component.

Local Open Scope scalar_scope.
Local Open Scope handler_scope.

(** ** The interface *)

Class WorldRel {F : Type} `{Scalar F} (R : relation (World F)) : Type := {
  mesh_rel : relation (Mesh F);
  actor_rel : relation (Actor F);
  wr_preorder :: PreOrder R;
  wr_log w c : R w (set_calls (calls w ++ [c]) w);
  wr_rand w n : R w (set_randIdx n w);
  wr_mesh w p x x' :
    meshes w !! p = Some x -> mesh_rel x x' ->
    R w (set_meshes (<[p := x']> (meshes w)) w);
  wr_actor w p x x' :
    actors w !! p = Some x -> actor_rel x x' ->
    R w (set_actors (<[p := x']> (actors w)) w)
}.

Arguments mesh_rel {F _} R {_} _ _.
Arguments actor_rel {F _} R {_} _ _.

Section Keeps.
Context {F : Type} `{Scalar F}.
Context (R : relation (World F)) `{!WorldRel R}.

(** An engine primitive keeps [R]. *)
Definition wkeeps {A} (m : W F A) : Prop :=
  forall w a w', m w = Done a w' -> R w w'.

(** A handler keeps [R]. *)
Definition hkeeps {A} (m : H F A) : Prop :=
  forall s, wlp m (fun _ s' => R (world s) (world s')) s.

Lemma wkeeps_logCall c : wkeeps (logCall c).
Proof. intros w a w'. rewrite logCall_Done. intros [= _ <-]. apply wr_log. Qed.

Lemma wkeeps_gets {A} (f : World F -> A) : wkeeps (gets f).
Proof. intros w a w' [= _ <-]. reflexivity. Qed.

Lemma wkeeps_mret {A} (a : A) : wkeeps (mret a : W F A).
Proof. intros w r w' [= _ <-]. reflexivity. Qed.

Lemma wkeeps_throw {A} e : wkeeps (throw e : W F A).
Proof. by intros w r w'. Qed.

Lemma wkeeps_getMesh p : wkeeps (getMesh p).
Proof.
  intros w a w'. destruct (meshes w !! p) eqn:Hp.
  - rewrite (getMesh_Done _ _ _ Hp). by intros [= _ <-].
  - by rewrite (getMesh_Fault _ _ Hp).
Qed.

Lemma wkeeps_getActor p : wkeeps (getActor p).
Proof.
  intros w a w'. destruct (actors w !! p) eqn:Hp.
  - rewrite (getActor_Done _ _ _ Hp). by intros [= _ <-].
  - by rewrite (getActor_Fault _ _ Hp).
Qed.

Lemma wkeeps_getScene p : wkeeps (getScene p).
Proof.
  intros w a w'. destruct (scenes w !! p) eqn:Hp.
  - rewrite (getScene_Done _ _ _ Hp). by intros [= _ <-].
  - by rewrite (getScene_Fault _ _ Hp).
Qed.

Lemma wkeeps_RandRange lo hi : wkeeps (RandRange lo hi).
Proof. intros w a w'. rewrite RandRange_Done. intros [= _ <-]. apply wr_rand. Qed.

Lemma wkeeps_updMesh p f : (forall x, mesh_rel R x (f x)) -> wkeeps (updMesh p f).
Proof.
  intros Hf w a w'. destruct (meshes w !! p) as [x|] eqn:Hp.
  - rewrite (updMesh_Done _ _ _ _ Hp). intros [= _ <-]. by eapply wr_mesh.
  - unfold updMesh, bind. by rewrite (getMesh_Fault _ _ Hp).
Qed.

Lemma wkeeps_meshCall p f c : (forall x, mesh_rel R x (f x)) -> wkeeps (meshCall p f c).
Proof.
  intros Hf w a w'. destruct (meshes w !! p) as [x|] eqn:Hp.
  - rewrite (meshCall_Done _ _ _ _ _ Hp). intros [= _ <-].
    trans (set_meshes (<[p := f x]> (meshes w)) w);
      [by eapply wr_mesh | apply (wr_log (set_meshes _ w))].
  - by rewrite (meshCall_Fault _ _ _ _ Hp).
Qed.

Lemma wkeeps_actorCall p f c : (forall x, actor_rel R x (f x)) -> wkeeps (actorCall p f c).
Proof.
  intros Hf w a w'. destruct (actors w !! p) as [x|] eqn:Hp.
  - rewrite (actorCall_Done _ _ _ _ _ Hp). intros [= _ <-].
    trans (set_actors (<[p := f x]> (actors w)) w);
      [by eapply wr_actor | apply (wr_log (set_actors _ w))].
  - by rewrite (actorCall_Fault _ _ _ _ Hp).
Qed.

Lemma wkeeps_SetActorLocationAndRotation a loc rot bSweep :
  (forall x v r, actor_rel R x (set_ActorRotation r (set_ActorLocation v x))) ->
  wkeeps (SetActorLocationAndRotation a loc rot bSweep).
Proof.
  intros Hf w r w'. destruct (actors w !! a) as [x|] eqn:Hp.
  - rewrite (SetActorLocationAndRotation_Done _ _ _ _ _ _ Hp). intros [= _ <-].
    etrans; [|apply (wr_log (set_actors _ w))]. by eapply wr_actor.
  - by rewrite (SetActorLocationAndRotation_Fault _ _ _ _ _ Hp).
Qed.

(** *** Handlers *)

Lemma hkeeps_Done {A} (m : H F A) s a s' :
  hkeeps m -> m s = Done a s' -> R (world s) (world s').
Proof. intros Hk Hm. exact (wlp_Done _ _ _ _ _ (Hk s) Hm). Qed.

Lemma hkeeps_bind {A B} (m : H F A) (k : A -> H F B) :
  hkeeps m -> (forall a, hkeeps (k a)) -> hkeeps (bind m k).
Proof.
  intros Hm Hk s. apply wlp_bind. eapply wlp_mono; [|apply Hm].
  intros a s1 Hev. cbv beta. eapply wlp_mono; [|apply Hk].
  intros b s2 Hev'. exact (transitivity Hev Hev').
Qed.

Lemma hkeeps_skip : hkeeps (skip : H F unit).
Proof. intros s. apply wlp_skip. reflexivity. Qed.

(** The rules of [wlp] for the two operations that reach the world, with
    what the world keeps. *)
Lemma wlp_call_keeps {A} (m : W F A) (Q : A -> State F -> Prop) s :
  wkeeps m ->
  (forall a w, R (world s) w -> Q a (set_world w s)) ->
  wlp (call m) Q s.
Proof.
  intros Hk HQ. unfold wlp, call. destruct (m (world s)) eqn:Hm; [|done].
  apply HQ. by eapply Hk.
Qed.

Lemma hkeeps_call {A} (m : W F A) : wkeeps m -> hkeeps (call m).
Proof. intros Hm s. by apply wlp_call_keeps. Qed.

Lemma wlp_SetComponentTickEnabled_keeps b (Q : unit -> State F -> Prop) s :
  (forall w, R (world s) w ->
     Q tt (mkState w (if bCanEverTick (self s)
                      then set_bTickEnabled b (self s) else self s))) ->
  wlp (SetComponentTickEnabled b) Q s.
Proof.
  intros HQ. unfold wlp. rewrite SetComponentTickEnabled_Done. apply HQ.
  apply wr_log.
Qed.

End Keeps.

(** ** Delegates hold callbacks of their signature *)

Section Typed.
Context {F : Type} `{Scalar F}.

Definition typedMesh (x : Mesh F) : Prop :=
  Forall (eq CbSleep) (OnComponentSleep x) /\
  Forall (eq CbWake) (OnComponentWake x) /\
  Forall (eq CbHit) (OnComponentHit x).

Definition typedActor (x : Actor F) : Prop :=
  Forall (eq CbAnyDamage) (OnTakeAnyDamage x) /\
  Forall (eq CbPointDamage) (OnTakePointDamage x) /\
  Forall (eq CbRadialDamage) (OnTakeRadialDamage x).

Definition typedWorld (w : World F) : Prop :=
  map_Forall (fun _ => typedMesh) (meshes w) /\
  map_Forall (fun _ => typedActor) (actors w).

#[export] Instance typedMesh_dec x : Decision (typedMesh x).
Proof. unfold typedMesh. apply _. Defined.

#[export] Instance typedActor_dec x : Decision (typedActor x).
Proof. unfold typedActor. apply _. Defined.

#[export] Instance typedWorld_dec w : Decision (typedWorld w).
Proof. unfold typedWorld. apply _. Defined.

End Typed.

(** ** What no handler changes *)

Section Evolves.
Context {F : Type} `{Scalar F}.

(** Of a mesh: its body instance, the callbacks bound so far (a delegate
    only grows, at its end), and the typing of its delegates. *)
Definition mesh_le (x x' : Mesh F) : Prop :=
  hasBodyInstance x' = hasBodyInstance x /\
  bGenerateWakeEvents x' = bGenerateWakeEvents x /\
  OnComponentSleep x `prefix_of` OnComponentSleep x' /\
  OnComponentWake x `prefix_of` OnComponentWake x' /\
  OnComponentHit x `prefix_of` OnComponentHit x' /\
  (typedMesh x -> typedMesh x').

Definition actor_le (x x' : Actor F) : Prop :=
  FirstStaticMesh x' = FirstStaticMesh x /\
  OnTakeAnyDamage x `prefix_of` OnTakeAnyDamage x' /\
  OnTakePointDamage x `prefix_of` OnTakePointDamage x' /\
  OnTakeRadialDamage x `prefix_of` OnTakeRadialDamage x' /\
  (typedActor x -> typedActor x').

(** Of the world: its objects, related as above, its scene components
    and the calls logged so far. *)
Definition evolves (w w' : World F) : Prop :=
  (forall i, option_Forall2 mesh_le (meshes w !! i) (meshes w' !! i)) /\
  (forall i, option_Forall2 actor_le (actors w !! i) (actors w' !! i)) /\
  scenes w' = scenes w /\
  calls w `prefix_of` calls w'.

#[export] Instance mesh_le_preorder : PreOrder mesh_le.
Proof.
  split.
  - by intros x.
  - intros x y z (? & ? & ? & ? & ? & ?) (? & ? & ? & ? & ? & ?).
    split_and!; [congruence | congruence | by etrans.. | auto].
Qed.

#[export] Instance actor_le_preorder : PreOrder actor_le.
Proof.
  split.
  - by intros x.
  - intros x y z (? & ? & ? & ? & ?) (? & ? & ? & ? & ?).
    split_and!; [congruence | by etrans.. | auto].
Qed.

Lemma evolves_refl w : evolves w w.
Proof. split_and!; [intros i; by destruct (_ !! i); constructor.. | done | done]. Qed.

Lemma evolves_trans w1 w2 w3 : evolves w1 w2 -> evolves w2 w3 -> evolves w1 w3.
Proof.
  intros (Hm & Ha & Hs & Hc) (Hm' & Ha' & Hs' & Hc').
  split_and!; [| | congruence | by etrans].
  - intros i. specialize (Hm i). specialize (Hm' i).
    destruct Hm; inv Hm'; constructor. by etrans.
  - intros i. specialize (Ha i). specialize (Ha' i).
    destruct Ha; inv Ha'; constructor. by etrans.
Qed.

Lemma evolves_log (w : World F) c : evolves w (set_calls (calls w ++ [c]) w).
Proof.
  split_and!; [intros i; by destruct (_ !! i); constructor.. | done |].
  by apply prefix_app_r.
Qed.

Lemma evolves_rand (w : World F) n : evolves w (set_randIdx n w).
Proof. split_and!; [intros i; by destruct (_ !! i); constructor.. | done | done]. Qed.

Lemma evolves_insert_mesh (w : World F) p x x' :
  meshes w !! p = Some x -> mesh_le x x' ->
  evolves w (set_meshes (<[p := x']> (meshes w)) w).
Proof.
  intros Hp Hle. split_and!; [| intros i; by destruct (_ !! i); constructor | done | done].
  intros i. simpl. destruct (decide (i = p)) as [->|Hne].
  - rewrite Hp, lookup_insert_eq. by constructor.
  - rewrite lookup_insert_ne by done. by destruct (_ !! i); constructor.
Qed.

Lemma evolves_insert_actor (w : World F) p x x' :
  actors w !! p = Some x -> actor_le x x' ->
  evolves w (set_actors (<[p := x']> (actors w)) w).
Proof.
  intros Hp Hle. split_and!; [intros i; by destruct (_ !! i); constructor | | done | done].
  intros i. simpl. destruct (decide (i = p)) as [->|Hne].
  - rewrite Hp, lookup_insert_eq. by constructor.
  - rewrite lookup_insert_ne by done. by destruct (_ !! i); constructor.
Qed.

#[export] Instance evolves_rel : WorldRel evolves := {|
  mesh_rel := mesh_le;
  actor_rel := actor_le;
  wr_preorder := Build_PreOrder _ evolves_refl evolves_trans;
  wr_log := evolves_log;
  wr_rand := evolves_rand;
  wr_mesh := evolves_insert_mesh;
  wr_actor := evolves_insert_actor
|}.

(** *** What follows from [evolves] *)

Lemma evolves_mesh w w' i x :
  evolves w w' -> meshes w !! i = Some x ->
  exists x', meshes w' !! i = Some x' /\ mesh_le x x'.
Proof. intros (Hm & _) Hi. specialize (Hm i). rewrite Hi in Hm. inv Hm. eauto. Qed.

Lemma evolves_mesh_inv w w' i x' :
  evolves w w' -> meshes w' !! i = Some x' ->
  exists x, meshes w !! i = Some x /\ mesh_le x x'.
Proof. intros (Hm & _) Hi. specialize (Hm i). rewrite Hi in Hm. inv Hm. eauto. Qed.

Lemma evolves_actor w w' i x :
  evolves w w' -> actors w !! i = Some x ->
  exists x', actors w' !! i = Some x' /\ actor_le x x'.
Proof. intros (_ & Ha & _) Hi. specialize (Ha i). rewrite Hi in Ha. inv Ha. eauto. Qed.

Lemma evolves_actor_inv w w' i x' :
  evolves w w' -> actors w' !! i = Some x' ->
  exists x, actors w !! i = Some x /\ actor_le x x'.
Proof. intros (_ & Ha & _) Hi. specialize (Ha i). rewrite Hi in Ha. inv Ha. eauto. Qed.

Lemma evolves_typed w w' : evolves w w' -> typedWorld w -> typedWorld w'.
Proof.
  intros Hev [Hm Ha]. split.
  - intros i x' Hi. destruct (evolves_mesh_inv _ _ _ _ Hev Hi) as (x & Hx & Hle).
    apply Hle. by eapply Hm.
  - intros i x' Hi. destruct (evolves_actor_inv _ _ _ _ Hev Hi) as (x & Hx & Hle).
    apply Hle. by eapply Ha.
Qed.

End Evolves.

(** ** What a handler that touches no mesh and destroys nothing keeps *)

Section Calm.
Context {F : Type} `{Scalar F}.

Definition calm (w w' : World F) : Prop :=
  meshes w' = meshes w /\
  forall i, bDestroyed <$> actors w' !! i = bDestroyed <$> actors w !! i.

Lemma calm_insert_actor (w : World F) p x x' :
  actors w !! p = Some x -> bDestroyed x' = bDestroyed x ->
  calm w (set_actors (<[p := x']> (actors w)) w).
Proof.
  intros Hp Hd. split; [done|]. intros i. simpl. destruct (decide (i = p)) as [->|Hne].
  - by rewrite Hp, lookup_insert_eq; simpl; rewrite Hd.
  - by rewrite lookup_insert_ne.
Qed.

#[export] Instance calm_rel : WorldRel calm.
Proof.
  refine {| mesh_rel := fun _ _ => False;
            actor_rel := fun x x' => bDestroyed x' = bDestroyed x |}; try done.
  - split; [done|]. intros w1 w2 w3 [Hm Ha] [Hm' Ha']. split; [congruence|].
    intros i. by rewrite Ha', Ha.
  - apply calm_insert_actor.
Defined.

End Calm.

(** ** Automation *)

(** [mesh_rel R x (f x)] and [actor_rel R x (f x)] for the update [f] of a
    primitive: a setter of another field, or a binding at the end of a
    delegate. *)
Ltac le_solve :=
  repeat match goal with
  | |- context [match ?a with Some _ => _ | None => _ end] => destruct a
  end;
  cbn [mesh_rel actor_rel evolves_rel calm_rel];
  unfold mesh_le, actor_le, typedMesh, typedActor; engine_simpl;
  first [ exact I | done
        | split_and!;
          first [ done | by apply prefix_app_r
                | intros (? & ? & ?); split_and!; rewrite ?Forall_app; by auto ] ].

(** An engine primitive keeps the relation. *)
Ltac wkeeps_solve :=
  unfold_calls;
  repeat match goal with
  | |- wkeeps _ (if ?b then _ else _) => destruct b
  end;
  lazymatch goal with
  | |- wkeeps ?R _ =>
      first
        [ apply (wkeeps_logCall R) | apply (wkeeps_gets R) | apply (wkeeps_getMesh R)
        | apply (wkeeps_getActor R) | apply (wkeeps_getScene R)
        | apply (wkeeps_RandRange R) | apply (wkeeps_mret R) | apply (wkeeps_throw R)
        | apply (wkeeps_SetActorLocationAndRotation R); intros ? ? ?; le_solve
        | apply (wkeeps_updMesh R); intros ?; le_solve
        | apply (wkeeps_meshCall R); intros ?; le_solve
        | apply (wkeeps_actorCall R); intros ?; le_solve ]
  end.

(** One rule of [wlp], with the world's history kept in the context. *)
Ltac wlp_kgoal :=
  lazymatch goal with
  | |- WorldRel _ => apply _
  | |- wkeeps _ _ => wkeeps_solve
  | |- _ => intros
  end.

Ltac wlp_kstep R :=
  lazymatch goal with
  | |- wlp (call _) _ _ => apply (wlp_call_keeps R); wlp_kgoal
  | |- wlp (SetComponentTickEnabled _) _ _ =>
      apply (wlp_SetComponentTickEnabled_keeps R); wlp_kgoal
  | |- _ => wlp_step
  end; cbv beta.

(** From the steps in the context to the whole run. *)
Ltac keeps_chain :=
  state_simpl; repeat (etrans; [eassumption|]); reflexivity.

(** A handler keeps the relation: the goal is [hkeeps R body]. *)
Ltac hkeeps_auto :=
  lazymatch goal with
  | |- hkeeps ?R _ => intros ?; repeat wlp_kstep R; keeps_chain
  end.
