(* ===== verification/Samples.v ===== *)
(** * Samples: concrete binary32 scenes the theorems are instantiated on

    One prop (mesh 1, owned by actor 2), one player (pawn 4) with a holder
    in front of the camera (scene component 3), and a second holder (scene
    component 5) on an actor that is no pawn (actor 6).  The mesh lies 150
    units in front of the first holder.  The world has no obstacle: sweeps hit
    nothing and sweeping moves reach their target; [RInterpTo] snaps. *)

From Stdlib Require Import ZArith Floats.SpecFloat.
From stdpp Require Import base tactics option list gmap.
From S2P Require Import Prelude Scalar Float32 Vec Engine ImpactData Component.

Local Open Scope scalar_scope.

Definition vec (x y z : Z) : FVector b32 := mkVec (ofZ x) (ofZ y) (ofZ z).

Definition rot0 : FRotator b32 := mkRot (ofZ 0) (ofZ 0) (ofZ 0).

(** A simulating, awake body of mass 10 at [loc], moving with [vel]. *)
Definition sampleMesh (loc vel : FVector b32) : Mesh b32 :=
  {| bSimulatePhysics := true;
     bNotifyRigidBodyCollision := true;
     bGenerateOverlapEvents := false;
     hasBodyInstance := true;
     bGenerateWakeEvents := true;
     SleepFamily := SleepSensitive;
     LinearDamping := dec 1 2;
     AngularDamping := dec 1 2;
     bUseCCD := false;
     bAwake := true;
     ComponentVelocity := vel;
     ComponentLocation := loc;
     Mass := ofZ 10;
     TickInterval := ofZ 0;
     MoveIgnoreActors := ∅;
     OnComponentSleep := [CbSleep];
     OnComponentWake := [CbWake];
     OnComponentHit := [CbHit] |}.

Definition sampleActor (loc vel : FVector b32) (pawn : bool) : Actor b32 :=
  {| bActorTickEnabled := false;
     ActorLocation := loc;
     ActorRotation := rot0;
     ActorVelocity := vel;
     bReplicateMovement := true;
     hasAuthority := true;
     isPawn := pawn;
     PawnMoveIgnore := ∅;
     bDestroyed := false;
     FirstStaticMesh := None;
     OnTakeAnyDamage := [];
     OnTakePointDamage := [];
     OnTakeRadialDamage := [] |}.

Definition sampleHolder (loc : FVector b32) (owner : option positive) : Scene b32 :=
  {| SceneLocation := loc;
     SceneForward := vec 1 0 0;
     SceneRotation := rot0;
     SceneOwner := owner |}.

(** The world: the mesh at [loc], moving with [vel]; the player runs at 300
    units per second; [view] is the view point of the player controller, if
    there is one. *)
Definition worldWith (loc vel : FVector b32) (view : option (FVector b32)) : World b32 :=
  {| meshes := {[ 1%positive := sampleMesh loc vel ]};
     actors := {[ 2%positive := sampleActor loc vel false;
                  4%positive := sampleActor (vec 0 0 0) (vec 300 0 0) true;
                  6%positive := sampleActor (vec 0 100 0) (vec 0 0 0) false ]};
     scenes := {[ 3%positive := sampleHolder (vec 0 0 0) (Some 4%positive);
                  5%positive := sampleHolder (vec 0 100 0) (Some 6%positive) ]};
     TimeSeconds := ofZ 10;
     DeltaSeconds := dec 1 60;
     playerView := view;
     sweepOracle := fun _ _ _ _ => None;
     moveOracle := fun _ _ target => target;
     rinterp := fun _ target _ _ => target;
     randoms := fun _ => dec 1 2;
     randIdx := 0;
     calls := [] |}.

(** The mesh at distance [d] on the x axis, seen from the origin. *)
Definition sampleWorld (d : Z) (vel : FVector b32) : World b32 :=
  worldWith (vec d 0 0) vel (Some (vec 0 0 0)).

(** The component after [Physicalize]: it manages mesh 1. *)
Definition sampleComp : Comp b32 :=
  set_ManagedMesh (Some 1%positive) (newComp (Some 2%positive) true).

Definition sampleState (d : Z) (vel : FVector b32) : State b32 :=
  mkState (sampleWorld d vel) sampleComp.

(** The prop at rest, 150 units in front of the holder. *)
Definition restState : State b32 := sampleState 150 (vec 0 0 0).

(** The sample component before [Physicalize]: it manages no mesh. *)
Definition freshState : State b32 :=
  mkState (sampleWorld 150 (vec 0 0 0)) (newComp (Some 2%positive) true).

(** The prop fallen below the floor of the world. *)
Definition fallenState : State b32 :=
  mkState (worldWith (vec 0 0 (-20001)) (vec 0 0 0) (Some (vec 0 0 0))) sampleComp.

(** The prop in a world without a player controller. *)
Definition noPlayerState : State b32 :=
  mkState (worldWith (vec 150 0 0) (vec 0 0 0) None) sampleComp.

(** A state with other values of the three optimisation properties. *)
Definition withConfig (cull interval ccd : b32) (s : State b32) : State b32 :=
  set_self (set_cfg (mkConfig cull interval ccd (ImpactTable (cfg (self s)))
                       (MinImpactThreshold (cfg (self s)))
                       (ImpactCooldown (cfg (self s)))) (self s)) s.
