(* ===== verification/Grab.v ===== *)
(** * Grab: the grab / drop / throw state machine

    [Grab], [Drop], [Throw] and [UpdateGrabbedPosition] of
    PhysicsPropComponent.cpp and the query [IsGrabbed] of the header,
    statement by statement.  The two states of the machine are the values of
    [bIsGrabbed]; [CurrentHolder] and [HoldDistance] are its data. *)

From Stdlib Require Import ZArith Floats.SpecFloat.
From stdpp Require Import base tactics option list gmap.
From S2P Require Import Prelude Scalar Float32 Vec Engine ImpactData Component Samples.

Local Open Scope scalar_scope.
Local Open Scope handler_scope.

Section Grab.
Context {F : Type} `{Scalar F}.

(** [bool IsGrabbed() const { return bIsGrabbed; }] *)
Definition IsGrabbed : H F bool := this bIsGrabbed.

(** The hold distance of [Grab]: the distance between holder and mesh,
    limited to the interval from 50 to 250. *)
Definition holdDistanceOf (holderLoc meshLoc : FVector F) : F :=
  Clamp (Distance holderLoc meshLoc) (ofZ 50) (ofZ 250).

(** Step 2 of [Grab]: the mesh ignores the holder's actor, and a pawn
    ignores the prop's actor. *)
Definition ignoreHolderOwner (m : positive) (holderOwner : option positive) : H F unit :=
  match holderOwner with
  | Some OwnerActor =>
      call (IgnoreActorWhenMoving m OwnerActor true);;
      a ← call (getActor OwnerActor);
      when (isPawn a) (o ← GetOwner; call (MoveIgnoreActorAdd OwnerActor o))
  | None => skip
  end.

Definition Grab (Holder : option positive) : H F unit :=
  mm ← this ManagedMesh;
  match Holder, mm with
  | Some h, Some m =>
      assign (set_CurrentHolder (Some h));;
      assign (set_bIsGrabbed true);;
      call (SetSimulatePhysics m false);;
      hs ← call (getScene h);
      ignoreHolderOwner m (SceneOwner hs);;
      hs ← call (getScene h);
      mesh ← call (getMesh m);
      assign (set_HoldDistance (Distance (SceneLocation hs) (ComponentLocation mesh)));;
      d ← this HoldDistance;
      assign (set_HoldDistance (Clamp d (ofZ 50) (ofZ 250)));;
      SetComponentTickEnabled true
  | _, _ => skip
  end.

(** The inertia hand-off of [Drop]: the body takes the velocity of the
    holder's actor, and the mutual ignores of [Grab] are undone. *)
Definition restoreHolderOwner (m : positive) (holder : option positive) : H F unit :=
  match holder with
  | Some h =>
      hs ← call (getScene h);
      match SceneOwner hs with
      | Some HolderOwner =>
          a ← call (getActor HolderOwner);
          call (SetPhysicsLinearVelocity m (ActorVelocity a));;
          call (IgnoreActorWhenMoving m HolderOwner false);;
          when (isPawn a) (o ← GetOwner; call (MoveIgnoreActorRemove HolderOwner o))
      | None => skip
      end
  | None => skip
  end.

Definition Drop : H F unit :=
  g ← this bIsGrabbed;
  mm ← this ManagedMesh;
  match mm with
  | Some m =>
      if negb g then skip
      else
        call (SetSimulatePhysics m true);;
        holder ← this CurrentHolder;
        restoreHolderOwner m holder;;
        call (WakeAllRigidBodies m);;
        assign (set_bIsGrabbed false);;
        assign (set_CurrentHolder None)
  | None => skip
  end.

Definition Throw (Direction : FVector F) (Force : F) : H F unit :=
  g ← this bIsGrabbed;
  mm ← this ManagedMesh;
  match mm with
  | Some m =>
      if negb g then skip
      else
        Drop;;
        call (AddImpulse m (vscale (GetSafeNormal Direction) Force) true)
  | None => skip
  end.

(** The anti-clipping target of [UpdateGrabbedPosition]: in front of the
    holder at the hold distance, or, when the sweep hits, 12 units off the
    obstacle along the impact normal. *)
Definition grabTarget (TargetLocation : FVector F) (hit : option (HitResult F)) : FVector F :=
  match hit with
  | Some h => vadd (HitLocation h) (vscale (ImpactNormal h) (ofZ 12))
  | None => TargetLocation
  end.

Definition UpdateGrabbedPosition : H F unit :=
  holder ← this CurrentHolder;
  mm ← this ManagedMesh;
  match holder, mm with
  | Some h, Some m =>
      hs ← call (getScene h);
      d ← this HoldDistance;
      let TargetLocation := vadd (SceneLocation hs) (vscale (SceneForward hs) d) in
      let TargetRotation := SceneRotation hs in
      o ← GetOwner;
      let StartTrace := SceneLocation hs in
      theWorld;;
      hit ← call (SweepSingleByChannel StartTrace TargetLocation (ofZ 10) [o; SceneOwner hs]);
      let TargetLocation := grabTarget TargetLocation hit in
      me ← theOwner;
      a ← call (getActor me);
      dt ← call (gets DeltaSeconds);
      let NewLoc := VInterpTo (ActorLocation a) TargetLocation dt (ofZ 20) in
      w ← call get;
      let NewRot := rinterp w (ActorRotation a) TargetRotation dt (ofZ 20) in
      call (SetActorLocationAndRotation me NewLoc NewRot true)
  | _, _ => skip
  end.

End Grab.

(** The sample prop once grabbed by the holder 3 at 150 units. *)
Definition heldState : State b32 :=
  default restState (exec (Grab (Some 3%positive)) restState).

(** A component with a holder and a mesh that no actor owns. *)
Definition orphanState : State b32 :=
  mkState (world restState)
    (set_CurrentHolder (Some 3%positive)
       (set_ManagedMesh (Some 1%positive) (newComp None true))).

(** ** Grab *)

(** The cases of a run of [Grab]: can the component tick, has the holder
    an owner, is that owner a pawn. *)
Ltac grab_cases s hs Hown :=
  let Ht := fresh "Ht" in let Ho := fresh "Ho" in let Hp := fresh "Hp" in
  let a := fresh "a" in let act := fresh "act" in let Ha := fresh "Ha" in
  unfold owner_ok in Hown;
  destruct (bCanEverTick (self s)) eqn:Ht;
  (destruct (SceneOwner hs) as [a|] eqn:Ho;
   [destruct Hown as [act Ha]; destruct (isPawn act) eqn:Hp|]).

Section GrabFacts.
Context {F : Type} `{Scalar F}.
Implicit Types s : State F.

(** [Grab] does nothing, and calls nothing, when the holder is null or
    no mesh is managed. *)
Theorem Grab_noop s Holder :
  Holder = None \/ ManagedMesh (self s) = None -> Grab Holder s = Done tt s.
Proof.
  intros Hnull. unfold Grab. hstep.
  destruct Holder, (ManagedMesh (self s)), Hnull; by simplify_eq.
Qed.

(** C26. [Grab] with a holder, on a managed mesh, enters the held state: the
    flag is set, the holder is recorded, the hold distance is the clamped
    separation of holder and mesh, the body no longer simulates, and the
    component ticks if it can tick at all. *)
Theorem Grab_state s h m mesh hs :
  ManagedMesh (self s) = Some m ->
  meshes (world s) !! m = Some mesh ->
  scenes (world s) !! h = Some hs ->
  owner_ok (world s) (SceneOwner hs) ->
  exists s' mesh',
    Grab (Some h) s = Done tt s' /\
    bIsGrabbed (self s') = true /\
    CurrentHolder (self s') = Some h /\
    HoldDistance (self s') = holdDistanceOf (SceneLocation hs) (ComponentLocation mesh) /\
    meshes (world s') !! m = Some mesh' /\
    bSimulatePhysics mesh' = false /\
    bTickEnabled (self s') = (bCanEverTick (self s) || bTickEnabled (self s)).
Proof.
  intros Hm Hmesh Hs Hown. grab_cases s hs Hown.
  all: do 2 eexists; split; [unfold Grab, ignoreHolderOwner; hrun|].
  all: state_simpl; hsubst; state_simpl; by rewrite ?lookup_insert_eq.
Qed.

End GrabFacts.

Section GrabOrder.
Context {F : Type} `{ScalarOrder F}.
Implicit Types s : State F.

(** Whatever the two locations are, the hold distance is in the interval,
    provided the interval is one. *)
Lemma holdDistanceOf_bounds (a b : FVector F) :
  ofZ 50 <= ofZ 250 ->
  ofZ 50 <= holdDistanceOf a b /\ holdDistanceOf a b <= ofZ 250.
Proof. apply Clamp_bounds. Qed.

End GrabOrder.

(** C2. On binary32, after [Grab] the hold distance lies between 50 and
    250, for every position of the holder and of the mesh: far apart,
    coincident, infinite or NaN. *)
Theorem Grab_HoldDistance_b32 (s : State b32) h m mesh hs :
  ManagedMesh (self s) = Some m ->
  meshes (world s) !! m = Some mesh ->
  scenes (world s) !! h = Some hs ->
  owner_ok (world s) (SceneOwner hs) ->
  exists s',
    Grab (Some h) s = Done tt s' /\
    ofZ 50 <= HoldDistance (self s') /\ HoldDistance (self s') <= ofZ 250.
Proof.
  intros Hm Hmesh Hs Hown. grab_cases s hs Hown.
  all: eexists; split; [unfold Grab, ignoreHolderOwner; hrun|].
  all: state_simpl; hsubst; state_simpl; by apply holdDistanceOf_bounds.
Qed.

Lemma Grab_HoldDistance_b32_witness :
  exists s',
    Grab (Some 3%positive) restState = Done tt s' /\
    ofZ 50 <= HoldDistance (self s') /\ HoldDistance (self s') <= ofZ 250.
Proof.
  apply (Grab_HoldDistance_b32 restState 3 1 (sampleMesh (vec 150 0 0) (vec 0 0 0))
           (sampleHolder (vec 0 0 0) (Some 4%positive)));
    [reflexivity | reflexivity | reflexivity | vm_compute; eauto].
Defined.

(** The separations 10, 150 and 10000 give the hold distances 50, 150, 250. *)
Example Grab_HoldDistance_examples :
  (exec (Grab (Some 3%positive)) (sampleState 10 (vec 0 0 0)) ≫= fun s => Some (HoldDistance (self s)))
    = Some (ofZ 50) /\
  (exec (Grab (Some 3%positive)) (sampleState 150 (vec 0 0 0)) ≫= fun s => Some (HoldDistance (self s)))
    = Some (ofZ 150) /\
  (exec (Grab (Some 3%positive)) (sampleState 10000 (vec 0 0 0)) ≫= fun s => Some (HoldDistance (self s)))
    = Some (ofZ 250).
Proof. by vm_compute. Qed.

Lemma Grab_noop_witness : Grab None restState = Done tt restState.
Proof. apply (Grab_noop restState None). by left. Defined.

Lemma Grab_state_witness :
  exists s' mesh',
    Grab (Some 3%positive) restState = Done tt s' /\
    bIsGrabbed (self s') = true /\
    CurrentHolder (self s') = Some 3%positive /\
    HoldDistance (self s') = holdDistanceOf (vec 0 0 0) (vec 150 0 0) /\
    meshes (world s') !! 1%positive = Some mesh' /\
    bSimulatePhysics mesh' = false /\
    bTickEnabled (self s') = true.
Proof.
  apply (Grab_state restState 3 1 (sampleMesh (vec 150 0 0) (vec 0 0 0))
           (sampleHolder (vec 0 0 0) (Some 4%positive)));
    [reflexivity | reflexivity | reflexivity | vm_compute; eauto].
Defined.

(** ** Drop *)

(** The cases of a run of [Drop] or [UpdateGrabbedPosition]: is there a
    holder, has it an owner, is that owner a pawn. *)
Ltac holder_cases s Hok :=
  let Hh := fresh "Hh" in let Hs := fresh "Hs" in let Ho := fresh "Ho" in
  let Hp := fresh "Hp" in let h := fresh "h" in let hs := fresh "hs" in
  let a := fresh "a" in let act := fresh "act" in let Ha := fresh "Ha" in
  unfold holder_ok, owner_ok in Hok;
  destruct (CurrentHolder (self s)) as [h|] eqn:Hh;
  [ destruct (scenes (world s) !! h) as [hs|] eqn:Hs; [|done];
    destruct (SceneOwner hs) as [a|] eqn:Ho;
    [destruct Hok as [act Ha]; destruct (isPawn act) eqn:Hp|]
  | ].

Section DropFacts.
Context {F : Type} `{Scalar F}.
Implicit Types s : State F.

(** [Drop] does nothing, and calls nothing, when the prop is not held
    or no mesh is managed. *)
Theorem Drop_noop s :
  bIsGrabbed (self s) = false \/ ManagedMesh (self s) = None -> Drop s = Done tt s.
Proof.
  intros Hnull. unfold Drop. do 2 hstep.
  destruct (ManagedMesh (self s)), (bIsGrabbed (self s)), Hnull; by simplify_eq.
Qed.

(** [Drop] of a held prop leaves the held state: the flag is cleared,
    the holder is forgotten, and the body simulates again and is awake. *)
Theorem Drop_state s m mesh :
  bIsGrabbed (self s) = true ->
  ManagedMesh (self s) = Some m ->
  meshes (world s) !! m = Some mesh ->
  holder_ok (world s) (CurrentHolder (self s)) ->
  exists s' mesh',
    Drop s = Done tt s' /\
    bIsGrabbed (self s') = false /\
    CurrentHolder (self s') = None /\
    meshes (world s') !! m = Some mesh' /\
    bSimulatePhysics mesh' = true /\
    bAwake mesh' = true.
Proof.
  intros Hg Hm Hmesh Hok. holder_cases s Hok.
  all: do 2 eexists; split; [unfold Drop, restoreHolderOwner; hrun|].
  all: state_simpl; by rewrite ?lookup_insert_eq.
Qed.

(** The inertia hand-off of [Drop]: when the holder has an owner, the
    body takes the owner's velocity, and the body no longer ignores the
    owner when moving. *)
Theorem Drop_hands_over_velocity s m mesh h hs a act :
  bIsGrabbed (self s) = true ->
  ManagedMesh (self s) = Some m ->
  meshes (world s) !! m = Some mesh ->
  CurrentHolder (self s) = Some h ->
  scenes (world s) !! h = Some hs ->
  SceneOwner hs = Some a ->
  actors (world s) !! a = Some act ->
  exists s' mesh',
    Drop s = Done tt s' /\
    meshes (world s') !! m = Some mesh' /\
    ComponentVelocity mesh' = ActorVelocity act /\
    a ∉ MoveIgnoreActors mesh'.
Proof.
  intros Hg Hm Hmesh Hh Hs Ho Ha. destruct (isPawn act) eqn:Hp.
  all: do 2 eexists; split; [unfold Drop, restoreHolderOwner; hrun|].
  all: state_simpl; rewrite ?lookup_insert_eq; split_and!; [done..|].
  all: state_simpl; apply not_elem_of_difference; right; by apply elem_of_singleton.
Qed.

End DropFacts.

Lemma Drop_noop_witness : Drop restState = Done tt restState.
Proof. apply (Drop_noop restState). by left. Defined.

Lemma Drop_state_witness :
  exists s' mesh',
    Drop heldState = Done tt s' /\
    bIsGrabbed (self s') = false /\
    CurrentHolder (self s') = None /\
    meshes (world s') !! 1%positive = Some mesh' /\
    bSimulatePhysics mesh' = true /\
    bAwake mesh' = true.
Proof.
  eapply (Drop_state heldState 1);
    [reflexivity | reflexivity | by vm_compute | vm_compute; eauto].
Defined.

Lemma Drop_hands_over_velocity_witness :
  exists s' mesh',
    Drop heldState = Done tt s' /\
    meshes (world s') !! 1%positive = Some mesh' /\
    ComponentVelocity mesh' = vec 300 0 0 /\
    4%positive ∉ MoveIgnoreActors mesh'.
Proof.
  eapply (Drop_hands_over_velocity heldState 1 _ 3
            (sampleHolder (vec 0 0 0) (Some 4%positive)) 4
            (set_PawnMoveIgnore {[2%positive]}
               (sampleActor (vec 0 0 0) (vec 300 0 0) true)));
    [reflexivity | reflexivity | by vm_compute | reflexivity | reflexivity
    | reflexivity | by vm_compute].
Defined.

(** ** Throw *)

Section ThrowFacts.
Context {F : Type} `{Scalar F}.
Implicit Types s : State F.

(** [Throw] does nothing, and calls nothing, when the prop is not held
    or no mesh is managed. *)
Theorem Throw_noop s d f :
  bIsGrabbed (self s) = false \/ ManagedMesh (self s) = None -> Throw d f s = Done tt s.
Proof.
  intros Hnull. unfold Throw. do 2 hstep.
  destruct (ManagedMesh (self s)), (bIsGrabbed (self s)), Hnull; by simplify_eq.
Qed.

(** C4. [Throw] of a held prop is [Drop] followed by exactly one call:
    [AddImpulse] on the managed mesh, of the safe normal of the direction
    scaled by the force, as a velocity change.  The final state is the state
    [Drop] ends in, with that call logged. *)
Theorem Throw_is_Drop_then_impulse s m mesh d f :
  bIsGrabbed (self s) = true ->
  ManagedMesh (self s) = Some m ->
  meshes (world s) !! m = Some mesh ->
  holder_ok (world s) (CurrentHolder (self s)) ->
  exists s1,
    Drop s = Done tt s1 /\
    Throw d f s
    = Done tt (set_world
                 (set_calls (calls (world s1)
                             ++ [CallAddImpulse m (vscale (GetSafeNormal d) f) true])
                    (world s1)) s1).
Proof.
  intros Hg Hm Hmesh Hok. holder_cases s Hok.
  all: eexists; split; [unfold Drop, restoreHolderOwner; hrun|].
  all: etransitivity; [unfold Throw, Drop, restoreHolderOwner; hrun|].
  all: state_simpl; by rewrite !insert_insert_eq.
Qed.

End ThrowFacts.

Lemma Throw_noop_witness :
  Throw (vec 0 3 4) (ofZ 1000) restState = Done tt restState.
Proof. apply (Throw_noop restState). by left. Defined.

Lemma Throw_is_Drop_then_impulse_witness :
  exists s1,
    Drop heldState = Done tt s1 /\
    Throw (vec 0 3 4) (ofZ 1000) heldState
    = Done tt (set_world
                 (set_calls (calls (world s1)
                             ++ [CallAddImpulse 1 (vscale (GetSafeNormal (vec 0 3 4)) (ofZ 1000)) true])
                    (world s1)) s1).
Proof.
  eapply (Throw_is_Drop_then_impulse heldState 1);
    [reflexivity | reflexivity | by vm_compute | vm_compute; eauto].
Defined.

(** A throw along (0, 3, 4) with force 1000 is an impulse of (0, 600, 800). *)
Example Throw_example :
  (exec (Throw (vec 0 3 4) (ofZ 1000)) heldState ≫= fun s => last (calls (world s)))
  = Some (CallAddImpulse 1 (vec 0 600 800) true).
Proof. by vm_compute. Qed.

Lemma SMALL_NUMBER_b32 : (SMALL_NUMBER : b32) < ofZ 1.
Proof. by vm_compute. Qed.

(** C39. A throw along any direction whose squared length is below 1e-8
    (a direction shorter than 1e-4, the zero direction included) drops
    the prop and calls [AddImpulse] with the zero vector scaled by the
    force: the safe normal of such a direction is the zero vector, so the
    prop is released and not thrown. *)
Theorem Throw_tiny_direction (s : State b32) m mesh d f :
  bIsGrabbed (self s) = true ->
  ManagedMesh (self s) = Some m ->
  meshes (world s) !! m = Some mesh ->
  holder_ok (world s) (CurrentHolder (self s)) ->
  SizeSquared d < SMALL_NUMBER ->
  exists s1,
    Drop s = Done tt s1 /\
    Throw d f s
    = Done tt (set_world
                 (set_calls (calls (world s1)
                             ++ [CallAddImpulse m (vscale ZeroVector f) true])
                    (world s1)) s1).
Proof.
  intros Hg Hm Hmesh Hok Htiny.
  rewrite <- (GetSafeNormal_tiny d SMALL_NUMBER_b32 Htiny). holder_cases s Hok.
  all: eexists; split; [unfold Drop, restoreHolderOwner; hrun|].
  all: etransitivity; [unfold Throw, Drop, restoreHolderOwner; hrun|].
  all: state_simpl; by rewrite !insert_insert_eq.
Qed.

Lemma Throw_tiny_direction_witness :
  exists s1,
    Drop heldState = Done tt s1 /\
    Throw (mkVec (dec 1 100000) (ofZ 0) (ofZ 0)) (ofZ 1000) heldState
    = Done tt (set_world
                 (set_calls (calls (world s1)
                             ++ [CallAddImpulse 1 (vscale ZeroVector (ofZ 1000)) true])
                    (world s1)) s1).
Proof.
  eapply (Throw_tiny_direction heldState 1);
    [reflexivity | reflexivity | by vm_compute | vm_compute; eauto | by vm_compute].
Defined.

(** ** UpdateGrabbedPosition *)

Section UpdateFacts.
Context {F : Type} `{Scalar F}.
Implicit Types s : State F.

(** [UpdateGrabbedPosition] does nothing without a holder or without a
    managed mesh. *)
Theorem UpdateGrabbedPosition_noop s :
  CurrentHolder (self s) = None \/ ManagedMesh (self s) = None ->
  UpdateGrabbedPosition s = Done tt s.
Proof.
  intros Hnull. unfold UpdateGrabbedPosition. do 2 hstep.
  destruct (CurrentHolder (self s)), (ManagedMesh (self s)), Hnull; by simplify_eq.
Qed.

(** C30. With a holder, [UpdateGrabbedPosition] issues exactly one call, a
    swept [SetActorLocationAndRotation] on the owner: towards the point in
    front of the holder at the hold distance, or 12 units off the obstacle
    when the sweep from the holder hits one, interpolated at speed 20; the
    sweep ignores the owner and the holder's owner.  The component's fields
    and the meshes are unchanged. *)
Theorem UpdateGrabbedPosition_moves s h m hs me a :
  CurrentHolder (self s) = Some h ->
  ManagedMesh (self s) = Some m ->
  scenes (world s) !! h = Some hs ->
  hasWorld (self s) = true ->
  compOwner (self s) = Some me ->
  actors (world s) !! me = Some a ->
  let w := world s in
  let Target := vadd (SceneLocation hs) (vscale (SceneForward hs) (HoldDistance (self s))) in
  let hit := sweepOracle w (SceneLocation hs) Target (ofZ 10) [Some me; SceneOwner hs] in
  let NewLoc := VInterpTo (ActorLocation a) (grabTarget Target hit) (DeltaSeconds w) (ofZ 20) in
  let NewRot := rinterp w (ActorRotation a) (SceneRotation hs) (DeltaSeconds w) (ofZ 20) in
  exists s' a',
    UpdateGrabbedPosition s = Done tt s' /\
    self s' = self s /\
    meshes (world s') = meshes (world s) /\
    actors (world s') !! me = Some a' /\
    ActorLocation a' = moveOracle w me (ActorLocation a) NewLoc /\
    ActorRotation a' = NewRot /\
    calls (world s') = calls w ++ [CallSetActorLocationAndRotation me NewLoc NewRot true].
Proof.
  intros Hh Hm Hs Hw Ho Ha w Target hit NewLoc NewRot.
  do 2 eexists; split; [unfold UpdateGrabbedPosition; hrun|].
  state_simpl. rewrite lookup_insert_eq, Ho. by split_and!.
Qed.

(** C35. [UpdateGrabbedPosition] dereferences the owner without a test: a
    held component that has no owner faults on it. *)
Theorem UpdateGrabbedPosition_no_owner s h m hs :
  CurrentHolder (self s) = Some h ->
  ManagedMesh (self s) = Some m ->
  scenes (world s) !! h = Some hs ->
  hasWorld (self s) = true ->
  compOwner (self s) = None ->
  UpdateGrabbedPosition s = Fault NullOwner.
Proof. intros Hh Hm Hs Hw Ho. unfold UpdateGrabbedPosition. hrun_any. Qed.

End UpdateFacts.

Lemma UpdateGrabbedPosition_noop_witness :
  UpdateGrabbedPosition restState = Done tt restState.
Proof. apply (UpdateGrabbedPosition_noop restState). by left. Defined.

Lemma UpdateGrabbedPosition_moves_witness :
  exists s' a',
    UpdateGrabbedPosition heldState = Done tt s' /\
    self s' = self heldState /\
    meshes (world s') = meshes (world heldState) /\
    actors (world s') !! 2%positive = Some a' /\
    ActorLocation a' = vec 150 0 0 /\
    ActorRotation a' = rot0 /\
    calls (world s')
    = calls (world heldState) ++ [CallSetActorLocationAndRotation 2 (vec 150 0 0) rot0 true].
Proof.
  by_instance (UpdateGrabbedPosition_moves heldState 3 1
                 (sampleHolder (vec 0 0 0) (Some 4%positive)) 2
                 (sampleActor (vec 150 0 0) (vec 0 0 0) false)
                 eq_refl eq_refl eq_refl eq_refl eq_refl eq_refl).
Defined.

Lemma UpdateGrabbedPosition_no_owner_witness :
  UpdateGrabbedPosition orphanState = Fault NullOwner.
Proof.
  eapply (UpdateGrabbedPosition_no_owner orphanState 3 1
            (sampleHolder (vec 0 0 0) (Some 4%positive)));
    reflexivity.
Defined.

(** ** Sequences of operations *)

Section Sequences.
Context {F : Type} `{Scalar F}.
Implicit Types s : State F.

(** C22. [Grab] followed by [Drop] leaves the prop free: the flag is
    cleared, no holder is recorded, and the body simulates and is awake. *)
Theorem Grab_then_Drop s h m mesh hs :
  ManagedMesh (self s) = Some m ->
  meshes (world s) !! m = Some mesh ->
  scenes (world s) !! h = Some hs ->
  owner_ok (world s) (SceneOwner hs) ->
  exists s' mesh',
    (Grab (Some h);; Drop) s = Done tt s' /\
    bIsGrabbed (self s') = false /\
    CurrentHolder (self s') = None /\
    meshes (world s') !! m = Some mesh' /\
    bSimulatePhysics mesh' = true /\
    bAwake mesh' = true.
Proof.
  intros Hm Hmesh Hs Hown. grab_cases s hs Hown.
  all: destruct (compOwner (self s)) eqn:Hc.
  all: do 2 eexists; split;
    [unfold Grab, ignoreHolderOwner, Drop, restoreHolderOwner; hrun|].
  all: state_simpl; by rewrite ?lookup_insert_eq.
Qed.

(** C24. [Grab] does not test whether the prop is held.  Grabbed by a second
    holder while held by a first, then dropped, the body still ignores the
    first holder's actor when moving: [Drop] undoes the ignore of the last
    holder only. *)
Theorem Grab_twice_leaks_ignore s m mesh h1 hs1 a1 act1 h2 hs2 a2 act2 :
  ManagedMesh (self s) = Some m ->
  meshes (world s) !! m = Some mesh ->
  scenes (world s) !! h1 = Some hs1 -> SceneOwner hs1 = Some a1 ->
  actors (world s) !! a1 = Some act1 ->
  scenes (world s) !! h2 = Some hs2 -> SceneOwner hs2 = Some a2 ->
  actors (world s) !! a2 = Some act2 ->
  a1 <> a2 ->
  exists s' mesh',
    (Grab (Some h1);; Grab (Some h2);; Drop) s = Done tt s' /\
    bIsGrabbed (self s') = false /\
    meshes (world s') !! m = Some mesh' /\
    a1 ∈ MoveIgnoreActors mesh'.
Proof.
  intros Hm Hmesh Hs1 Ho1 Ha1 Hs2 Ho2 Ha2 Hne.
  destruct (bCanEverTick (self s)) eqn:Ht, (isPawn act1) eqn:Hp1,
    (isPawn act2) eqn:Hp2, (compOwner (self s)) eqn:Hc.
  all: do 2 eexists; split;
    [unfold Grab, ignoreHolderOwner, Drop, restoreHolderOwner; hrun|].
  all: state_simpl; rewrite ?lookup_insert_eq; split_and!; [done..|].
  all: state_simpl; apply elem_of_difference; split; [|by rewrite elem_of_singleton].
  all: apply elem_of_union_r, elem_of_union_l; by apply elem_of_singleton.
Qed.

End Sequences.

Lemma Grab_then_Drop_witness :
  exists s' mesh',
    (Grab (Some 3%positive);; Drop) restState = Done tt s' /\
    bIsGrabbed (self s') = false /\
    CurrentHolder (self s') = None /\
    meshes (world s') !! 1%positive = Some mesh' /\
    bSimulatePhysics mesh' = true /\
    bAwake mesh' = true.
Proof.
  apply (Grab_then_Drop restState 3 1 (sampleMesh (vec 150 0 0) (vec 0 0 0))
           (sampleHolder (vec 0 0 0) (Some 4%positive)));
    [reflexivity | reflexivity | reflexivity | vm_compute; eauto].
Defined.

Lemma Grab_twice_leaks_ignore_witness :
  exists s' mesh',
    (Grab (Some 3%positive);; Grab (Some 5%positive);; Drop) restState = Done tt s' /\
    bIsGrabbed (self s') = false /\
    meshes (world s') !! 1%positive = Some mesh' /\
    4%positive ∈ MoveIgnoreActors mesh'.
Proof.
  apply (Grab_twice_leaks_ignore restState 1 (sampleMesh (vec 150 0 0) (vec 0 0 0))
           3 (sampleHolder (vec 0 0 0) (Some 4%positive)) 4
           (sampleActor (vec 0 0 0) (vec 300 0 0) true)
           5 (sampleHolder (vec 0 100 0) (Some 6%positive)) 6
           (sampleActor (vec 0 100 0) (vec 0 0 0) false));
    [reflexivity | reflexivity | reflexivity | reflexivity | reflexivity
    | reflexivity | reflexivity | reflexivity | done].
Defined.
