(* ===== verification/GrabMachine.v ===== *)
(** * GrabMachine: the grab controller as a state machine

    The four operations of [Grab.v] as the steps of a machine, the invariant
    of its two fields ([bIsGrabbed] is set exactly when [CurrentHolder] is),
    and the two-state machine of the design ([Idle], [Held]) with the proof
    that every run of the code is a run of it. *)

From Stdlib Require Import ZArith Floats.SpecFloat.
From stdpp Require Import base tactics option list gmap.
From S2P Require Import Prelude Scalar Float32 Vec Engine ImpactData Component Samples Grab.

Local Open Scope scalar_scope.
Local Open Scope handler_scope.

Section Machine.
Context {F : Type} `{Scalar F}.

(** What the host can ask of the grab controller: the three public
    operations, and the update that a tick of a held prop runs. *)
Inductive GrabOp : Type :=
| OpGrab (Holder : option positive)
| OpDrop
| OpThrow (Direction : FVector F) (Force : F)
| OpUpdate.

Definition runOp (op : GrabOp) : H F unit :=
  match op with
  | OpGrab Holder => Grab Holder
  | OpDrop => Drop
  | OpThrow Direction Force => Throw Direction Force
  | OpUpdate => UpdateGrabbedPosition
  end.

Fixpoint runOps (ops : list GrabOp) : H F unit :=
  match ops with
  | [] => skip
  | op :: rest => runOp op;; runOps rest
  end.

(** The invariant of the data model: a holder is recorded iff the prop is
    held. *)
Definition GrabInv (c : Comp F) : Prop :=
  bIsGrabbed c = true <-> is_Some (CurrentHolder c).

#[export] Instance GrabInv_dec c : Decision (GrabInv c).
Proof. unfold GrabInv. apply _. Defined.

(** ** The machine of the design *)

Inductive GrabState : Type :=
| Idle
| Held (holder : positive) (distance : F).

(** The state of the machine a component is in. *)
Definition grabState (c : Comp F) : GrabState :=
  if bIsGrabbed c then
    match CurrentHolder c with
    | Some h => Held h (HoldDistance c)
    | None => Idle
    end
  else Idle.

(** The transitions.  [Grab] of a null holder, and [Drop] and [Throw] of a
    free prop, leave the state as it is.  The last rule is not in the
    design, which has no transition for [Grab] out of [Held]: the code grabs
    again, for the new holder. *)
Inductive gstep : GrabState -> GrabOp -> GrabState -> Prop :=
| gstep_grab h d :
    ofZ 50 <= d -> d <= ofZ 250 -> gstep Idle (OpGrab (Some h)) (Held h d)
| gstep_grab_null st : gstep st (OpGrab None) st
| gstep_drop st : gstep st OpDrop Idle
| gstep_throw st dir f : gstep st (OpThrow dir f) Idle
| gstep_update st : gstep st OpUpdate st
| gstep_grab_again h0 d0 h d :
    ofZ 50 <= d -> d <= ofZ 250 -> gstep (Held h0 d0) (OpGrab (Some h)) (Held h d).

Inductive gsteps : GrabState -> list GrabOp -> GrabState -> Prop :=
| gsteps_nil st : gsteps st [] st
| gsteps_cons st op st1 ops st2 :
    gstep st op st1 -> gsteps st1 ops st2 -> gsteps st (op :: ops) st2.

End Machine.

Arguments GrabOp F : clear implicits.
Arguments GrabState F : clear implicits.

#[export] Hint Constructors gstep gsteps : prop.

(** A session on the sample prop: grabbed by the holder 3, carried for two
    ticks, thrown along (0, 3, 4), and grabbed again by the holder 5. *)
Definition sampleOps : list (GrabOp b32) :=
  [OpGrab (Some 3%positive); OpUpdate; OpUpdate;
   OpThrow (vec 0 3 4) (ofZ 1000); OpGrab (Some 5%positive)].

(** The state of [restState] after a list of operations. *)
Definition afterOps (ops : list (GrabOp b32)) : State b32 :=
  default restState (exec (runOps ops) restState).

(** ** The invariant *)

Section Invariant.
Context {F : Type} `{Scalar F}.
Implicit Types (s : State F) (op : GrabOp F).

(** What a finished operation guarantees of the component's fields: the
    invariant, and the same managed mesh. *)
Definition kept (m : option positive) (s' : State F) : Prop :=
  GrabInv (self s') /\ ManagedMesh (self s') = m.

Lemma Grab_kept s Holder :
  GrabInv (self s) ->
  wlp (Grab Holder) (fun _ => kept (ManagedMesh (self s))) s.
Proof.
  intros Hinv. unfold Grab, ignoreHolderOwner, kept, GrabInv in *.
  wlp_auto; try done.
  all: destruct (bCanEverTick _); by state_simpl.
Qed.

Lemma Drop_kept s :
  GrabInv (self s) ->
  wlp Drop (fun _ => kept (ManagedMesh (self s))) s.
Proof.
  intros Hinv. unfold Drop, restoreHolderOwner, kept, GrabInv in *.
  wlp_auto; split; try done; split; by inv 1.
Qed.

Lemma Throw_kept s d f :
  GrabInv (self s) ->
  wlp (Throw d f) (fun _ => kept (ManagedMesh (self s))) s.
Proof.
  intros Hinv. unfold Throw. wlp_auto; try done.
  eapply wlp_mono; [|by apply Drop_kept].
  intros ? s1 Hk. wlp_auto.
  match goal with Hm : ManagedMesh _ = _ |- _ => by rewrite Hm in Hk end.
Qed.

Lemma UpdateGrabbedPosition_kept s :
  GrabInv (self s) ->
  wlp UpdateGrabbedPosition (fun _ => kept (ManagedMesh (self s))) s.
Proof. intros Hinv. unfold UpdateGrabbedPosition, kept. by wlp_auto. Qed.

Lemma runOp_kept s op :
  GrabInv (self s) -> wlp (runOp op) (fun _ => kept (ManagedMesh (self s))) s.
Proof.
  destruct op; simpl; auto using Grab_kept, Drop_kept, Throw_kept,
    UpdateGrabbedPosition_kept.
Qed.

(** The invariant of the grab state holds after every sequence of
    operations that starts where it holds: [bIsGrabbed] is true exactly when
    a holder is recorded. *)
Theorem GrabInv_preserved ops s s' :
  GrabInv (self s) -> runOps ops s = Done tt s' -> GrabInv (self s').
Proof.
  revert s. induction ops as [|op ops IH]; intros s Hinv Hrun.
  - by inv Hrun.
  - simpl in Hrun. apply bind_inv in Hrun as ([] & s1 & Hop & Hrest).
    eapply IH; [|done]. by destruct (wlp_Done _ _ _ _ _ (runOp_kept s op Hinv) Hop).
Qed.

End Invariant.

(** ** Refinement *)

Section Refinement.
Context {F : Type} `{ScalarOrder F}.
Hypothesis Hlit : ofZ 50 <= ofZ 250.
Implicit Types (s : State F) (op : GrabOp F).

(** The step of the machine that a finished operation takes. *)
Definition stepped op s (s' : State F) : Prop :=
  gstep (grabState (self s)) op (grabState (self s')).

Lemma gstep_to_Held (st : GrabState F) h x :
  gstep st (OpGrab (Some h)) (Held h (Clamp x (ofZ 50) (ofZ 250))).
Proof.
  destruct (Clamp_bounds x _ _ Hlit). destruct st; eauto with prop.
Qed.

Lemma Grab_stepped s Holder m :
  ManagedMesh (self s) = Some m ->
  wlp (Grab Holder) (fun _ => stepped (OpGrab Holder) s) s.
Proof.
  intros Hm. unfold Grab, ignoreHolderOwner, stepped, grabState.
  wlp_auto; simplify_eq; try by constructor.
  all: destruct (bCanEverTick _); state_simpl; apply gstep_to_Held.
Qed.

Lemma Drop_stepped s m :
  ManagedMesh (self s) = Some m ->
  wlp Drop (fun _ s' => stepped OpDrop s s' /\ grabState (self s') = Idle) s.
Proof.
  intros Hm. unfold Drop, restoreHolderOwner, stepped, grabState.
  wlp_auto; simplify_eq; try (split; [by constructor|done]).
  all: destruct (bIsGrabbed (self s)); [done|split; [by constructor|done]].
Qed.

Lemma Throw_stepped s d f m :
  ManagedMesh (self s) = Some m ->
  wlp (Throw d f) (fun _ => stepped (OpThrow d f) s) s.
Proof.
  intros Hm. unfold Throw. wlp_auto; simplify_eq.
  - unfold stepped, grabState. destruct (bIsGrabbed (self s)); [done|constructor].
  - eapply wlp_mono; [|by eapply Drop_stepped].    
    intros ? s1 [_ Hidle]. wlp_auto. unfold stepped. state_simpl.
    rewrite Hidle. constructor.
Qed.

Lemma UpdateGrabbedPosition_stepped s :
  wlp UpdateGrabbedPosition (fun _ => stepped OpUpdate s) s.
Proof.
  unfold UpdateGrabbedPosition, stepped. wlp_auto; constructor.
Qed.

Lemma runOp_stepped s op m :
  ManagedMesh (self s) = Some m -> wlp (runOp op) (fun _ => stepped op s) s.
Proof.
  intros Hm. destruct op; simpl.
  - by eapply Grab_stepped.
  - eapply wlp_mono; [|by eapply Drop_stepped]. by intros ? ? [].
  - by eapply Throw_stepped.
  - apply UpdateGrabbedPosition_stepped.
Qed.

(** Every finished run of the code, from a state that satisfies the
    invariant and manages a mesh, is a run of the machine. *)
Lemma runOps_refine ops s s' m :
  GrabInv (self s) ->
  ManagedMesh (self s) = Some m ->
  runOps ops s = Done tt s' ->
  gsteps (grabState (self s)) ops (grabState (self s')).
Proof.
  revert s. induction ops as [|op ops IH]; intros s Hinv Hm Hrun.
  - inv Hrun. constructor.
  - simpl in Hrun. apply bind_inv in Hrun as ([] & s1 & Hop & Hrest).
    destruct (wlp_Done _ _ _ _ _ (runOp_kept s op Hinv) Hop) as [Hinv1 Hm1].
    econstructor; [exact (wlp_Done _ _ _ _ _ (runOp_stepped s op m Hm) Hop)|].
    apply IH; [done | congruence | done].
Qed.

End Refinement.

(** C12. On binary32, the code refines the machine of the design: a run of
    grab controller operations that finishes, from a state where the
    invariant holds and a mesh is managed, takes the component through
    transitions of the machine only, so a held prop has a hold distance
    between 50 and 250 and [Drop] and [Throw] always end in [Idle]. *)
Theorem runOps_refine_b32 ops (s s' : State b32) m :
  GrabInv (self s) ->
  ManagedMesh (self s) = Some m ->
  runOps ops s = Done tt s' ->
  gsteps (grabState (self s)) ops (grabState (self s')).
Proof. by apply runOps_refine. Qed.

Lemma GrabInv_restState : GrabInv (self restState).
Proof. split; [done | by inv 1]. Qed.

Lemma GrabInv_preserved_witness : GrabInv (self (afterOps sampleOps)).
Proof.
  apply (GrabInv_preserved sampleOps restState (afterOps sampleOps));
    [apply GrabInv_restState | by vm_compute].
Defined.

Lemma runOps_refine_b32_witness :
  gsteps (grabState (self restState)) sampleOps
    (grabState (self (afterOps sampleOps))).
Proof.
  apply (runOps_refine_b32 sampleOps restState (afterOps sampleOps) 1);
    [apply GrabInv_restState | reflexivity | by vm_compute].
Defined.

(** The session ends held by the holder 5, at the distance of the mesh
    from it: the mesh never moved from (150, 0, 0), the holder is at
    (0, 100, 0), and the square root of 32500 rounds to 180.27756. *)
Example sampleOps_end :
  grabState (self (afterOps sampleOps))
  = Held 5 (S754_finite false 11814670 (-16)).
Proof. by vm_compute. Qed.
