(* ===== verification/Tick.v ===== *)
(** * Tick: the per-frame work of the component

    [TickComponent] of PhysicsPropComponent.cpp: the gate that switches
    continuous collision detection on the managed body with its speed, and
    the repositioning of a held prop.  The theorems show that the gate calls
    [SetUseCCD] only when the flag of the body has to change, count the
    calls of a run of frames, and show what a non-positive threshold does to
    a held prop. *)

From Stdlib Require Import ZArith Lia Floats.SpecFloat.
From stdpp Require Import base tactics option list gmap.
From S2P Require Import Prelude Scalar Float32 Vec Engine ImpactData Component Samples Grab.

Local Open Scope scalar_scope.
Local Open Scope handler_scope.

Section Tick.
Context {F : Type} `{Scalar F}.

(** [SpeedSq > (CCDSpeedThreshold * CCDSpeedThreshold)]. *)
Definition shouldUseCCD (Velocity : FVector F) (Threshold : F) : bool :=
  SizeSquared Velocity >? Threshold * Threshold.

(** The CCD block of [TickComponent]. *)
Definition updateCCD (m : positive) : H F unit :=
  mesh ← call (getMesh m);
  let SpeedSq := SizeSquared (ComponentVelocity mesh) in
  Threshold ← this (fun c => CCDSpeedThreshold (cfg c));
  let bShouldUseCCD := SpeedSq >? Threshold * Threshold in
  mesh ← call (getMesh m);
  when (bool_neq (bUseCCD mesh) bShouldUseCCD) (call (SetUseCCD m bShouldUseCCD)).

Definition TickComponent (DeltaTime : F) : H F unit :=
  mm ← this ManagedMesh;
  Threshold ← this (fun c => CCDSpeedThreshold (cfg c));
  match mm with
  | Some m =>
      if Threshold <=? ofZ 0 then skip
      else
        updateCCD m;;
        g ← this bIsGrabbed;
        holder ← this CurrentHolder;
        when (g && bool_decide (is_Some holder)) UpdateGrabbedPosition
  | None => skip
  end.

(** One frame of the host on a free body: the solver gives the body its
    velocity, then the component ticks. *)
Definition frame (m : positive) (DeltaTime : F) (Velocity : FVector F) : H F unit :=
  call (updMesh m (set_ComponentVelocity Velocity));;
  TickComponent DeltaTime.

Fixpoint frames (m : positive) (DeltaTime : F) (Velocities : list (FVector F)) : H F unit :=
  match Velocities with
  | [] => skip
  | v :: rest => frame m DeltaTime v;; frames m DeltaTime rest
  end.

(** Is the call a [SetUseCCD]? *)
Definition isSetUseCCD (c : Call F) : bool :=
  match c with
  | CallSetUseCCD _ _ => true
  | _ => false
  end.

(** How often a sequence of flags changes, starting from [b]. *)
Fixpoint flips (b : bool) (l : list bool) : nat :=
  match l with
  | [] => 0
  | x :: rest => (if bool_neq b x then 1 else 0) + flips x rest
  end.

End Tick.

(** The sample prop moving along x at the given speed. *)
Definition movingState (speed : Z) : State b32 := sampleState 150 (vec speed 0 0).

(** The sample prop, held, with the CCD threshold set to 0. *)
Definition heldNoCCD : State b32 :=
  withConfig (ofZ 3000) (ofZ 1) (ofZ 0) heldState.

(** Speeds of five frames: above, above, below, below, above 500. *)
Definition sampleSpeeds : list (FVector b32) :=
  [vec 600 0 0; vec 0 700 0; vec 100 0 0; vec 0 0 50; vec 300 400 1].

Section TickFacts.
Context {F : Type} `{Scalar F}.
Implicit Types s : State F.

(** The CCD block in closed form: the flag of the body becomes the wanted
    one, and [SetUseCCD] is logged only if the flag changes. *)
Lemma updateCCD_run s m mesh :
  meshes (world s) !! m = Some mesh ->
  let b := shouldUseCCD (ComponentVelocity mesh) (CCDSpeedThreshold (cfg (self s))) in
  exists s',
    updateCCD m s = Done tt s' /\
    self s' = self s /\
    meshes (world s') !! m = Some (set_bUseCCD b mesh) /\
    actors (world s') = actors (world s) /\
    scenes (world s') = scenes (world s) /\
    calls (world s')
    = calls (world s) ++ (if bool_neq (bUseCCD mesh) b then [CallSetUseCCD m b] else []).
Proof.
  intros Hmesh b. subst b. unfold shouldUseCCD.
  destruct (bUseCCD mesh) eqn:Hccd,
    (SizeSquared (ComponentVelocity mesh) >? _) eqn:Hb.
  all: eexists; split; [unfold updateCCD; hrun|].
  all: state_simpl; rewrite ?lookup_insert_eq, ?app_nil_r; split_and!; try done.
  all: rewrite Hmesh; f_equal; destruct mesh; simpl in *; by subst.
Qed.

(** [TickComponent] does nothing without a managed mesh. *)
Theorem TickComponent_noop s dt :
  ManagedMesh (self s) = None -> TickComponent dt s = Done tt s.
Proof. intros Hm. unfold TickComponent. by do 2 hstep. Qed.

(** A tick of a free prop with a positive threshold, in closed form. *)
Lemma TickComponent_free s dt m mesh :
  ManagedMesh (self s) = Some m ->
  meshes (world s) !! m = Some mesh ->
  (CCDSpeedThreshold (cfg (self s)) <=? ofZ 0) = false ->
  bIsGrabbed (self s) = false ->
  let b := shouldUseCCD (ComponentVelocity mesh) (CCDSpeedThreshold (cfg (self s))) in
  exists s',
    TickComponent dt s = Done tt s' /\
    self s' = self s /\
    meshes (world s') !! m = Some (set_bUseCCD b mesh) /\
    calls (world s')
    = calls (world s) ++ (if bool_neq (bUseCCD mesh) b then [CallSetUseCCD m b] else []).
Proof.
  intros Hm Hmesh Hthr Hg b.
  destruct (updateCCD_run s m mesh Hmesh) as (s1 & Hrun & Hself & Hm1 & _ & _ & Hcalls).
  exists s1. split; [|done].
  unfold TickComponent. do 2 hstep. erewrite bind_Done by exact Hrun.
  do 2 hstep. by rewrite Hself, Hg.
Qed.

(** A tick of a held prop is the CCD block followed by
    [UpdateGrabbedPosition]. *)
Theorem TickComponent_held s dt m mesh h :
  ManagedMesh (self s) = Some m ->
  meshes (world s) !! m = Some mesh ->
  (CCDSpeedThreshold (cfg (self s)) <=? ofZ 0) = false ->
  bIsGrabbed (self s) = true ->
  CurrentHolder (self s) = Some h ->
  exists s1,
    updateCCD m s = Done tt s1 /\
    TickComponent dt s = UpdateGrabbedPosition s1.
Proof.
  intros Hm Hmesh Hthr Hg Hh.
  destruct (updateCCD_run s m mesh Hmesh) as (s1 & Hrun & Hself & _).
  exists s1. split; [done|].
  unfold TickComponent. do 2 hstep. erewrite bind_Done by exact Hrun.
  do 2 hstep. by rewrite Hself, Hg, Hh.
Qed.

(** C23. With a threshold that is not positive, [TickComponent] returns
    before the grab block: a held prop is not repositioned, and nothing is
    called. *)
Theorem TickComponent_ccd_off_skips_grab s dt :
  CCDSpeedThreshold (cfg (self s)) <= ofZ 0 -> TickComponent dt s = Done tt s.
Proof.
  intros Hthr. unfold TickComponent. do 2 hstep.
  by destruct (ManagedMesh (self s)).
Qed.

(** C3. A tick of a free prop with a positive threshold leaves the flag of
    the body equal to [SpeedSq > Threshold * Threshold], and calls
    [SetUseCCD] if and only if the flag changes: the tick issues that one
    call, or none at all. *)
Theorem TickComponent_gate s dt m mesh :
  ManagedMesh (self s) = Some m ->
  meshes (world s) !! m = Some mesh ->
  (CCDSpeedThreshold (cfg (self s)) <=? ofZ 0) = false ->
  bIsGrabbed (self s) = false ->
  let b := shouldUseCCD (ComponentVelocity mesh) (CCDSpeedThreshold (cfg (self s))) in
  exists s' mesh',
    TickComponent dt s = Done tt s' /\
    meshes (world s') !! m = Some mesh' /\
    bUseCCD mesh' = b /\
    issued (calls (world s)) (calls (world s'))
    = if bool_neq (bUseCCD mesh) b then [CallSetUseCCD m b] else [].
Proof.
  intros Hm Hmesh Hthr Hg b. subst b. unfold shouldUseCCD.
  destruct (bUseCCD mesh) eqn:Hccd,
    (SizeSquared (ComponentVelocity mesh) >? _) eqn:Hb.
  all: do 2 eexists; split; [unfold TickComponent, updateCCD; hrun|].
  all: state_simpl; rewrite ?lookup_insert_eq, ?issued_app, ?issued_refl.
  all: by split_and!.
Qed.

(** Two ticks in a row, with the velocity unchanged between them: the
    second one calls nothing. *)
Theorem TickComponent_stable s dt m mesh :
  ManagedMesh (self s) = Some m ->
  meshes (world s) !! m = Some mesh ->
  (CCDSpeedThreshold (cfg (self s)) <=? ofZ 0) = false ->
  bIsGrabbed (self s) = false ->
  exists s1 s2,
    TickComponent dt s = Done tt s1 /\
    TickComponent dt s1 = Done tt s2 /\
    calls (world s2) = calls (world s1).
Proof.
  intros Hm Hmesh Hthr Hg.
  destruct (TickComponent_free s dt m mesh Hm Hmesh Hthr Hg)
    as (s1 & Hrun1 & Hself & Hm1 & _).
  destruct (TickComponent_free s1 dt m _ ltac:(by rewrite Hself) Hm1
              ltac:(by rewrite Hself) ltac:(by rewrite Hself))
    as (s2 & Hrun2 & _ & _ & Hcalls).
  exists s1, s2. split_and!; [done..|].
  rewrite Hcalls, Hself. destruct mesh; simpl.
  by rewrite bool_neq_refl, app_nil_r.
Qed.

(** One frame of a free prop, in closed form. *)
Lemma frame_run s dt m mesh v :
  ManagedMesh (self s) = Some m ->
  meshes (world s) !! m = Some mesh ->
  (CCDSpeedThreshold (cfg (self s)) <=? ofZ 0) = false ->
  bIsGrabbed (self s) = false ->
  let b := shouldUseCCD v (CCDSpeedThreshold (cfg (self s))) in
  exists s',
    frame m dt v s = Done tt s' /\
    self s' = self s /\
    meshes (world s') !! m = Some (set_bUseCCD b (set_ComponentVelocity v mesh)) /\
    calls (world s')
    = calls (world s) ++ (if bool_neq (bUseCCD mesh) b then [CallSetUseCCD m b] else []).
Proof.
  intros Hm Hmesh Hthr Hg b. unfold frame. erewrite bind_Done by run1.
  edestruct (TickComponent_free
               (set_world (set_meshes (<[m:=set_ComponentVelocity v mesh]>
                                         (meshes (world s))) (world s)) s)
               dt m (set_ComponentVelocity v mesh))
    as (s' & Hrun & Hself & Hm' & Hcalls); [done | apply lookup_insert_eq | done..|].
  exists s'. split_and!; [done..|]. rewrite Hcalls. by destruct mesh.
Qed.

(** A run of frames, in closed form: the calls it adds to the log, and how
    many of them are [SetUseCCD]. *)
Lemma frames_run vs : forall s dt m mesh,
  ManagedMesh (self s) = Some m ->
  meshes (world s) !! m = Some mesh ->
  (CCDSpeedThreshold (cfg (self s)) <=? ofZ 0) = false ->
  bIsGrabbed (self s) = false ->
  exists s' k,
    frames m dt vs s = Done tt s' /\
    calls (world s') = calls (world s) ++ k /\
    count isSetUseCCD k
    = flips (bUseCCD mesh)
        (map (fun v => shouldUseCCD v (CCDSpeedThreshold (cfg (self s)))) vs).
Proof.
  induction vs as [|v vs IH]; intros s dt m mesh Hm Hmesh Hthr Hg.
  - exists s, []. by rewrite app_nil_r.
  - destruct (frame_run s dt m mesh v Hm Hmesh Hthr Hg)
      as (s1 & Hrun1 & Hself & Hm1 & Hcalls1).
    destruct (IH s1 dt m _ ltac:(by rewrite Hself) Hm1
                ltac:(by rewrite Hself) ltac:(by rewrite Hself))
      as (s2 & k & Hrun2 & Hcalls2 & Hcount).
    eexists s2, (_ ++ k). split_and!.
    + simpl. by erewrite bind_Done by exact Hrun1.
    + by rewrite Hcalls2, Hcalls1, app_assoc.
    + rewrite count_app, Hcount, Hself. simpl. f_equal.
      by destruct (bool_neq _ _).
Qed.

(** C11. Over a run of frames of a free prop, [SetUseCCD] is called once per
    change of the wanted flag, and not otherwise: the number of calls is the
    number of times the sequence of flags [SpeedSq > Threshold * Threshold]
    changes, starting from the flag of the body. *)
Theorem frames_count s dt m mesh vs :
  ManagedMesh (self s) = Some m ->
  meshes (world s) !! m = Some mesh ->
  (CCDSpeedThreshold (cfg (self s)) <=? ofZ 0) = false ->
  bIsGrabbed (self s) = false ->
  exists s',
    frames m dt vs s = Done tt s' /\
    count isSetUseCCD (issued (calls (world s)) (calls (world s')))
    = flips (bUseCCD mesh)
        (map (fun v => shouldUseCCD v (CCDSpeedThreshold (cfg (self s)))) vs).
Proof.
  intros Hm Hmesh Hthr Hg.
  destruct (frames_run vs s dt m mesh Hm Hmesh Hthr Hg) as (s' & k & Hrun & Hcalls & Hn).
  exists s'. by rewrite Hcalls, issued_app.
Qed.

End TickFacts.

(** ** The theorems on the sample prop *)

Lemma TickComponent_noop_witness : TickComponent (dec 1 60) freshState = Done tt freshState.
Proof. by apply (TickComponent_noop freshState). Defined.

Lemma TickComponent_gate_witness :
  exists s' mesh',
    TickComponent (dec 1 60) (movingState 600) = Done tt s' /\
    meshes (world s') !! 1%positive = Some mesh' /\
    bUseCCD mesh' = true /\
    issued (calls (world (movingState 600))) (calls (world s'))
    = [CallSetUseCCD 1 true].
Proof.
  by_instance (TickComponent_gate (movingState 600) (dec 1 60) 1
                 (sampleMesh (vec 150 0 0) (vec 600 0 0))
                 eq_refl eq_refl eq_refl eq_refl).
Defined.

Lemma TickComponent_held_witness :
  exists s1,
    updateCCD 1 heldState = Done tt s1 /\
    TickComponent (dec 1 60) heldState = UpdateGrabbedPosition s1.
Proof.
  eapply (TickComponent_held heldState (dec 1 60) 1 _ 3);
    [reflexivity | by vm_compute | reflexivity | reflexivity | reflexivity].
Defined.

Lemma TickComponent_ccd_off_skips_grab_witness :
  TickComponent (dec 1 60) heldNoCCD = Done tt heldNoCCD.
Proof. by apply (TickComponent_ccd_off_skips_grab heldNoCCD). Defined.

(** The same prop with the default threshold is moved by the tick. *)
Example TickComponent_moves_held :
  (exec (TickComponent (dec 1 60)) heldState ≫= fun s => last (calls (world s)))
  = Some (CallSetActorLocationAndRotation 2 (vec 150 0 0) rot0 true) /\
  (exec (TickComponent (dec 1 60)) heldNoCCD ≫= fun s => last (calls (world s)))
  = last (calls (world heldState)).
Proof. by vm_compute. Qed.

Lemma TickComponent_stable_witness :
  exists s1 s2,
    TickComponent (dec 1 60) (movingState 600) = Done tt s1 /\
    TickComponent (dec 1 60) s1 = Done tt s2 /\
    calls (world s2) = calls (world s1).
Proof.
  apply (TickComponent_stable (movingState 600) (dec 1 60) 1
           (sampleMesh (vec 150 0 0) (vec 600 0 0))); reflexivity.
Defined.

Lemma frames_count_witness :
  exists s',
    frames 1 (dec 1 60) sampleSpeeds restState = Done tt s' /\
    count isSetUseCCD (issued (calls (world restState)) (calls (world s'))) = 3.
Proof.
  by_instance (frames_count restState (dec 1 60) 1
                 (sampleMesh (vec 150 0 0) (vec 0 0 0)) sampleSpeeds
                 eq_refl eq_refl eq_refl eq_refl).
Defined.

(** The calls of the five sample frames: on, off, on. *)
Example frames_example :
  (exec (frames 1 (dec 1 60) sampleSpeeds) restState ≫= fun s => Some (calls (world s)))
  = Some [CallSetUseCCD 1 true; CallSetUseCCD 1 false; CallSetUseCCD 1 true].
Proof. by vm_compute. Qed.

(** The comparison is strict: at a speed of exactly 500 the flag stays off,
    and the next representable speed above turns it on. *)
Example shouldUseCCD_boundary :
  shouldUseCCD (vec 500 0 0) (ofZ 500 : b32) = false /\
  shouldUseCCD (mkVec (S754_finite false 8192001 (-14)) (ofZ 0) (ofZ 0)) (ofZ 500 : b32)
  = true.
Proof. by vm_compute. Qed.
