(* ===== verification/Proximity.v ===== *)
(** * Proximity: the distance check and the sleep and wake callbacks

    [CheckDistanceToPlayer], [OnPhysicsComponentSleep] and
    [OnPhysicsComponentWake] of PhysicsPropComponent.cpp.  The distance
    check is what the timer of [Physicalize] runs; the two callbacks are
    what the body calls when it falls asleep and when it wakes. *)

From Stdlib Require Import ZArith Floats.SpecFloat.
From stdpp Require Import base tactics option list gmap.
From S2P Require Import Prelude Scalar Float32 Vec Engine ImpactData Component Samples.

Local Open Scope scalar_scope.
Local Open Scope handler_scope.

Section Proximity.
Context {F : Type} `{Scalar F}.

(** [GetBodyInstance()->IsInstanceAwake()]: the body instance is
    dereferenced. *)
Definition IsInstanceAwake (mesh : Mesh F) : W F bool :=
  if hasBodyInstance mesh then mret (bAwake mesh) else throw NullBodyInstance.

(** The far branch: force a simulating, awake body to sleep, and tick the
    mesh once a second. *)
Definition cullFar (m : positive) : H F unit :=
  mesh ← call (getMesh m);
  awake ← (if bSimulatePhysics mesh then call (IsInstanceAwake mesh) else mret false);
  when awake (call (PutAllRigidBodiesToSleep m));;
  call (SetComponentTickInterval m (ofZ 1)).

Definition CheckDistanceToPlayer : H F unit :=
  mm ← this ManagedMesh;
  w ← GetWorld;
  match mm with
  | Some m =>
      if negb w then skip
      else
        me ← theOwner;
        a ← call (getActor me);
        if vZ (ActorLocation a) <? ofZ (-20000) then
          me ← theOwner;
          call (Destroy me)
        else
          theWorld;;
          PC ← call (gets playerView);
          match PC with
          | Some ObserverLoc =>
              me ← theOwner;
              a ← call (getActor me);
              let DistSq := DistSquared ObserverLoc (ActorLocation a) in
              cull ← this (fun c => PhysicsCullDistance (cfg c));
              let CullDistSq := cull * cull in
              if DistSq >? CullDistSq then cullFar m
              else call (SetComponentTickInterval m (ofZ 0))
          | None => skip
          end
  | None => skip
  end.

(** The end of both callbacks: with authority, switch the replication of
    the owner's movement. *)
Definition replicateMovement (b : bool) : H F unit :=
  auth ← OwnerHasAuthority;
  when auth (me ← theOwner; call (SetReplicateMovement me b)).

Definition OnPhysicsComponentSleep : H F unit :=
  SetComponentTickEnabled false;;
  me ← theOwner;
  call (SetActorTickEnabled me false);;
  replicateMovement false.

Definition OnPhysicsComponentWake : H F unit :=
  SetComponentTickEnabled true;;
  me ← theOwner;
  call (SetActorTickEnabled me true);;
  replicateMovement true.

(** Is the observer beyond the cull distance of the prop at [loc]? *)
Definition isFar (ObserverLoc loc : FVector F) (cull : F) : bool :=
  DistSquared ObserverLoc loc >? cull * cull.

End Proximity.

(** The sample prop at distance [d] from the player, awake. *)
Definition propAt (d : Z) : State b32 := sampleState d (vec 0 0 0).

Section ProximityFacts.
Context {F : Type} `{Scalar F}.
Implicit Types s : State F.

(** The distance check does nothing without a managed mesh or
    without a world. *)
Theorem CheckDistanceToPlayer_noop s :
  ManagedMesh (self s) = None \/ hasWorld (self s) = false ->
  CheckDistanceToPlayer s = Done tt s.
Proof.
  intros Hnull. unfold CheckDistanceToPlayer, GetWorld. do 2 hstep.
  destruct (ManagedMesh (self s)), (hasWorld (self s)), Hnull; by simplify_eq.
Qed.

(** The far branch in closed form: the body is put to sleep if it
    simulates and is awake, and the tick interval is set in every case. *)
Lemma cullFar_run s m mesh :
  meshes (world s) !! m = Some mesh ->
  (bSimulatePhysics mesh = true -> hasBodyInstance mesh = true) ->
  let awake := bSimulatePhysics mesh && bAwake mesh in
  exists s',
    cullFar m s = Done tt s' /\
    self s' = self s /\
    actors (world s') = actors (world s) /\
    playerView (world s') = playerView (world s) /\
    meshes (world s') !! m
    = Some (set_TickInterval (ofZ 1) (if awake then set_bAwake false mesh else mesh)) /\
    calls (world s')
    = calls (world s)
      ++ (if awake then [CallPutAllRigidBodiesToSleep m] else [])
      ++ [CallSetComponentTickInterval m (ofZ 1)].
Proof.
  intros Hmesh Hbody awake. subst awake.
  destruct (bSimulatePhysics mesh) eqn:Hsim;
    [specialize (Hbody eq_refl) | clear Hbody]; destruct (bAwake mesh) eqn:Hawake.
  all: eexists; split; [unfold cullFar, IsInstanceAwake; hrun|].
  all: state_simpl; by rewrite ?lookup_insert_eq, <- ?app_assoc.
Qed.

(** The distance check beyond the cull distance, in closed form. *)
Lemma CheckDistanceToPlayer_far_run s m mesh me a ObserverLoc :
  ManagedMesh (self s) = Some m ->
  meshes (world s) !! m = Some mesh ->
  hasWorld (self s) = true ->
  compOwner (self s) = Some me ->
  actors (world s) !! me = Some a ->
  (vZ (ActorLocation a) <? ofZ (-20000)) = false ->
  playerView (world s) = Some ObserverLoc ->
  isFar ObserverLoc (ActorLocation a) (PhysicsCullDistance (cfg (self s))) = true ->
  (bSimulatePhysics mesh = true -> hasBodyInstance mesh = true) ->
  let awake := bSimulatePhysics mesh && bAwake mesh in
  exists s',
    CheckDistanceToPlayer s = Done tt s' /\
    self s' = self s /\
    actors (world s') = actors (world s) /\
    playerView (world s') = playerView (world s) /\
    meshes (world s') !! m
    = Some (set_TickInterval (ofZ 1) (if awake then set_bAwake false mesh else mesh)) /\
    calls (world s')
    = calls (world s)
      ++ (if awake then [CallPutAllRigidBodiesToSleep m] else [])
      ++ [CallSetComponentTickInterval m (ofZ 1)].
Proof.
  intros Hm Hmesh Hw Ho Ha Hz Hpc Hfar Hbody awake. unfold isFar in Hfar.
  destruct (cullFar_run s m mesh Hmesh Hbody) as (s' & Hrun & Hrest).
  exists s'. split; [|done].
  unfold CheckDistanceToPlayer, GetWorld. do 9 hstep. exact Hrun.
Qed.

(** C27. Beyond the cull distance, the distance check forces a simulating,
    awake body to sleep and sets the tick interval of the mesh to one
    second; these are its only calls, and the component itself is
    unchanged. *)
Theorem CheckDistanceToPlayer_far s m mesh me a ObserverLoc :
  ManagedMesh (self s) = Some m ->
  meshes (world s) !! m = Some mesh ->
  hasWorld (self s) = true ->
  compOwner (self s) = Some me ->
  actors (world s) !! me = Some a ->
  (vZ (ActorLocation a) <? ofZ (-20000)) = false ->
  playerView (world s) = Some ObserverLoc ->
  isFar ObserverLoc (ActorLocation a) (PhysicsCullDistance (cfg (self s))) = true ->
  (bSimulatePhysics mesh = true -> hasBodyInstance mesh = true) ->
  let awake := bSimulatePhysics mesh && bAwake mesh in
  exists s' mesh',
    CheckDistanceToPlayer s = Done tt s' /\
    self s' = self s /\
    meshes (world s') !! m = Some mesh' /\
    TickInterval mesh' = ofZ 1 /\
    bSimulatePhysics mesh' && bAwake mesh' = false /\
    issued (calls (world s)) (calls (world s'))
    = (if awake then [CallPutAllRigidBodiesToSleep m] else [])
      ++ [CallSetComponentTickInterval m (ofZ 1)].
Proof.
  intros Hm Hmesh Hw Ho Ha Hz Hpc Hfar Hbody awake.
  destruct (CheckDistanceToPlayer_far_run s m mesh me a ObserverLoc)
    as (s' & Hrun & Hself & _ & _ & Hm' & Hcalls); [done..|].
  eexists s', _. split_and!; [done | done | exact Hm' | done | | ].
  - subst awake. destruct (bSimulatePhysics mesh) eqn:Hs, (bAwake mesh) eqn:Hb; simpl;
      by rewrite ?Hs, ?Hb.
  - by rewrite Hcalls, issued_app.
Qed.

(** C10. The distance check run twice in a row beyond the cull distance:
    the second run does not force the body to sleep again, and it sets the
    tick interval again, to the value it has. *)
Theorem CheckDistanceToPlayer_twice s m mesh me a ObserverLoc :
  ManagedMesh (self s) = Some m ->
  meshes (world s) !! m = Some mesh ->
  hasWorld (self s) = true ->
  compOwner (self s) = Some me ->
  actors (world s) !! me = Some a ->
  (vZ (ActorLocation a) <? ofZ (-20000)) = false ->
  playerView (world s) = Some ObserverLoc ->
  isFar ObserverLoc (ActorLocation a) (PhysicsCullDistance (cfg (self s))) = true ->
  (bSimulatePhysics mesh = true -> hasBodyInstance mesh = true) ->
  exists s1 s2,
    CheckDistanceToPlayer s = Done tt s1 /\
    CheckDistanceToPlayer s1 = Done tt s2 /\
    issued (calls (world s1)) (calls (world s2))
    = [CallSetComponentTickInterval m (ofZ 1)].
Proof.
  intros Hm Hmesh Hw Ho Ha Hz Hpc Hfar Hbody. unfold isFar in Hfar.
  destruct (bSimulatePhysics mesh) eqn:Hsim;
    [specialize (Hbody eq_refl) | clear Hbody]; destruct (bAwake mesh) eqn:Hawake.
  all: do 2 eexists; split_and!;
    [unfold CheckDistanceToPlayer, GetWorld, cullFar, IsInstanceAwake; hrun..|].
  all: state_simpl; by rewrite issued_app.
Qed.

(** C28. Within the cull distance, the distance check sets the tick
    interval of the mesh to 0, the native rate, and calls nothing else. *)
Theorem CheckDistanceToPlayer_near s m mesh me a ObserverLoc :
  ManagedMesh (self s) = Some m ->
  meshes (world s) !! m = Some mesh ->
  hasWorld (self s) = true ->
  compOwner (self s) = Some me ->
  actors (world s) !! me = Some a ->
  (vZ (ActorLocation a) <? ofZ (-20000)) = false ->
  playerView (world s) = Some ObserverLoc ->
  isFar ObserverLoc (ActorLocation a) (PhysicsCullDistance (cfg (self s))) = false ->
  exists s',
    CheckDistanceToPlayer s = Done tt s' /\
    self s' = self s /\
    meshes (world s') !! m = Some (set_TickInterval (ofZ 0) mesh) /\
    issued (calls (world s)) (calls (world s'))
    = [CallSetComponentTickInterval m (ofZ 0)].
Proof.
  intros Hm Hmesh Hw Ho Ha Hz Hpc Hfar. unfold isFar in Hfar.
  eexists; split; [unfold CheckDistanceToPlayer, GetWorld; hrun|].
  state_simpl. by rewrite lookup_insert_eq, issued_app.
Qed.

(** C29. Below the floor of the world, at z < -20000, the distance check
    destroys the owner and does nothing else: no sleep, no tick interval. *)
Theorem CheckDistanceToPlayer_floor s m me a :
  ManagedMesh (self s) = Some m ->
  hasWorld (self s) = true ->
  compOwner (self s) = Some me ->
  actors (world s) !! me = Some a ->
  vZ (ActorLocation a) < ofZ (-20000) ->
  exists s',
    CheckDistanceToPlayer s = Done tt s' /\
    self s' = self s /\
    meshes (world s') = meshes (world s) /\
    actors (world s') !! me = Some (set_bDestroyed true a) /\
    issued (calls (world s)) (calls (world s')) = [CallDestroy me].
Proof.
  intros Hm Hw Ho Ha Hz.
  eexists; split; [unfold CheckDistanceToPlayer, GetWorld; hrun|].
  state_simpl. by rewrite lookup_insert_eq, issued_app.
Qed.

(** Without a player controller the distance check does nothing. *)
Theorem CheckDistanceToPlayer_no_controller s m me a :
  ManagedMesh (self s) = Some m ->
  hasWorld (self s) = true ->
  compOwner (self s) = Some me ->
  actors (world s) !! me = Some a ->
  (vZ (ActorLocation a) <? ofZ (-20000)) = false ->
  playerView (world s) = None ->
  CheckDistanceToPlayer s = Done tt s.
Proof.
  intros Hm Hw Ho Ha Hz Hpc. unfold CheckDistanceToPlayer, GetWorld.
  etransitivity; [hrun|]. by destruct s as [[] ?].
Qed.

(** Whatever the distance check does, it leaves the component's own
    fields as they are: the timer changes the tick interval of the mesh,
    never whether the component ticks, and never the grab state. *)
Theorem CheckDistanceToPlayer_keeps_self s s' :
  CheckDistanceToPlayer s = Done tt s' -> self s' = self s.
Proof.
  apply (wlp_Done _ (fun _ s' => self s' = self s)).
  unfold CheckDistanceToPlayer, cullFar. by wlp_auto.
Qed.

(** ** The sleep and wake callbacks *)

(** The cases of a callback: can the component tick, has the owner
    authority. *)
Lemma callback_run s me a b :
  compOwner (self s) = Some me ->
  actors (world s) !! me = Some a ->
  exists s' a',
    (SetComponentTickEnabled b;; me ← theOwner;
     call (SetActorTickEnabled me b);; replicateMovement b) s = Done tt s' /\
    bTickEnabled (self s')
    = (if bCanEverTick (self s) then b else bTickEnabled (self s)) /\
    bIsGrabbed (self s') = bIsGrabbed (self s) /\
    meshes (world s') = meshes (world s) /\
    actors (world s') !! me = Some a' /\
    bActorTickEnabled a' = b /\
    bReplicateMovement a' = (if hasAuthority a then b else bReplicateMovement a) /\
    issued (calls (world s)) (calls (world s'))
    = [CallSetComponentTickEnabled b; CallSetActorTickEnabled me b]
      ++ (if hasAuthority a then [CallSetReplicateMovement me b] else []).
Proof.
  intros Ho Ha.
  destruct (bCanEverTick (self s)) eqn:Ht, (hasAuthority a) eqn:Hauth.
  all: do 2 eexists; split; [unfold replicateMovement, OwnerHasAuthority; hrun|].
  all: state_simpl; rewrite ?lookup_insert_eq, <- ?app_assoc, ?issued_app.
  all: by rewrite ?Hauth.
Qed.

(** C32. When the body falls asleep: the component stops ticking, the owner
    stops ticking, and with authority the owner's movement is no longer
    replicated.  These are the only calls. *)
Theorem OnPhysicsComponentSleep_state s me a :
  compOwner (self s) = Some me ->
  actors (world s) !! me = Some a ->
  bCanEverTick (self s) = true ->
  exists s' a',
    OnPhysicsComponentSleep s = Done tt s' /\
    bTickEnabled (self s') = false /\
    actors (world s') !! me = Some a' /\
    bActorTickEnabled a' = false /\
    bReplicateMovement a' = bReplicateMovement a && negb (hasAuthority a) /\
    issued (calls (world s)) (calls (world s'))
    = [CallSetComponentTickEnabled false; CallSetActorTickEnabled me false]
      ++ (if hasAuthority a then [CallSetReplicateMovement me false] else []).
Proof.
  intros Ho Ha Ht.
  destruct (callback_run s me a false Ho Ha)
    as (s' & a' & Hrun & Htick & _ & _ & Ha' & Hat & Hrep & Hcalls).
  exists s', a'. rewrite Ht in Htick. split_and!; [done..| |done].
  rewrite Hrep. by destruct (hasAuthority a), (bReplicateMovement a).
Qed.

(** When the body wakes: the component ticks, the owner ticks, and
    with authority the owner's movement is replicated. *)
Theorem OnPhysicsComponentWake_state s me a :
  compOwner (self s) = Some me ->
  actors (world s) !! me = Some a ->
  bCanEverTick (self s) = true ->
  exists s' a',
    OnPhysicsComponentWake s = Done tt s' /\
    bTickEnabled (self s') = true /\
    actors (world s') !! me = Some a' /\
    bActorTickEnabled a' = true /\
    bReplicateMovement a' = bReplicateMovement a || hasAuthority a /\
    issued (calls (world s)) (calls (world s'))
    = [CallSetComponentTickEnabled true; CallSetActorTickEnabled me true]
      ++ (if hasAuthority a then [CallSetReplicateMovement me true] else []).
Proof.
  intros Ho Ha Ht.
  destruct (callback_run s me a true Ho Ha)
    as (s' & a' & Hrun & Htick & _ & _ & Ha' & Hat & Hrep & Hcalls).
  exists s', a'. rewrite Ht in Htick. split_and!; [done..| |done].
  rewrite Hrep. by destruct (hasAuthority a), (bReplicateMovement a).
Qed.

(** The callbacks dereference the owner without a test: a component
    that has no owner faults on it, after the component's own tick was
    switched. *)
Theorem OnPhysicsComponentSleep_no_owner s :
  compOwner (self s) = None -> OnPhysicsComponentSleep s = Fault NullOwner.
Proof.
  intros Ho. unfold OnPhysicsComponentSleep.
  destruct (bCanEverTick (self s)) eqn:Ht; hrun_any.
Qed.

End ProximityFacts.

(** ** The theorems on the sample prop *)

Lemma CheckDistanceToPlayer_noop_witness :
  CheckDistanceToPlayer freshState = Done tt freshState.
Proof. apply (CheckDistanceToPlayer_noop freshState). by left. Defined.

Lemma CheckDistanceToPlayer_far_witness :
  exists s' mesh',
    CheckDistanceToPlayer (propAt 3001) = Done tt s' /\
    self s' = self (propAt 3001) /\
    meshes (world s') !! 1%positive = Some mesh' /\
    TickInterval mesh' = ofZ 1 /\
    bSimulatePhysics mesh' && bAwake mesh' = false /\
    issued (calls (world (propAt 3001))) (calls (world s'))
    = [CallPutAllRigidBodiesToSleep 1; CallSetComponentTickInterval 1 (ofZ 1)].
Proof.
  apply (CheckDistanceToPlayer_far (propAt 3001) 1
           (sampleMesh (vec 3001 0 0) (vec 0 0 0)) 2
           (sampleActor (vec 3001 0 0) (vec 0 0 0) false) (vec 0 0 0));
    reflexivity.
Defined.

Lemma CheckDistanceToPlayer_twice_witness :
  exists s1 s2,
    CheckDistanceToPlayer (propAt 3001) = Done tt s1 /\
    CheckDistanceToPlayer s1 = Done tt s2 /\
    issued (calls (world s1)) (calls (world s2))
    = [CallSetComponentTickInterval 1 (ofZ 1)].
Proof.
  apply (CheckDistanceToPlayer_twice (propAt 3001) 1
           (sampleMesh (vec 3001 0 0) (vec 0 0 0)) 2
           (sampleActor (vec 3001 0 0) (vec 0 0 0) false) (vec 0 0 0));
    reflexivity.
Defined.

Lemma CheckDistanceToPlayer_near_witness :
  exists s',
    CheckDistanceToPlayer (propAt 2999) = Done tt s' /\
    self s' = self (propAt 2999) /\
    meshes (world s') !! 1%positive
    = Some (set_TickInterval (ofZ 0) (sampleMesh (vec 2999 0 0) (vec 0 0 0))) /\
    issued (calls (world (propAt 2999))) (calls (world s'))
    = [CallSetComponentTickInterval 1 (ofZ 0)].
Proof.
  apply (CheckDistanceToPlayer_near (propAt 2999) 1
           (sampleMesh (vec 2999 0 0) (vec 0 0 0)) 2
           (sampleActor (vec 2999 0 0) (vec 0 0 0) false) (vec 0 0 0));
    reflexivity.
Defined.

Lemma CheckDistanceToPlayer_floor_witness :
  exists s',
    CheckDistanceToPlayer fallenState = Done tt s' /\
    self s' = self fallenState /\
    meshes (world s') = meshes (world fallenState) /\
    actors (world s') !! 2%positive
    = Some (set_bDestroyed true (sampleActor (vec 0 0 (-20001)) (vec 0 0 0) false)) /\
    issued (calls (world fallenState)) (calls (world s')) = [CallDestroy 2].
Proof.
  apply (CheckDistanceToPlayer_floor fallenState 1 2
           (sampleActor (vec 0 0 (-20001)) (vec 0 0 0) false));
    reflexivity.
Defined.

Lemma CheckDistanceToPlayer_no_controller_witness :
  CheckDistanceToPlayer noPlayerState = Done tt noPlayerState.
Proof.
  apply (CheckDistanceToPlayer_no_controller noPlayerState 1 2
           (sampleActor (vec 150 0 0) (vec 0 0 0) false));
    reflexivity.
Defined.

Lemma CheckDistanceToPlayer_keeps_self_witness :
  self (default restState (exec CheckDistanceToPlayer (propAt 3001)))
  = self (propAt 3001).
Proof.
  apply (CheckDistanceToPlayer_keeps_self (propAt 3001)). by vm_compute.
Defined.

Lemma OnPhysicsComponentSleep_state_witness :
  exists s' a',
    OnPhysicsComponentSleep restState = Done tt s' /\
    bTickEnabled (self s') = false /\
    actors (world s') !! 2%positive = Some a' /\
    bActorTickEnabled a' = false /\
    bReplicateMovement a' = false /\
    issued (calls (world restState)) (calls (world s'))
    = [CallSetComponentTickEnabled false; CallSetActorTickEnabled 2 false;
       CallSetReplicateMovement 2 false].
Proof.
  apply (OnPhysicsComponentSleep_state restState 2
           (sampleActor (vec 150 0 0) (vec 0 0 0) false));
    reflexivity.
Defined.

Lemma OnPhysicsComponentWake_state_witness :
  exists s' a',
    OnPhysicsComponentWake restState = Done tt s' /\
    bTickEnabled (self s') = true /\
    actors (world s') !! 2%positive = Some a' /\
    bActorTickEnabled a' = true /\
    bReplicateMovement a' = true /\
    issued (calls (world restState)) (calls (world s'))
    = [CallSetComponentTickEnabled true; CallSetActorTickEnabled 2 true;
       CallSetReplicateMovement 2 true].
Proof.
  apply (OnPhysicsComponentWake_state restState 2
           (sampleActor (vec 150 0 0) (vec 0 0 0) false));
    reflexivity.
Defined.

Lemma OnPhysicsComponentSleep_no_owner_witness :
  OnPhysicsComponentSleep (mkState (world restState) (newComp None true))
  = Fault NullOwner.
Proof. by apply (OnPhysicsComponentSleep_no_owner _). Defined.

(** The boundary of the cull test is strict: at exactly 3000 units the prop
    is near. *)
Example CheckDistanceToPlayer_boundary :
  (exec CheckDistanceToPlayer (propAt 3000) ≫= fun s => last (calls (world s)))
  = Some (CallSetComponentTickInterval 1 (ofZ 0)).
Proof. by vm_compute. Qed.


