(* ===== verification/Lifecycle.v ===== *)
(** * Lifecycle: Physicalize and BeginPlay

    [Physicalize] takes over a static mesh: it configures the body, binds
    the callbacks of the component to the delegates of the mesh and of the
    owner, and starts the timer of the distance check.  [BeginPlay] calls it
    on the first static mesh of the owner when none was given before. *)

From Stdlib Require Import ZArith Floats.SpecFloat.
From stdpp Require Import base tactics option list gmap.
From S2P Require Import Prelude Scalar Float32 Vec Engine ImpactData Component Samples.

Local Open Scope scalar_scope.
Local Open Scope handler_scope.

Section Handlers.
Context {F : Type} `{Scalar F}.

(** [GetTimerManager().SetTimer(TimerHandle_DistanceCheck, ..., Rate, bLoop)]:
    the handle is set; a rate that is not positive clears it instead. *)
Definition SetTimer (Rate : F) (bLoop : bool) : H F unit :=
  assign (set_TimerHandle (if Rate >? ofZ 0 then Some (mkTimer Rate bLoop) else None));;
  call (logCall (CallSetTimer Rate bLoop)).

(** The body block of [Physicalize]: with a body instance, the sleep family
    is written and the two dampings are set. *)
Definition configureBody (m : positive) : H F unit :=
  mesh ← call (getMesh m);
  when (hasBodyInstance mesh)
    (call (updMesh m (set_SleepFamily SleepSensitive));;
     call (SetLinearDamping m (dec 1 2));;
     call (SetAngularDamping m (dec 1 2))).

(** The timer block of [Physicalize]. *)
Definition startDistanceCheck : H F unit :=
  cull ← this (fun c => PhysicsCullDistance (cfg c));
  when (cull >? ofZ 0)
    (RandomVariability ← call (RandRange (ofZ 0) (dec 1 2));
     theWorld;;
     interval ← this (fun c => DistanceCheckInterval (cfg c));
     SetTimer (interval + RandomVariability) true).

(** The damage block of [Physicalize]. *)
Definition bindDamage : H F unit :=
  o ← GetOwner;
  match o with
  | Some Owner =>
      call (BindAnyDamage Owner CbAnyDamage);;
      call (BindPointDamage Owner CbPointDamage);;
      call (BindRadialDamage Owner CbRadialDamage)
  | None => skip
  end.

Definition Physicalize (TargetMesh : option positive) : H F unit :=
  match TargetMesh with
  | Some m =>
      assign (set_ManagedMesh (Some m));;
      call (SetSimulatePhysics m true);;
      call (SetNotifyRigidBodyCollision m true);;
      call (SetGenerateOverlapEvents m false);;
      me ← theOwner;
      call (SetActorTickEnabled me false);;
      call (BindSleep m CbSleep);;
      call (BindWake m CbWake);;
      call (BindHit m CbHit);;
      configureBody m;;
      startDistanceCheck;;
      bindDamage
  | None => skip
  end.

Definition BeginPlay : H F unit :=
  mm ← this ManagedMesh;
  match mm with
  | Some _ => skip
  | None =>
      me ← theOwner;
      a ← call (getActor me);
      match FirstStaticMesh a with
      | Some FoundMesh =>
          mesh ← call (getMesh FoundMesh);
          when (bSimulatePhysics mesh) (Physicalize (Some FoundMesh))
      | None => skip
      end
  end.

End Handlers.

(** The actor of the sample prop, with the mesh 1 as its first static mesh. *)
Definition propActor : Actor b32 :=
  {| bActorTickEnabled := true;
     ActorLocation := vec 150 0 0;
     ActorRotation := rot0;
     ActorVelocity := vec 0 0 0;
     bReplicateMovement := true;
     hasAuthority := true;
     isPawn := false;
     PawnMoveIgnore := ∅;
     bDestroyed := false;
     FirstStaticMesh := Some 1%positive;
     OnTakeAnyDamage := [];
     OnTakePointDamage := [];
     OnTakeRadialDamage := [] |}.

(** A mesh nobody has configured yet. *)
Definition rawMesh (sim : bool) : Mesh b32 :=
  {| bSimulatePhysics := sim;
     bNotifyRigidBodyCollision := false;
     bGenerateOverlapEvents := true;
     hasBodyInstance := true;
     bGenerateWakeEvents := true;
     SleepFamily := SleepNormal;
     LinearDamping := dec 1 100;
     AngularDamping := ofZ 0;
     bUseCCD := false;
     bAwake := true;
     ComponentVelocity := vec 0 0 0;
     ComponentLocation := vec 150 0 0;
     Mass := ofZ 10;
     TickInterval := ofZ 0;
     MoveIgnoreActors := ∅;
     OnComponentSleep := [];
     OnComponentWake := [];
     OnComponentHit := [] |}.

(** The sample prop when it is spawned: the component is fresh, its owner
    is the actor 2, whose first static mesh is the mesh 1. *)
Definition spawnState (sim : bool) : State b32 :=
  let w := sampleWorld 150 (vec 0 0 0) in
  mkState
    (set_actors (<[2%positive := propActor]> (actors w))
       (set_meshes (<[1%positive := rawMesh sim]> (meshes w)) w))
    (newComp (Some 2%positive) true).

(** The cases of a run of [Physicalize]: has the mesh a body instance, is
    the cull distance positive. *)
Ltac physicalize_cases s mesh :=
  let Hbody := fresh "Hbody" in let Hcull := fresh "Hcull" in
  destruct (hasBodyInstance mesh) eqn:Hbody,
    (PhysicsCullDistance (cfg (self s)) >? ofZ 0) eqn:Hcull.

Ltac physicalize_run :=
  unfold Physicalize, configureBody, startDistanceCheck, bindDamage, SetTimer; hrun.

Section LifecycleFacts.
Context {F : Type} `{Scalar F}.
Implicit Types s : State F.

(** [Physicalize] of a null mesh does nothing. *)
Theorem Physicalize_noop s : Physicalize None s = Done tt s.
Proof. reflexivity. Qed.

(** C20. [Physicalize] takes over the mesh: the component manages it, the
    body simulates and notifies collisions, overlap events are off, the
    three callbacks are bound to the delegates of the mesh and the three
    damage callbacks to those of the owner, the owner no longer ticks, and
    a mesh with a body instance falls asleep early and is damped by 0.5. *)
Theorem Physicalize_state s m mesh me a :
  meshes (world s) !! m = Some mesh ->
  compOwner (self s) = Some me ->
  actors (world s) !! me = Some a ->
  hasWorld (self s) = true ->
  exists s' mesh' a',
    Physicalize (Some m) s = Done tt s' /\
    ManagedMesh (self s') = Some m /\
    meshes (world s') !! m = Some mesh' /\
    actors (world s') !! me = Some a' /\
    (bSimulatePhysics mesh', bNotifyRigidBodyCollision mesh', bGenerateOverlapEvents mesh')
    = (true, true, false) /\
    (OnComponentSleep mesh', OnComponentWake mesh', OnComponentHit mesh')
    = (OnComponentSleep mesh ++ [CbSleep], OnComponentWake mesh ++ [CbWake],
       OnComponentHit mesh ++ [CbHit]) /\
    (SleepFamily mesh', LinearDamping mesh', AngularDamping mesh')
    = (if hasBodyInstance mesh then (SleepSensitive, dec 1 2, dec 1 2)
       else (SleepFamily mesh, LinearDamping mesh, AngularDamping mesh)) /\
    bActorTickEnabled a' = false /\
    (OnTakeAnyDamage a', OnTakePointDamage a', OnTakeRadialDamage a')
    = (OnTakeAnyDamage a ++ [CbAnyDamage], OnTakePointDamage a ++ [CbPointDamage],
       OnTakeRadialDamage a ++ [CbRadialDamage]).
Proof.
  intros Hmesh Ho Ha Hw. physicalize_cases s mesh.
  all: do 3 eexists; split; [physicalize_run|].
  all: state_simpl; rewrite ?lookup_insert_eq; split_and!; try done.
  all: state_simpl; by rewrite ?Hbody.
Qed.

(** The calls of [Physicalize], in order: the three settings of the
    body, the owner's tick, the three bindings of the mesh, the two dampings
    if there is a body instance, the timer if the cull distance is positive,
    and the three bindings of the owner. *)
Theorem Physicalize_calls s m mesh me a :
  meshes (world s) !! m = Some mesh ->
  compOwner (self s) = Some me ->
  actors (world s) !! me = Some a ->
  hasWorld (self s) = true ->
  let Rate := DistanceCheckInterval (cfg (self s))
              + (ofZ 0 + (dec 1 2 - ofZ 0) * randoms (world s) (randIdx (world s))) in
  exists s',
    Physicalize (Some m) s = Done tt s' /\
    issued (calls (world s)) (calls (world s'))
    = [CallSetSimulatePhysics m true; CallSetNotifyRigidBodyCollision m true;
       CallSetGenerateOverlapEvents m false; CallSetActorTickEnabled me false;
       CallAddDynamic CbSleep; CallAddDynamic CbWake; CallAddDynamic CbHit]
      ++ (if hasBodyInstance mesh
          then [CallSetLinearDamping m (dec 1 2); CallSetAngularDamping m (dec 1 2)]
          else [])
      ++ (if PhysicsCullDistance (cfg (self s)) >? ofZ 0
          then [CallSetTimer Rate true] else [])
      ++ [CallAddDynamic CbAnyDamage; CallAddDynamic CbPointDamage;
          CallAddDynamic CbRadialDamage].
Proof.
  intros Hmesh Ho Ha Hw Rate. subst Rate. physicalize_cases s mesh.
  all: eexists; split; [physicalize_run|].
  all: state_simpl; rewrite <- ?app_assoc, issued_app; by rewrite ?Hbody, ?Hcull.
Qed.

(** C21. The timer of the distance check is started only with a positive
    cull distance; its period is the check interval plus a jitter drawn from
    the random source, and it loops.  A period that is not positive leaves
    no timer. *)
Theorem Physicalize_timer s m mesh me a :
  meshes (world s) !! m = Some mesh ->
  compOwner (self s) = Some me ->
  actors (world s) !! me = Some a ->
  hasWorld (self s) = true ->
  let Rate := DistanceCheckInterval (cfg (self s))
              + (ofZ 0 + (dec 1 2 - ofZ 0) * randoms (world s) (randIdx (world s))) in
  exists s',
    Physicalize (Some m) s = Done tt s' /\
    TimerHandle_DistanceCheck (self s')
    = if PhysicsCullDistance (cfg (self s)) >? ofZ 0
      then (if Rate >? ofZ 0 then Some (mkTimer Rate true) else None)
      else TimerHandle_DistanceCheck (self s).
Proof.
  intros Hmesh Ho Ha Hw Rate. subst Rate. physicalize_cases s mesh.
  all: eexists; split; [physicalize_run|].
  all: state_simpl; by rewrite ?Hcull.
Qed.

(** C34. [Physicalize] calls through the owner before it tests it: without
    an owner it faults after the three settings of the body, although the
    damage block at its end guards against a null owner. *)
Theorem Physicalize_no_owner s m mesh :
  meshes (world s) !! m = Some mesh ->
  compOwner (self s) = None ->
  Physicalize (Some m) s = Fault NullOwner.
Proof. intros Hmesh Ho. unfold Physicalize. hrun_any. Qed.

(** C25. [Physicalize] is not idempotent: called twice on the same mesh it
    binds every callback twice, so each event of the body runs its handler
    twice. *)
Theorem Physicalize_twice_binds_twice s m mesh me a :
  meshes (world s) !! m = Some mesh ->
  compOwner (self s) = Some me ->
  actors (world s) !! me = Some a ->
  hasWorld (self s) = true ->
  exists s' mesh' a',
    (Physicalize (Some m);; Physicalize (Some m)) s = Done tt s' /\
    meshes (world s') !! m = Some mesh' /\
    actors (world s') !! me = Some a' /\
    OnComponentSleep mesh' = OnComponentSleep mesh ++ [CbSleep; CbSleep] /\
    OnComponentHit mesh' = OnComponentHit mesh ++ [CbHit; CbHit] /\
    OnTakeAnyDamage a' = OnTakeAnyDamage a ++ [CbAnyDamage; CbAnyDamage].
Proof.
  intros Hmesh Ho Ha Hw. physicalize_cases s mesh.
  all: do 3 eexists; split; [physicalize_run|].
  all: state_simpl; rewrite ?lookup_insert_eq; split_and!; try done.
  all: state_simpl; by rewrite <- app_assoc.
Qed.

End LifecycleFacts.

(** ** BeginPlay *)

Section BeginPlayFacts.
Context {F : Type} `{Scalar F}.
Implicit Types s : State F.

(** [BeginPlay] leaves a component that manages a mesh as it is. *)
Theorem BeginPlay_managed s m :
  ManagedMesh (self s) = Some m -> BeginPlay s = Done tt s.
Proof. intros Hm. unfold BeginPlay. by hstep. Qed.

(** [BeginPlay] of a component that manages no mesh is [Physicalize] of
    the first static mesh of the owner, if that mesh simulates physics. *)
Lemma BeginPlay_physicalizes s me a FoundMesh mesh :
  ManagedMesh (self s) = None ->
  compOwner (self s) = Some me ->
  actors (world s) !! me = Some a ->
  FirstStaticMesh a = Some FoundMesh ->
  meshes (world s) !! FoundMesh = Some mesh ->
  bSimulatePhysics mesh = true ->
  BeginPlay s = Physicalize (Some FoundMesh) s.
Proof.
  intros Hm Ho Ha Hfound Hmesh Hsim. unfold BeginPlay, when. do 4 hstep.
  destruct s as [w c]. reflexivity.
Qed.

(** Without a static mesh, or with one that does not simulate physics,
    [BeginPlay] does nothing. *)
Theorem BeginPlay_skips s me a :
  ManagedMesh (self s) = None ->
  compOwner (self s) = Some me ->
  actors (world s) !! me = Some a ->
  match FirstStaticMesh a with
  | Some FoundMesh =>
      exists mesh, meshes (world s) !! FoundMesh = Some mesh /\ bSimulatePhysics mesh = false
  | None => True
  end ->
  BeginPlay s = Done tt s.
Proof.
  intros Hm Ho Ha Hfound. unfold BeginPlay.
  destruct (FirstStaticMesh a) as [FoundMesh|] eqn:Hf;
    [destruct Hfound as (mesh & Hmesh & Hsim)|].
  all: etransitivity; [hrun|]; by destruct s as [[] ?].
Qed.

(** C31. [BeginPlay] takes over at most one mesh, and only when nothing
    was physicalized by hand.  With an owner and a world it runs to its
    end; a component that manages a mesh is left as it is; one that does
    not takes over the first static mesh of the owner if that mesh
    simulates physics (the component then manages it and the sleep and
    wake callbacks are bound to it), and is left as it is when the owner
    has no static mesh or the mesh does not simulate. *)
Theorem BeginPlay_finds s me a :
  compOwner (self s) = Some me ->
  actors (world s) !! me = Some a ->
  hasWorld (self s) = true ->
  (forall fm, FirstStaticMesh a = Some fm -> is_Some (meshes (world s) !! fm)) ->
  exists s',
    BeginPlay s = Done tt s' /\
    (is_Some (ManagedMesh (self s)) -> s' = s) /\
    (ManagedMesh (self s) = None ->
     match FirstStaticMesh a with
     | Some fm =>
         forall mesh, meshes (world s) !! fm = Some mesh ->
           if bSimulatePhysics mesh
           then BeginPlay s = Physicalize (Some fm) s /\
                ManagedMesh (self s') = Some fm /\
                exists mesh', meshes (world s') !! fm = Some mesh' /\
                  OnComponentSleep mesh' = OnComponentSleep mesh ++ [CbSleep] /\
                  OnComponentWake mesh' = OnComponentWake mesh ++ [CbWake]
           else s' = s
     | None => s' = s
     end).
Proof.
  intros Ho Ha Hw Hfound.
  destruct (ManagedMesh (self s)) as [m|] eqn:Hm.
  { exists s. split; [by eapply BeginPlay_managed|]. by split. }
  destruct (FirstStaticMesh a) as [fm|] eqn:Hfm.
  2: { exists s. split; [eapply BeginPlay_skips; eauto; by rewrite Hfm|].
       split; [by intros []|done]. }
  destruct (Hfound fm eq_refl) as [mesh Hmesh].
  destruct (bSimulatePhysics mesh) eqn:Hsim.
  2: { exists s. split; [eapply BeginPlay_skips; eauto; rewrite Hfm; eauto|].
       split; [by intros []|]. intros _ mesh0 Hmesh0. by simplify_eq; rewrite Hsim. }
  pose proof (BeginPlay_physicalizes s me a fm mesh Hm Ho Ha Hfm Hmesh Hsim) as Heq.
  rewrite Heq. physicalize_cases s mesh.
  all: eexists; split; [physicalize_run|].
  all: split; [by intros []|]; intros _ mesh0 Hmesh0; simplify_eq; rewrite Hsim.
  all: split; [done|]; state_simpl; rewrite ?lookup_insert_eq.
  all: split; [done|]; by eexists.
Qed.

End BeginPlayFacts.

(** ** The theorems on the sample prop *)

Lemma Physicalize_state_witness :
  exists s' mesh' a',
    Physicalize (Some 1%positive) (spawnState false) = Done tt s' /\
    ManagedMesh (self s') = Some 1%positive /\
    meshes (world s') !! 1%positive = Some mesh' /\
    actors (world s') !! 2%positive = Some a' /\
    (bSimulatePhysics mesh', bNotifyRigidBodyCollision mesh', bGenerateOverlapEvents mesh')
    = (true, true, false) /\
    (OnComponentSleep mesh', OnComponentWake mesh', OnComponentHit mesh')
    = ([CbSleep], [CbWake], [CbHit]) /\
    (SleepFamily mesh', LinearDamping mesh', AngularDamping mesh')
    = (SleepSensitive, dec 1 2, dec 1 2) /\
    bActorTickEnabled a' = false /\
    (OnTakeAnyDamage a', OnTakePointDamage a', OnTakeRadialDamage a')
    = ([CbAnyDamage], [CbPointDamage], [CbRadialDamage]).
Proof.
  apply (Physicalize_state (spawnState false) 1 (rawMesh false) 2 propActor);
    reflexivity.
Defined.

Lemma Physicalize_calls_witness :
  exists s',
    Physicalize (Some 1%positive) (spawnState true) = Done tt s' /\
    issued (calls (world (spawnState true))) (calls (world s'))
    = [CallSetSimulatePhysics 1 true; CallSetNotifyRigidBodyCollision 1 true;
       CallSetGenerateOverlapEvents 1 false; CallSetActorTickEnabled 2 false;
       CallAddDynamic CbSleep; CallAddDynamic CbWake; CallAddDynamic CbHit;
       CallSetLinearDamping 1 (dec 1 2); CallSetAngularDamping 1 (dec 1 2);
       CallSetTimer (dec 5 4) true;
       CallAddDynamic CbAnyDamage; CallAddDynamic CbPointDamage;
       CallAddDynamic CbRadialDamage].
Proof.
  by_instance (Physicalize_calls (spawnState true) 1 (rawMesh true) 2 propActor
                 eq_refl eq_refl eq_refl eq_refl).
Defined.

Lemma Physicalize_timer_witness :
  exists s',
    Physicalize (Some 1%positive) (spawnState true) = Done tt s' /\
    TimerHandle_DistanceCheck (self s') = Some (mkTimer (dec 5 4) true).
Proof.
  by_instance (Physicalize_timer (spawnState true) 1 (rawMesh true) 2 propActor
                 eq_refl eq_refl eq_refl eq_refl).
Defined.

Lemma Physicalize_no_owner_witness :
  Physicalize (Some 1%positive) (mkState (world (spawnState true)) (newComp None true))
  = Fault NullOwner.
Proof.
  by apply (Physicalize_no_owner
              (mkState (world (spawnState true)) (newComp None true)) 1 (rawMesh true)).
Defined.

Lemma Physicalize_twice_binds_twice_witness :
  exists s' mesh' a',
    (Physicalize (Some 1%positive);; Physicalize (Some 1%positive)) (spawnState true)
    = Done tt s' /\
    meshes (world s') !! 1%positive = Some mesh' /\
    actors (world s') !! 2%positive = Some a' /\
    OnComponentSleep mesh' = [CbSleep; CbSleep] /\
    OnComponentHit mesh' = [CbHit; CbHit] /\
    OnTakeAnyDamage a' = [CbAnyDamage; CbAnyDamage].
Proof.
  apply (Physicalize_twice_binds_twice (spawnState true) 1 (rawMesh true) 2 propActor);
    reflexivity.
Defined.

Lemma BeginPlay_managed_witness : BeginPlay restState = Done tt restState.
Proof. by apply (BeginPlay_managed restState 1). Defined.

Lemma BeginPlay_physicalizes_witness :
  BeginPlay (spawnState true) = Physicalize (Some 1%positive) (spawnState true).
Proof.
  apply (BeginPlay_physicalizes (spawnState true) 2 propActor 1 (rawMesh true)); reflexivity.
Defined.

Lemma BeginPlay_finds_witness :
  exists s',
    BeginPlay (spawnState true) = Done tt s' /\
    ManagedMesh (self s') = Some 1%positive /\
    exists mesh', meshes (world s') !! 1%positive = Some mesh' /\
      OnComponentSleep mesh' = [CbSleep] /\ OnComponentWake mesh' = [CbWake].
Proof.
  destruct (BeginPlay_finds (spawnState true) 2 propActor) as (s' & Hrun & _ & Hfound);
    [reflexivity | reflexivity | reflexivity | intros fm [= <-]; by eexists |].
  destruct (Hfound eq_refl (rawMesh true) eq_refl) as (_ & Hm & Hb).
  exists s'. by split_and!.
Defined.

Lemma BeginPlay_skips_witness : BeginPlay (spawnState false) = Done tt (spawnState false).
Proof.
  apply (BeginPlay_skips (spawnState false) 2 propActor); try reflexivity.
  by exists (rawMesh false).
Defined.

(** With a cull distance of 0 no timer is started. *)
Example Physicalize_no_timer :
  (exec (Physicalize (Some 1%positive))
     (withConfig (ofZ 0) (ofZ 1) (ofZ 500) (spawnState true))
     ≫= fun s => Some (TimerHandle_DistanceCheck (self s),
                       count (fun c => match c with CallSetTimer _ _ => true | _ => false end)
                         (calls (world s))))
  = Some (None, 0).
Proof. by vm_compute. Qed.
