(* ===== verification/Damage.v ===== *)
(** * Damage: from damage events to impulses

    [OnTakeAnyDamage], [OnTakePointDamage] and [OnTakeRadialDamage] of
    PhysicsPropComponent.cpp, with the damage type of
    PhysicsPropDamageType.h.  The three casts of the [UDamageType] pointer
    are the three constructors of [DamageType]; the class
    [UGenericDamageType] is declared outside the sources and is modelled by
    the one field the handlers read. *)

From Stdlib Require Import ZArith Floats.SpecFloat.
From stdpp Require Import base tactics option list gmap.
From S2P Require Import Prelude Scalar Float32 Vec Engine ImpactData Component Samples Grab.

Local Open Scope scalar_scope.
Local Open Scope handler_scope.

Section Handlers.
Context {F : Type} `{Scalar F}.

(** PhysicsPropDamageType.h. *)
Record UPhysicsPropDamageType : Type := mkPropDamage {
  ImpulsePower : F;
  bForceWake : bool
}.

(** Its default member initialisers. *)
Definition defaultPropDamage : UPhysicsPropDamageType :=
  mkPropDamage (ofZ 1000) true.

(** GenericDamageType.h, which the sources include and do not contain. *)
Record UGenericDamageType : Type := mkGenericDamage {
  ImpulseModifier : F
}.

(** What the two casts of a [const UDamageType*] can find: an object of the
    plugin's class, an object of the generic class, or neither (a null
    pointer included). *)
Inductive DamageType : Type :=
| PlainDamage
| PropDamage (JamDmg : UPhysicsPropDamageType)
| GenericDamage (GenDmg : UGenericDamageType).

(** The resolution block of [OnTakeAnyDamage] and [OnTakePointDamage]:
    the force multiplier and whether to wake the body. *)
Definition resolveDamageType (dt : DamageType) : F * bool :=
  match dt with
  | PropDamage JamDmg => (ImpulsePower JamDmg, bForceWake JamDmg)
  | GenericDamage GenDmg => (ofZ 500 * ImpulseModifier GenDmg, true)
  | PlainDamage => (ofZ 500, true)
  end.

(** The resolution block of [OnTakeRadialDamage]. *)
Definition resolveRadialDamageType (dt : DamageType) : F * bool :=
  match dt with
  | PropDamage JamDmg => (ImpulsePower JamDmg * ofZ 4, bForceWake JamDmg)
  | GenericDamage GenDmg => (ofZ 2000 * ImpulseModifier GenDmg, true)
  | PlainDamage => (ofZ 2000, true)
  end.

(** The direction block of [OnTakeAnyDamage].  [InstigatedBy] is the aim of
    the instigating controller, [GetControlRotation().Vector()], when there
    is one. *)
Definition impulseDirection (m : positive) (InstigatedBy : option (FVector F))
    (DamageCauser : option positive) : H F (FVector F) :=
  match InstigatedBy, DamageCauser with
  | Some aim, _ => mret aim
  | None, Some causer =>
      mesh ← call (getMesh m);
      a ← call (getActor causer);
      mret (GetSafeNormal (vsub (ComponentLocation mesh) (ActorLocation a)))
  | None, None => mret UpVector
  end.

Definition OnTakeAnyDamage (Damage : F) (dt : DamageType)
    (InstigatedBy : option (FVector F)) (DamageCauser : option positive) : H F unit :=
  mm ← this ManagedMesh;
  match mm with
  | Some m =>
      mesh ← call (getMesh m);
      if negb (bSimulatePhysics mesh) then skip
      else
        call (SetComponentTickInterval m (ofZ 0));;
        let ForceMultiplier := fst (resolveDamageType dt) in
        let bShouldWake := snd (resolveDamageType dt) in
        when bShouldWake (call (WakeAllRigidBodies m));;
        ImpulseDir ← impulseDirection m InstigatedBy DamageCauser;
        let Impulse := vscale ImpulseDir (Damage * ForceMultiplier) in
        call (AddImpulse m Impulse true)
  | None => skip
  end.

Definition OnTakePointDamage (Damage : F) (HitLocation ShotFromDirection : FVector F)
    (dt : DamageType) : H F unit :=
  mm ← this ManagedMesh;
  match mm with
  | Some m =>
      mesh ← call (getMesh m);
      if negb (bSimulatePhysics mesh) then skip
      else
        let ForceMultiplier := fst (resolveDamageType dt) in
        let bShouldWake := snd (resolveDamageType dt) in
        when bShouldWake (call (WakeAllRigidBodies m));;
        let Impulse := vscale ShotFromDirection (Damage * ForceMultiplier) in
        call (AddImpulseAtLocation m Impulse HitLocation)
  | None => skip
  end.

Definition OnTakeRadialDamage (Damage : F) (dt : DamageType) (Origin : FVector F) : H F unit :=
  mm ← this ManagedMesh;
  match mm with
  | Some m =>
      mesh ← call (getMesh m);
      if negb (bSimulatePhysics mesh) then skip
      else
        let ForceMultiplier := fst (resolveRadialDamageType dt) in
        let bShouldWake := snd (resolveRadialDamageType dt) in
        when bShouldWake (call (WakeAllRigidBodies m));;
        let ImpulseStrength := Damage * ForceMultiplier in
        call (AddRadialImpulse m Origin (ofZ 500) ImpulseStrength RIF_Linear true)
  | None => skip
  end.

(** The direction of the impulse of [OnTakeAnyDamage], from the location of
    the mesh, the aim of the instigator and the location of the causer. *)
Definition directionOf (meshLoc : FVector F) (InstigatedBy causerLoc : option (FVector F))
    : FVector F :=
  match InstigatedBy, causerLoc with
  | Some aim, _ => aim
  | None, Some loc => GetSafeNormal (vsub meshLoc loc)
  | None, None => UpVector
  end.

(** The wake call of a handler, if the damage type asks for one. *)
Definition wakeCalls (m : positive) (bShouldWake : bool) : list (Call F) :=
  if bShouldWake then [CallWakeAllRigidBodies m] else [].

End Handlers.

Arguments UPhysicsPropDamageType F : clear implicits.
Arguments UGenericDamageType F : clear implicits.
Arguments DamageType F : clear implicits.

(** The sample prop asleep. *)
Definition asleepState : State b32 :=
  set_world (set_meshes (<[1%positive := set_bAwake false
                             (sampleMesh (vec 150 0 0) (vec 0 0 0))]>
                           (meshes (world restState))) (world restState)) restState.

Section DamageFacts.
Context {F : Type} `{Scalar F}.
Implicit Types (s : State F) (dt : DamageType F).

(** C17. Point damage on a simulating body: the body is woken if the damage
    type says so, and [AddImpulseAtLocation] is called once, at the hit
    location, with the shot direction scaled by damage times multiplier.  No
    other call is made, and the component is unchanged. *)
Theorem OnTakePointDamage_impulse s m mesh Damage HitLocation ShotFromDirection dt :
  ManagedMesh (self s) = Some m ->
  meshes (world s) !! m = Some mesh ->
  bSimulatePhysics mesh = true ->
  exists s' mesh',
    OnTakePointDamage Damage HitLocation ShotFromDirection dt s = Done tt s' /\
    self s' = self s /\
    meshes (world s') !! m = Some mesh' /\
    bAwake mesh' = (snd (resolveDamageType dt) || bAwake mesh) /\
    issued (calls (world s)) (calls (world s'))
    = wakeCalls m (snd (resolveDamageType dt))
      ++ [CallAddImpulseAtLocation m
            (vscale ShotFromDirection (Damage * fst (resolveDamageType dt)))
            HitLocation].
Proof.
  intros Hm Hmesh Hsim. destruct (snd (resolveDamageType dt)) eqn:Hwake.
  all: do 2 eexists; split; [unfold OnTakePointDamage; hrun|].
  all: state_simpl; by rewrite ?lookup_insert_eq, <- ?app_assoc, issued_app.
Qed.

(** C18. Radial damage on a simulating body: one [AddRadialImpulse] from the
    origin, of radius 500, linear falloff, as a velocity change, of strength
    damage times multiplier. *)
Theorem OnTakeRadialDamage_impulse s m mesh Damage dt Origin :
  ManagedMesh (self s) = Some m ->
  meshes (world s) !! m = Some mesh ->
  bSimulatePhysics mesh = true ->
  exists s' mesh',
    OnTakeRadialDamage Damage dt Origin s = Done tt s' /\
    self s' = self s /\
    meshes (world s') !! m = Some mesh' /\
    bAwake mesh' = (snd (resolveRadialDamageType dt) || bAwake mesh) /\
    issued (calls (world s)) (calls (world s'))
    = wakeCalls m (snd (resolveRadialDamageType dt))
      ++ [CallAddRadialImpulse m Origin (ofZ 500)
            (Damage * fst (resolveRadialDamageType dt)) RIF_Linear true].
Proof.
  intros Hm Hmesh Hsim. destruct (snd (resolveRadialDamageType dt)) eqn:Hwake.
  all: do 2 eexists; split; [unfold OnTakeRadialDamage; hrun|].
  all: state_simpl; by rewrite ?lookup_insert_eq, <- ?app_assoc, issued_app.
Qed.

(** The run of [OnTakeAnyDamage] on a simulating body: the tick interval
    of the mesh is reset to 0, [WakeAllRigidBodies] is called if the
    damage type asks for it, and [AddImpulse] is called once, with
    [bVelChange] set, along the aim of the instigator, else away from the
    causer, else upwards. *)
Theorem OnTakeAnyDamage_impulse s m mesh Damage dt InstigatedBy DamageCauser causerLoc :
  ManagedMesh (self s) = Some m ->
  meshes (world s) !! m = Some mesh ->
  bSimulatePhysics mesh = true ->
  causerLoc = ActorLocation <$> (DamageCauser ≫= (actors (world s) !!.)) ->
  (InstigatedBy = None -> owner_ok (world s) DamageCauser) ->
  exists s' mesh',
    OnTakeAnyDamage Damage dt InstigatedBy DamageCauser s = Done tt s' /\
    self s' = self s /\
    meshes (world s') !! m = Some mesh' /\
    TickInterval mesh' = ofZ 0 /\
    bAwake mesh' = (snd (resolveDamageType dt) || bAwake mesh) /\
    issued (calls (world s)) (calls (world s'))
    = [CallSetComponentTickInterval m (ofZ 0)]
      ++ wakeCalls m (snd (resolveDamageType dt))
      ++ [CallAddImpulse m
            (vscale (directionOf (ComponentLocation mesh) InstigatedBy causerLoc)
               (Damage * fst (resolveDamageType dt)))
            true].
Proof.
  intros Hm Hmesh Hsim -> Hcauser.
  destruct (snd (resolveDamageType dt)) eqn:Hwake,
    InstigatedBy as [aim|], DamageCauser as [c|]; simpl in *.
  all: try match type of Hcauser with
           | _ -> is_Some _ => destruct (Hcauser eq_refl) as [a Ha]; rewrite ?Ha
           end.
  all: do 2 eexists; split; [unfold OnTakeAnyDamage, impulseDirection; hrun|].
  all: state_simpl; by rewrite ?lookup_insert_eq, <- ?app_assoc, issued_app.
Qed.


(** C33. The three handlers do nothing when no mesh is managed or when the
    body does not simulate physics; a held prop, whose simulation [Grab]
    switched off, therefore ignores damage. *)
Theorem damage_ignored s Damage dt aim causer loc dir :
  match ManagedMesh (self s) with
  | Some m => exists mesh, meshes (world s) !! m = Some mesh /\ bSimulatePhysics mesh = false
  | None => True
  end ->
  OnTakeAnyDamage Damage dt aim causer s = Done tt s /\
  OnTakePointDamage Damage loc dir dt s = Done tt s /\
  OnTakeRadialDamage Damage dt loc s = Done tt s.
Proof.
  intros Hoff. unfold OnTakeAnyDamage, OnTakePointDamage, OnTakeRadialDamage.
  destruct (ManagedMesh (self s)) as [m|] eqn:Hm;
    [destruct Hoff as (mesh & Hmesh & Hsim)|].
  all: split_and!; (etransitivity; [hrun|]); by destruct s as [[] ?].
Qed.

End DamageFacts.

(** ** The theorems on the sample prop *)

Lemma OnTakePointDamage_impulse_witness :
  exists s' mesh',
    OnTakePointDamage (ofZ 10) (vec 150 0 5) (vec 1 0 0)
      (PropDamage (mkPropDamage (ofZ 100) false)) asleepState = Done tt s' /\
    self s' = self asleepState /\
    meshes (world s') !! 1%positive = Some mesh' /\
    bAwake mesh' = false /\
    issued (calls (world asleepState)) (calls (world s'))
    = [CallAddImpulseAtLocation 1 (vec 1000 0 0) (vec 150 0 5)].
Proof.
  by_instance (OnTakePointDamage_impulse asleepState 1
                 (set_bAwake false (sampleMesh (vec 150 0 0) (vec 0 0 0)))
                 (ofZ 10) (vec 150 0 5) (vec 1 0 0)
                 (PropDamage (mkPropDamage (ofZ 100) false))
                 eq_refl eq_refl eq_refl).
Defined.

Lemma OnTakeRadialDamage_impulse_witness :
  exists s' mesh',
    OnTakeRadialDamage (ofZ 5) PlainDamage (vec 0 0 0) asleepState = Done tt s' /\
    self s' = self asleepState /\
    meshes (world s') !! 1%positive = Some mesh' /\
    bAwake mesh' = true /\
    issued (calls (world asleepState)) (calls (world s'))
    = [CallWakeAllRigidBodies 1;
       CallAddRadialImpulse 1 (vec 0 0 0) (ofZ 500) (ofZ 10000) RIF_Linear true].
Proof.
  by_instance (OnTakeRadialDamage_impulse asleepState 1
                 (set_bAwake false (sampleMesh (vec 150 0 0) (vec 0 0 0)))
                 (ofZ 5) PlainDamage (vec 0 0 0) eq_refl eq_refl eq_refl).
Defined.

Lemma OnTakeAnyDamage_impulse_witness :
  exists s' mesh',
    OnTakeAnyDamage (ofZ 2) PlainDamage None (Some 4%positive) restState = Done tt s' /\
    self s' = self restState /\
    meshes (world s') !! 1%positive = Some mesh' /\
    TickInterval mesh' = ofZ 0 /\
    bAwake mesh' = true /\
    issued (calls (world restState)) (calls (world s'))
    = [CallSetComponentTickInterval 1 (ofZ 0); CallWakeAllRigidBodies 1;
       CallAddImpulse 1 (vec 1000 0 0) true].
Proof.
  by_instance (OnTakeAnyDamage_impulse restState 1
                 (sampleMesh (vec 150 0 0) (vec 0 0 0)) (ofZ 2) PlainDamage
                 None (Some 4%positive) (Some (vec 0 0 0))
                 eq_refl eq_refl eq_refl eq_refl
                 (fun _ => ex_intro _ (sampleActor (vec 0 0 0) (vec 300 0 0) true) eq_refl)).
Defined.


Lemma damage_ignored_witness :
  OnTakeAnyDamage (ofZ 2) PlainDamage None None freshState = Done tt freshState /\
  OnTakePointDamage (ofZ 2) (vec 0 0 0) (vec 1 0 0) PlainDamage freshState
  = Done tt freshState /\
  OnTakeRadialDamage (ofZ 2) PlainDamage (vec 0 0 0) freshState = Done tt freshState.
Proof. by apply (damage_ignored freshState). Defined.

(** Without a damage type the radial multiplier is four times the one of
    point damage, and the damage type of the plugin has power 1000 and
    wakes. *)
Example multipliers_b32 :
  fst (resolveRadialDamageType (PlainDamage : DamageType b32))
  = ofZ 4 * fst (resolveDamageType (PlainDamage : DamageType b32)) /\
  resolveDamageType (PropDamage defaultPropDamage) = (ofZ 1000 : b32, true) /\
  resolveRadialDamageType (PropDamage defaultPropDamage) = (ofZ 4000 : b32, true) /\
  resolveDamageType (GenericDamage (mkGenericDamage (dec 3 2))) = (ofZ 750 : b32, true).
Proof. by vm_compute. Qed.

(** A held prop ignores damage: [Grab] switched its simulation off. *)
Example damage_while_held :
  exec (OnTakeRadialDamage (ofZ 5) PlainDamage (vec 0 0 0)) heldState = Some heldState.
Proof. by vm_compute. Qed.
