(* ===== verification/Audio.v ===== *)
(** * Audio: the impact sound trigger

    [OnComponentHit] of PhysicsPropComponent.cpp: the cooldown gate, the
    intensity of the hit, the threshold gate, the lookup of the sound entry
    in the table of PropPhysicsImpactData.h, and the sound that is played. *)

From Stdlib Require Import ZArith Floats.SpecFloat.
From stdpp Require Import base tactics option list gmap.
From S2P Require Import Prelude Scalar Float32 Vec Engine ImpactData Component Samples.

Local Open Scope scalar_scope.
Local Open Scope handler_scope.

Section Handlers.
Context {F : Type} `{Scalar F}.

(** Step 2: the size of the normal impulse, divided by the mass of the
    managed body when there is one and its mass is positive. *)
Definition impactIntensity (NormalImpulse : FVector F) (mass : option F) : F :=
  let ImpactIntensity := Size NormalImpulse in
  match mass with
  | Some Mass => if Mass >? ofZ 0 then ImpactIntensity / Mass else ImpactIntensity
  | None => ImpactIntensity
  end.

(** Steps 3 and 4: the entry of the material of the hit, or the default
    entry. *)
Definition findSoundEntry (table : UPropPhysicsImpactData F) (HitPhysMat : option positive)
    : FImpactSoundEntry F :=
  default (DefaultSound table) (ImpactMap table !! HitPhysMat).

(** Step 5: the intensity mapped from [Min, 5 Min] to [0.2, 1], times the
    multiplier of the entry. *)
Definition impactVolume (MinImpactThreshold ImpactIntensity VolumeMultiplier : F) : F :=
  GetMappedRangeValueClamped MinImpactThreshold (MinImpactThreshold * ofZ 5)
    (dec 2 10) (ofZ 1) ImpactIntensity * VolumeMultiplier.

Definition OnComponentHit (NormalImpulse : FVector F) (Hit : HitResult F) : H F unit :=
  table ← this (fun c => ImpactTable (cfg c));
  w ← GetWorld;
  match table with
  | Some ImpactTable =>
      if negb w then skip
      else
        theWorld;;
        CurrentTime ← call (gets TimeSeconds);
        last ← this LastImpactTime;
        cooldown ← this (fun c => ImpactCooldown (cfg c));
        if CurrentTime - last <? cooldown then skip
        else
          mm ← this ManagedMesh;
          mass ← match mm with
                 | Some m => mesh ← call (getMesh m); mret (Some (Mass mesh))
                 | None => mret None
                 end;
          let ImpactIntensity := impactIntensity NormalImpulse mass in
          threshold ← this (fun c => MinImpactThreshold (cfg c));
          if ImpactIntensity <? threshold then skip
          else
            let SoundEntry := findSoundEntry ImpactTable (PhysMaterial Hit) in
            match ImpactSound SoundEntry with
            | Some sound =>
                let Volume :=
                  impactVolume threshold ImpactIntensity (VolumeMultiplier SoundEntry) in
                Pitch ← call (RandRange (dec 85 100) (dec 11 10));
                call (PlaySoundAtLocation sound (ImpactPoint Hit) Volume Pitch);;
                assign (set_LastImpactTime CurrentTime)
            | None => skip
            end
  | None => skip
  end.

(** Does the cooldown gate let a hit at time [now] pass? *)
Definition cooledDown (now last cooldown : F) : bool := negb (now - last <? cooldown).

End Handlers.

(** ** Samples *)

(** A table: the sound 9 at half volume on the material 7, the sound 8 by
    default. *)
Definition sampleTable : UPropPhysicsImpactData b32 :=
  mkImpactData {[ Some 7%positive := mkEntry (Some 9%positive) (dec 1 2) ]}
    (mkEntry (Some 8%positive) (ofZ 1)).

(** The sample prop with the table, and the threshold set to 100. *)
Definition audioState : State b32 :=
  set_self (set_cfg (mkConfig (ofZ 3000) (ofZ 1) (ofZ 500) (Some sampleTable)
                       (ofZ 100) (dec 1 10)) (self restState)) restState.

(** A hit on the material [mat] at the origin. *)
Definition hitOn (mat : option positive) : HitResult b32 :=
  mkHit (vec 0 0 0) (vec 0 0 1) (vec 0 0 0) mat.

(** The same state with the clock of the world at [t]. *)
Definition atTime (t : b32) (s : State b32) : State b32 :=
  let w := world s in
  mkState
    (mkWorld (meshes w) (actors w) (scenes w) t (DeltaSeconds w) (playerView w)
       (sweepOracle w) (moveOracle w) (rinterp w) (randoms w) (randIdx w) (calls w))
    (self s).

(** How many sounds a log has. *)
Definition sounds (l : list (Call b32)) : nat :=
  count (fun c => match c with CallPlaySoundAtLocation _ _ _ _ => true | _ => false end) l.

Section AudioFacts.
Context {F : Type} `{Scalar F}.
Implicit Types s : State F.

(** Without a sound table, or without a world, a hit does nothing. *)
Theorem OnComponentHit_noop s NormalImpulse Hit :
  ImpactTable (cfg (self s)) = None \/ hasWorld (self s) = false ->
  OnComponentHit NormalImpulse Hit s = Done tt s.
Proof.
  intros Hnull. unfold OnComponentHit, GetWorld. do 2 hstep.
  destruct (ImpactTable (cfg (self s))), (hasWorld (self s)), Hnull; by simplify_eq.
Qed.

(** C40. The cooldown gate.  A hit for which the world time minus
    [LastImpactTime] is below [ImpactCooldown] is discarded: nothing is
    played and nothing is recorded.  [LastImpactTime] starts at 0, so
    this also discards a first hit in the first [ImpactCooldown] seconds
    of the world, although no impact preceded it. *)
Theorem OnComponentHit_cooldown s table NormalImpulse Hit :
  ImpactTable (cfg (self s)) = Some table ->
  hasWorld (self s) = true ->
  cooledDown (TimeSeconds (world s)) (LastImpactTime (self s))
    (ImpactCooldown (cfg (self s))) = false ->
  OnComponentHit NormalImpulse Hit s = Done tt s.
Proof.
  intros Htable Hw Hcool. apply negb_false_iff in Hcool.
  unfold OnComponentHit, GetWorld. etransitivity; [hrun|]. by destruct s as [[] ?].
Qed.

(** A hit whose intensity is below [MinImpactThreshold] is discarded. *)
Theorem OnComponentHit_quiet s table m mesh NormalImpulse Hit :
  ImpactTable (cfg (self s)) = Some table ->
  hasWorld (self s) = true ->
  cooledDown (TimeSeconds (world s)) (LastImpactTime (self s))
    (ImpactCooldown (cfg (self s))) = true ->
  ManagedMesh (self s) = Some m ->
  meshes (world s) !! m = Some mesh ->
  impactIntensity NormalImpulse (Some (Mass mesh)) < MinImpactThreshold (cfg (self s)) ->
  OnComponentHit NormalImpulse Hit s = Done tt s.
Proof.
  intros Htable Hw Hcool Hm Hmesh Hquiet. apply negb_true_iff in Hcool.
  unfold OnComponentHit, GetWorld. etransitivity; [hrun|]. by destruct s as [[] ?].
Qed.

(** C16. A hit that passes both gates, on a surface whose entry has a sound:
    the sound of the entry is played once at the impact point, with the
    volume mapped from the intensity and a pitch drawn between 0.85 and 1.1
    from the random source, and the time of the hit is recorded. *)
Theorem OnComponentHit_plays s table m mesh NormalImpulse Hit sound :
  ImpactTable (cfg (self s)) = Some table ->
  hasWorld (self s) = true ->
  cooledDown (TimeSeconds (world s)) (LastImpactTime (self s))
    (ImpactCooldown (cfg (self s))) = true ->
  ManagedMesh (self s) = Some m ->
  meshes (world s) !! m = Some mesh ->
  let Intensity := impactIntensity NormalImpulse (Some (Mass mesh)) in
  (Intensity <? MinImpactThreshold (cfg (self s))) = false ->
  let Entry := findSoundEntry table (PhysMaterial Hit) in
  ImpactSound Entry = Some sound ->
  let Volume := impactVolume (MinImpactThreshold (cfg (self s))) Intensity
                  (VolumeMultiplier Entry) in
  let Pitch := dec 85 100 + (dec 11 10 - dec 85 100) * randoms (world s) (randIdx (world s)) in
  exists s',
    OnComponentHit NormalImpulse Hit s = Done tt s' /\
    LastImpactTime (self s') = TimeSeconds (world s) /\
    randIdx (world s') = S (randIdx (world s)) /\
    meshes (world s') = meshes (world s) /\
    issued (calls (world s)) (calls (world s'))
    = [CallPlaySoundAtLocation sound (ImpactPoint Hit) Volume Pitch].
Proof.
  intros Htable Hw Hcool Hm Hmesh Intensity Hloud Entry Hsound Volume Pitch.
  apply negb_true_iff in Hcool. subst Intensity Entry Volume Pitch.
  eexists; split; [unfold OnComponentHit, GetWorld; hrun|].
  state_simpl. by rewrite issued_app.
Qed.

(** A hit on a surface whose entry has no sound does nothing, and the
    time of the hit is not recorded. *)
Theorem OnComponentHit_silent_entry s table m mesh NormalImpulse Hit :
  ImpactTable (cfg (self s)) = Some table ->
  hasWorld (self s) = true ->
  ManagedMesh (self s) = Some m ->
  meshes (world s) !! m = Some mesh ->
  ImpactSound (findSoundEntry table (PhysMaterial Hit)) = None ->
  OnComponentHit NormalImpulse Hit s = Done tt s.
Proof.
  intros Htable Hw Hm Hmesh Hsilent.
  unfold OnComponentHit, GetWorld.
  destruct (TimeSeconds (world s) - LastImpactTime (self s)
            <? ImpactCooldown (cfg (self s))) eqn:Hcool,
    (impactIntensity NormalImpulse (Some (Mass mesh))
     <? MinImpactThreshold (cfg (self s))) eqn:Hquiet.
  all: etransitivity; [hrun|]; by destruct s as [[] ?].
Qed.

End AudioFacts.

Section AudioOrder.
Context {F : Type} `{ScalarOrder F}.

(** The threshold is inclusive: an intensity equal to the threshold is
    not below it. *)
Theorem threshold_inclusive (NormalImpulse : FVector F) (mass : option F) threshold :
  impactIntensity NormalImpulse mass = threshold ->
  (impactIntensity NormalImpulse mass <? threshold) = false.
Proof. intros ->. apply fltb_irrefl. Qed.

(** The fraction that the volume is interpolated with lies between 0 and 1,
    whatever the intensity and the threshold are. *)
Lemma volume_fraction_bounds (lo hi x : F) :
  ofZ 0 <= ofZ 1 ->
  ofZ 0 <= Clamp (GetRangePct lo hi x) (ofZ 0) (ofZ 1) /\
  Clamp (GetRangePct lo hi x) (ofZ 0) (ofZ 1) <= ofZ 1.
Proof. apply Clamp_bounds. Qed.

End AudioOrder.

(** ** The theorems on the sample prop *)

Lemma OnComponentHit_noop_witness :
  OnComponentHit (vec 3000 0 0) (hitOn None) restState = Done tt restState.
Proof. apply (OnComponentHit_noop restState). by left. Defined.

Lemma OnComponentHit_cooldown_witness :
  OnComponentHit (vec 3000 0 0) (hitOn None) (atTime (dec 5 100) audioState)
  = Done tt (atTime (dec 5 100) audioState).
Proof.
  apply (OnComponentHit_cooldown (atTime (dec 5 100) audioState) sampleTable);
    reflexivity.
Defined.

Lemma OnComponentHit_quiet_witness :
  OnComponentHit (vec 999 0 0) (hitOn None) audioState = Done tt audioState.
Proof.
  apply (OnComponentHit_quiet audioState sampleTable 1
           (sampleMesh (vec 150 0 0) (vec 0 0 0))); reflexivity.
Defined.

Lemma OnComponentHit_plays_witness :
  exists s',
    OnComponentHit (vec 3000 0 0) (hitOn (Some 7%positive)) audioState = Done tt s' /\
    LastImpactTime (self s') = ofZ 10 /\
    randIdx (world s') = 1 /\
    meshes (world s') = meshes (world audioState) /\
    issued (calls (world audioState)) (calls (world s'))
    = [CallPlaySoundAtLocation 9 (vec 0 0 0)
         (impactVolume (ofZ 100) (ofZ 300) (dec 1 2))
         (dec 85 100 + (dec 11 10 - dec 85 100) * dec 1 2)].
Proof.
  by_instance (OnComponentHit_plays audioState sampleTable 1
                 (sampleMesh (vec 150 0 0) (vec 0 0 0)) (vec 3000 0 0)
                 (hitOn (Some 7%positive)) 9
                 eq_refl eq_refl eq_refl eq_refl eq_refl eq_refl eq_refl).
Defined.

Lemma OnComponentHit_silent_entry_witness :
  OnComponentHit (vec 3000 0 0) (hitOn None)
    (set_self (set_cfg (mkConfig (ofZ 3000) (ofZ 1) (ofZ 500) (Some emptyImpactData)
                          (ofZ 100) (dec 1 10)) (self restState)) restState)
  = Done tt
      (set_self (set_cfg (mkConfig (ofZ 3000) (ofZ 1) (ofZ 500) (Some emptyImpactData)
                            (ofZ 100) (dec 1 10)) (self restState)) restState).
Proof.
  apply (OnComponentHit_silent_entry _ emptyImpactData 1
           (sampleMesh (vec 150 0 0) (vec 0 0 0))); reflexivity.
Defined.

Lemma threshold_inclusive_witness :
  (impactIntensity (vec 1000 0 0) (Some (ofZ 10 : b32)) <? ofZ 100) = false.
Proof. by apply (threshold_inclusive (vec 1000 0 0) (Some (ofZ 10 : b32))). Defined.

(** The volume at the threshold, in the middle of the range, at its end and
    beyond it; the pitch for the random numbers 0, 1/2 and 1. *)
Example volume_and_pitch_b32 :
  impactVolume (ofZ 100) (ofZ 100) (ofZ 1) = (dec 2 10 : b32) /\
  impactVolume (ofZ 100) (ofZ 500) (ofZ 1) = (ofZ 1 : b32) /\
  impactVolume (ofZ 100) (ofZ 10000) (ofZ 1) = (ofZ 1 : b32) /\
  (dec 2 10 : b32) < impactVolume (ofZ 100) (ofZ 300) (ofZ 1) /\
  impactVolume (ofZ 100) (ofZ 300) (ofZ 1) < (ofZ 1 : b32) /\
  (dec 85 100 + (dec 11 10 - dec 85 100) * ofZ 0 : b32) = dec 85 100 /\
  (dec 85 100 + (dec 11 10 - dec 85 100) * ofZ 1 : b32) <= dec 11 10.
Proof. by vm_compute. Qed.

(** Two hits at the same time: the second one is discarded.  Two hits half
    a second apart: both are played. *)
Example two_hits :
  (exec (OnComponentHit (vec 3000 0 0) (hitOn None);;
         OnComponentHit (vec 3000 0 0) (hitOn None)) audioState
     ≫= fun s => Some (sounds (calls (world s)))) = Some 1 /\
  (exec (OnComponentHit (vec 3000 0 0) (hitOn None)) audioState
     ≫= fun s => exec (OnComponentHit (vec 3000 0 0) (hitOn None)) (atTime (dec 21 2) s)
     ≫= fun s => Some (sounds (calls (world s)))) = Some 2.
Proof. by vm_compute. Qed.

(** The time of the last impact starts at 0: a hit in the first tenth
    of a second of the world is discarded, although no impact preceded it. *)
Example first_hit_discarded :
  exec (OnComponentHit (vec 3000 0 0) (hitOn None)) (atTime (dec 5 100) audioState)
  = Some (atTime (dec 5 100) audioState).
Proof. by vm_compute. Qed.
