(* ===== verification/Host.v ===== *)
(** * Host: the component under every sequence of host events

    The engine drives the component through its callbacks: [BeginPlay],
    the tick, the distance timer, the sleep and wake delegates of the
    mesh, the three damage delegates of the owner, the hit delegate, and
    the four calls of the game code ([Physicalize], [Grab], [Drop],
    [Throw]).  [Event] names them with their arguments and [handle]
    dispatches one to the handler of PhysicsPropComponent.cpp.

    Between two events the engine changes the world (the solver moves
    bodies, actors move, the clock advances): [same_objects] says what
    such a change keeps, and [step] is one event or one change of the
    world.

    The file proves that from a state that is [ready] no enabled event ever
    faults, whatever happened before ([reachable_safe]), and that the
    invariants of the grab state hold in every reachable state
    ([reachable_compInv_b32]). *)

From Stdlib Require Import ZArith Floats.SpecFloat.
From stdpp Require Import base tactics option list gmap relations.
From S2P Require Import Prelude Scalar Float32 Vec Engine ImpactData Component Samples.
From S2P Require Import Grab GrabMachine Tick Proximity Lifecycle Damage Audio.

Local Open Scope scalar_scope.
Local Open Scope handler_scope.

(** ** Symbolic execution for total correctness

    [trun] runs a body step by step like [hrun], and splits on every test
    the context does not decide: the goal [twp body Q s] becomes one goal
    [Q a s'] per path, each path having run without a fault. *)

Ltac tstep :=
  lazymatch goal with
  | |- twp (bind (bind _ _) _) _ _ => apply twp_assoc
  | |- twp (bind _ _) _ _ => eapply twp_step; [run1|]
  end; cbv beta; state_simpl; rewrite ?insert_insert_eq; hsubst.

Ltac tcase :=
  lazymatch goal with
  | |- twp (if ?b then _ else _) _ _ => destruct b eqn:?
  | |- twp (match ?x with _ => _ end) _ _ => destruct x eqn:?
  | |- twp (bind (if ?b then _ else _) _) _ _ => destruct b eqn:?
  | |- twp (bind (match ?x with _ => _ end) _) _ _ => destruct x eqn:?
  | |- context [mkState _ (if ?b then _ else _)] => destruct b eqn:?
  end; state_simpl; hsubst.

Ltac trun :=
  unfold_calls; unfold when; state_simpl; hsubst;
  repeat first [ tstep | tcase ];
  (eapply twp_Done; [first [run1 | reflexivity]|]); state_simpl.

Section Events.
Context {F : Type} `{Scalar F}.

(** What the host can deliver to the component. *)
Inductive Event : Type :=
| EvBeginPlay
| EvPhysicalize (TargetMesh : option positive)
| EvTick (DeltaTime : F)
| EvTimer
| EvSleep
| EvWake
| EvAnyDamage (Damage : F) (dt : DamageType F) (InstigatedBy : option (FVector F))
    (DamageCauser : option positive)
| EvPointDamage (Damage : F) (HitLocation ShotFromDirection : FVector F) (dt : DamageType F)
| EvRadialDamage (Damage : F) (dt : DamageType F) (Origin : FVector F)
| EvHit (NormalImpulse : FVector F) (Hit : HitResult F)
| EvGrab (Holder : option positive)
| EvDrop
| EvThrow (Direction : FVector F) (Force : F).

Definition handle (e : Event) : H F unit :=
  match e with
  | EvBeginPlay => BeginPlay
  | EvPhysicalize TargetMesh => Physicalize TargetMesh
  | EvTick DeltaTime => TickComponent DeltaTime
  | EvTimer => CheckDistanceToPlayer
  | EvSleep => OnPhysicsComponentSleep
  | EvWake => OnPhysicsComponentWake
  | EvAnyDamage Damage dt InstigatedBy DamageCauser =>
      OnTakeAnyDamage Damage dt InstigatedBy DamageCauser
  | EvPointDamage Damage HitLocation ShotFromDirection dt =>
      OnTakePointDamage Damage HitLocation ShotFromDirection dt
  | EvRadialDamage Damage dt Origin => OnTakeRadialDamage Damage dt Origin
  | EvHit NormalImpulse Hit => OnComponentHit NormalImpulse Hit
  | EvGrab Holder => Grab Holder
  | EvDrop => Drop
  | EvThrow Direction Force => Throw Direction Force
  end.

(** The mesh exists and has a body instance. *)
Definition body_ok (w : World F) (o : option positive) : Prop :=
  match o with
  | Some m => exists mesh, meshes w !! m = Some mesh /\ hasBodyInstance mesh = true
  | None => True
  end.

(** A state the host may deliver events in: the pointers of the component
    lead to objects, and the managed mesh has a body. *)
Definition ready (s : State F) : Prop :=
  wf s /\ body_ok (world s) (ManagedMesh (self s)).

(** The pointers an event carries lead to objects: the mesh to physicalize
    (for [BeginPlay], the first static mesh of the owner) has a body, the
    damage causer is an actor, the holder is a scene component whose owner,
    if it has one, is an actor. *)
Definition enabled (s : State F) (e : Event) : Prop :=
  match e with
  | EvBeginPlay =>
      match compOwner (self s) with
      | Some me =>
          match actors (world s) !! me with
          | Some a => body_ok (world s) (FirstStaticMesh a)
          | None => True
          end
      | None => True
      end
  | EvPhysicalize TargetMesh => body_ok (world s) TargetMesh
  | EvAnyDamage _ _ _ DamageCauser => owner_ok (world s) DamageCauser
  | EvGrab Holder => holder_ok (world s) Holder
  | _ => True
  end.

(** What the engine keeps when it changes the world between two events:
    objects are not removed, a mesh keeps its body instance, a scene
    component keeps its owner.  Everything else (positions, velocities,
    sleep state, the clock, the view point, the oracles) may change. *)
Definition same_objects (w w' : World F) : Prop :=
  (forall m mesh, meshes w !! m = Some mesh ->
     exists mesh', meshes w' !! m = Some mesh' /\
       hasBodyInstance mesh' = hasBodyInstance mesh) /\
  (forall a, is_Some (actors w !! a) -> is_Some (actors w' !! a)) /\
  (forall h hs, scenes w !! h = Some hs ->
     exists hs', scenes w' !! h = Some hs' /\ SceneOwner hs' = SceneOwner hs).

(** One step of the host: an enabled event whose handler finishes, or a
    change of the world. *)
Inductive step : State F -> State F -> Prop :=
| step_event s e s' : enabled s e -> handle e s = Done tt s' -> step s s'
| step_world s w' : same_objects (world s) w' -> step s (mkState w' (self s)).

(** The state the engine registers the component in. *)
Definition initState (w : World F) (owner : positive) : State F :=
  mkState w (newComp (Some owner) true).

#[export] Instance body_ok_dec w o : Decision (body_ok w o).
Proof.
  unfold body_ok. destruct o as [m|]; [|apply _].
  destruct (meshes w !! m) as [mesh|] eqn:Hm.
  - destruct (hasBodyInstance mesh) eqn:Hb.
    + left. by exists mesh.
    + right. intros (mesh' & ? & ?). congruence.
  - right. intros (mesh' & ? & ?). congruence.
Defined.

#[export] Instance ready_dec s : Decision (ready s).
Proof. unfold ready. apply _. Defined.

#[export] Instance enabled_dec s e : Decision (enabled s e).
Proof. unfold enabled. destruct e; repeat case_match; apply _. Defined.

(** Deliver a list of events, each one enabled in the state it arrives in;
    [None] when one is not, or when a handler faults. *)
Fixpoint deliver (es : list Event) (s : State F) : option (State F) :=
  match es with
  | [] => Some s
  | e :: rest =>
      if decide (enabled s e) then
        match handle e s with
        | Done _ s' => deliver rest s'
        | Fault _ => None
        end
      else None
  end.

End Events.

Arguments Event F : clear implicits.

(** From [ready]: the objects the component points to. *)
Ltac ready_destruct Hr :=
  let Hmesh := fresh "Hmesh" in let Hholder := fresh "Hholder" in
  let me := fresh "me" in let Hme := fresh "Hme" in let Howner := fresh "Howner" in
  let Hw := fresh "Hw" in let Hbody := fresh "Hbody" in
  destruct Hr as [(Hmesh & Hholder & [me Hme] & Howner & Hw) Hbody];
  unfold mesh_ok, holder_ok, owner_ok, body_ok in *;
  rewrite Hme in Howner; destruct Howner as [? Howner];
  repeat match goal with
  | Hx : context [match ?x with _ => _ end] |- _ =>
      lazymatch x with
      | _ !! _ => destruct x eqn:?; [|done]
      | _ => destruct x eqn:?
      end
  | Hx : is_Some _ |- _ => destruct Hx
  | Hx : exists _, _ /\ _ |- _ => destruct Hx as (? & ? & ?)
  end; simplify_eq.

(** Prove [ready] of the state a run ends in. *)
Ltac ready_solve :=
  repeat match goal with
  | |- context [mkState _ (if ?b then _ else _)] => destruct b
  end;
  unfold ready, wf, mesh_ok, holder_ok, owner_ok, body_ok; state_simpl;
  rewrite ?insert_insert_eq; hsubst;
  repeat match goal with
  | |- _ /\ _ => split
  | |- True => exact I
  | |- is_Some (Some _) => by eexists
  | |- is_Some (<[_:=_]> _ !! _) => rewrite lookup_insert_is_Some'
  | |- _ \/ _ => first [by left | right]
  | |- exists _, <[_:=_]> _ !! _ = Some _ /\ _ =>
      eexists; split; [apply lookup_insert_eq|done]
  | |- _ => progress (state_simpl; hsubst)
  | |- _ => by eauto
  end.

Section Safety.
Context {F : Type} `{Scalar F}.
Implicit Types s : State F.

Lemma Grab_safe s Holder :
  ready s -> holder_ok (world s) Holder -> twp (Grab Holder) (fun _ => ready) s.
Proof.
  intros Hr Hh. pose proof Hr as Hr'. ready_destruct Hr'.
  all: unfold Grab, ignoreHolderOwner; trun; try done; ready_solve.
Qed.

Lemma Drop_safe s : ready s -> twp Drop (fun _ => ready) s.
Proof.
  intros Hr. pose proof Hr as Hr'. ready_destruct Hr'.
  all: unfold Drop, restoreHolderOwner; trun; try done; ready_solve.
Qed.

Lemma Throw_safe s d f : ready s -> twp (Throw d f) (fun _ => ready) s.
Proof.
  intros Hr. pose proof Hr as Hr'. ready_destruct Hr'.
  all: unfold Throw, Drop, restoreHolderOwner; trun; try done; ready_solve.
Qed.

Lemma UpdateGrabbedPosition_safe s : ready s -> twp UpdateGrabbedPosition (fun _ => ready) s.
Proof.
  intros Hr. pose proof Hr as Hr'. ready_destruct Hr'.
  all: unfold UpdateGrabbedPosition; trun; try done; ready_solve.
Qed.

Lemma TickComponent_safe s dt : ready s -> twp (TickComponent dt) (fun _ => ready) s.
Proof.
  intros Hr. pose proof Hr as Hr'. ready_destruct Hr'.
  all: unfold TickComponent, updateCCD, UpdateGrabbedPosition; trun; try done; ready_solve.
Qed.

Lemma CheckDistanceToPlayer_safe s : ready s -> twp CheckDistanceToPlayer (fun _ => ready) s.
Proof.
  intros Hr. pose proof Hr as Hr'. ready_destruct Hr'.
  all: unfold CheckDistanceToPlayer, GetWorld, cullFar, IsInstanceAwake; trun; try done; ready_solve.
Qed.

Lemma OnPhysicsComponentSleep_safe s : ready s -> twp OnPhysicsComponentSleep (fun _ => ready) s.
Proof.
  intros Hr. pose proof Hr as Hr'. ready_destruct Hr'.
  all: unfold OnPhysicsComponentSleep, replicateMovement, OwnerHasAuthority; trun;
    try done; ready_solve.
Qed.

Lemma OnPhysicsComponentWake_safe s : ready s -> twp OnPhysicsComponentWake (fun _ => ready) s.
Proof.
  intros Hr. pose proof Hr as Hr'. ready_destruct Hr'.
  all: unfold OnPhysicsComponentWake, replicateMovement, OwnerHasAuthority; trun;
    try done; ready_solve.
Qed.

Lemma Physicalize_safe s TargetMesh :
  ready s -> body_ok (world s) TargetMesh -> twp (Physicalize TargetMesh) (fun _ => ready) s.
Proof.
  intros Hr Hb. pose proof Hr as Hr'. ready_destruct Hr'.
  all: unfold Physicalize, configureBody, startDistanceCheck, bindDamage, SetTimer; trun;
    try done; ready_solve.
Qed.

Lemma BeginPlay_safe s :
  ready s -> enabled s EvBeginPlay -> twp BeginPlay (fun _ => ready) s.
Proof.
  intros Hr. pose proof Hr as Hr'. ready_destruct Hr'.
  all: simpl; match goal with
       | Hme : compOwner _ = Some ?me, Ha : actors _ !! ?me = Some ?a |- _ =>
           rewrite Hme, Ha; unfold body_ok;
           destruct (FirstStaticMesh a) eqn:?; [intros (? & ? & ?)|intros _]
       end.
  all: unfold BeginPlay, Physicalize, configureBody, startDistanceCheck, bindDamage,
         SetTimer; trun; try done; ready_solve.
Qed.

Lemma OnTakeAnyDamage_safe s Damage dt InstigatedBy DamageCauser :
  ready s -> owner_ok (world s) DamageCauser ->
  twp (OnTakeAnyDamage Damage dt InstigatedBy DamageCauser) (fun _ => ready) s.
Proof.
  intros Hr Hc. pose proof Hr as Hr'. ready_destruct Hr'.
  all: unfold OnTakeAnyDamage, impulseDirection; trun; try done; ready_solve.
Qed.

Lemma OnTakePointDamage_safe s Damage loc dir dt :
  ready s -> twp (OnTakePointDamage Damage loc dir dt) (fun _ => ready) s.
Proof.
  intros Hr. pose proof Hr as Hr'. ready_destruct Hr'.
  all: unfold OnTakePointDamage; trun; try done; ready_solve.
Qed.

Lemma OnTakeRadialDamage_safe s Damage dt Origin :
  ready s -> twp (OnTakeRadialDamage Damage dt Origin) (fun _ => ready) s.
Proof.
  intros Hr. pose proof Hr as Hr'. ready_destruct Hr'.
  all: unfold OnTakeRadialDamage; trun; try done; ready_solve.
Qed.

Lemma OnComponentHit_safe s NormalImpulse Hit :
  ready s -> twp (OnComponentHit NormalImpulse Hit) (fun _ => ready) s.
Proof.
  intros Hr. pose proof Hr as Hr'. ready_destruct Hr'.
  all: unfold OnComponentHit, GetWorld; trun; try done; ready_solve.
Qed.

End Safety.

(** ** Every event, every reachable state *)

Section Reachable.
Context {F : Type} `{Scalar F}.
Implicit Types s : State F.

(** From a ready state an enabled event runs to its end, and the state it
    leaves is ready. *)
Lemma handle_twp s e : ready s -> enabled s e -> twp (handle e) (fun _ => ready) s.
Proof.
  intros Hr He. destruct e; simpl in *;
    auto using BeginPlay_safe, Physicalize_safe, TickComponent_safe,
      CheckDistanceToPlayer_safe, OnPhysicsComponentSleep_safe,
      OnPhysicsComponentWake_safe, OnTakeAnyDamage_safe, OnTakePointDamage_safe,
      OnTakeRadialDamage_safe, OnComponentHit_safe, Grab_safe, Drop_safe, Throw_safe.
Qed.

Lemma same_objects_refl (w : World F) : same_objects w w.
Proof. unfold same_objects. naive_solver. Qed.

Lemma same_objects_trans (w1 w2 w3 : World F) :
  same_objects w1 w2 -> same_objects w2 w3 -> same_objects w1 w3.
Proof.
  intros (Hm & Ha & Hs) (Hm' & Ha' & Hs'). split_and!.
  - intros m mesh Hl. destruct (Hm _ _ Hl) as (m2 & Hl2 & <-).
    destruct (Hm' _ _ Hl2) as (m3 & ? & <-). eauto.
  - auto.
  - intros h hs Hl. destruct (Hs _ _ Hl) as (h2 & Hl2 & <-).
    destruct (Hs' _ _ Hl2) as (h3 & ? & <-). eauto.
Qed.

Lemma owner_ok_same (w w' : World F) o :
  same_objects w w' -> owner_ok w o -> owner_ok w' o.
Proof. intros (_ & Ha & _). destruct o; simpl; auto. Qed.

Lemma mesh_ok_same (w w' : World F) o :
  same_objects w w' -> mesh_ok w o -> mesh_ok w' o.
Proof.
  intros (Hm & _). destruct o as [m|]; simpl; [|done].
  intros [mesh Hl]. destruct (Hm _ _ Hl) as (? & -> & _). by eexists.
Qed.

Lemma body_ok_same (w w' : World F) o :
  same_objects w w' -> body_ok w o -> body_ok w' o.
Proof.
  intros (Hm & _). destruct o as [m|]; simpl; [|done].
  intros (mesh & Hl & Hb). destruct (Hm _ _ Hl) as (mesh' & ? & Hb').
  exists mesh'. split; [done | congruence].
Qed.

Lemma holder_ok_same (w w' : World F) o :
  same_objects w w' -> holder_ok w o -> holder_ok w' o.
Proof.
  intros Hsame. pose proof Hsame as (_ & _ & Hs). destruct o as [h|]; simpl; [|done].
  destruct (scenes w !! h) as [hs|] eqn:Hl; [|done].
  destruct (Hs _ _ Hl) as (hs' & -> & ->). by apply owner_ok_same.
Qed.

(** A change of the world that keeps the objects keeps the state ready. *)
Lemma ready_same s w' :
  ready s -> same_objects (world s) w' -> ready (mkState w' (self s)).
Proof.
  intros [(Hmesh & Hholder & Hme & Howner & Hw) Hbody] Hsame.
  unfold ready, wf. simpl.
  eauto 10 using mesh_ok_same, holder_ok_same, owner_ok_same, body_ok_same.
Qed.

Lemma step_ready s s' : ready s -> step s s' -> ready s'.
Proof.
  intros Hr Hstep. destruct Hstep as [s e s' He Hrun | s w' Hsame].
  - destruct (twp_exec _ _ _ (handle_twp s e Hr He)) as ([] & s3 & Hrun' & Hr').
    by replace s' with s3 by congruence.
  - by apply ready_same.
Qed.

Lemma rtc_ready s0 s : ready s0 -> rtc step s0 s -> ready s.
Proof. intros Hr Hsteps. induction Hsteps; eauto using step_ready. Qed.

(** A delivery is a path of the step relation. *)
Lemma deliver_rtc es s s' : deliver es s = Some s' -> rtc step s s'.
Proof.
  revert s. induction es as [|e es IH]; intros s Hd; simpl in Hd.
  - by simplify_eq.
  - destruct (decide (enabled s e)) as [He|]; [|done].
    destruct (handle e s) as [[] s1|] eqn:Hrun; [|done].
    eapply rtc_l; [by eapply step_event | by apply IH].
Qed.

(** From a ready state a delivery stops only at an event that is not
    enabled: if every event is accepted, the delivery succeeds. *)
Lemma deliver_ready es s :
  ready s ->
  (exists s', deliver es s = Some s' /\ ready s') \/
  (exists es1 e es2 s1, es = es1 ++ e :: es2 /\ deliver es1 s = Some s1 /\
     ~ enabled s1 e).
Proof.
  revert s. induction es as [|e es IH]; intros s Hr; simpl; [by eauto|].
  destruct (decide (enabled s e)) as [He|Hne].
  - destruct (twp_exec _ _ _ (handle_twp s e Hr He)) as ([] & s1 & Hrun & Hr1).
    rewrite Hrun.
    destruct (IH s1 Hr1) as [?|(es1 & e1 & es2 & s2 & -> & Hd & Hne)]; [by left|].
    right. exists (e :: es1), e1, es2, s2. simpl.
    by rewrite decide_True, Hrun by done.
  - right. by exists [], e, es, s.
Qed.

(** The component as the engine registers it, with an owner that exists, is
    ready. *)
Lemma ready_initState (w : World F) owner :
  is_Some (actors w !! owner) -> ready (initState w owner).
Proof. intros Ho. unfold ready, wf, initState. simpl. eauto 10. Qed.

(** C1. From a ready state (the state the engine registers the component
    in is one, by [ready_initState]), after any sequence of enabled events
    and of changes of the world that keep the objects, the state is ready
    and every enabled event runs its handler to the end, without
    dereferencing a null or stale pointer, and leaves a ready state. *)
Theorem reachable_safe s0 s e :
  ready s0 -> rtc step s0 s -> enabled s e ->
  ready s /\ exists s', handle e s = Done tt s' /\ ready s' /\ step s s'.
Proof.
  intros Hr0 Hsteps He. pose proof (rtc_ready _ _ Hr0 Hsteps) as Hr.
  split; [done|].
  destruct (twp_exec _ _ _ (handle_twp s e Hr He)) as ([] & s' & Hrun & Hr').
  exists s'. split_and!; [done | done | by eapply step_event].
Qed.

End Reachable.

(** ** The invariants of the grab state, across every event *)

Section Invariants.
Context {F : Type} `{ScalarOrder F}.
Implicit Types s : State F.

(** While the prop is held the hold distance is in [50, 250]. *)
Definition holdInv (c : Comp F) : Prop :=
  bIsGrabbed c = true -> ofZ 50 <= HoldDistance c /\ HoldDistance c <= ofZ 250.

Definition compInv (c : Comp F) : Prop := GrabInv c /\ holdInv c.

#[export] Instance compInv_dec c : Decision (compInv c).
Proof. unfold compInv, holdInv. apply _. Defined.

Hypothesis interval : ofZ 50 <= ofZ 250.

(** Close a goal [compInv] of an updated component from [compInv] of the
    component before. *)
Ltac inv_solve :=
  repeat match goal with
  | |- context [mkState _ (if ?b then _ else _)] => destruct b
  | |- compInv (if ?b then _ else _) => destruct b
  end;
  unfold compInv, holdInv, GrabInv in *; state_simpl;
  first [ done
        | split; [split; first [done | by inv 1 | by eauto]
                 | first [done | intros _; by apply Clamp_bounds] ] ].

Lemma handle_compInv e s :
  compInv (self s) -> wlp (handle e) (fun _ s' => compInv (self s')) s.
Proof.
  intros Hinv. destruct e; simpl.
  all: unfold BeginPlay, Physicalize, configureBody, startDistanceCheck, bindDamage,
         SetTimer, TickComponent, updateCCD, UpdateGrabbedPosition,
         CheckDistanceToPlayer, cullFar, IsInstanceAwake, OnPhysicsComponentSleep,
         OnPhysicsComponentWake, replicateMovement, OwnerHasAuthority,
         OnTakeAnyDamage, OnTakePointDamage, OnTakeRadialDamage, impulseDirection,
         OnComponentHit, Grab, ignoreHolderOwner, Throw, Drop, restoreHolderOwner.
  all: wlp_auto; inv_solve.
Qed.

Lemma step_compInv s s' : compInv (self s) -> step s s' -> compInv (self s').
Proof.
  intros Hinv Hstep. destruct Hstep as [s e s' He Hrun | s w' Hsame]; [|done].
  exact (wlp_Done _ _ _ _ _ (handle_compInv e s Hinv) Hrun).
Qed.

Lemma rtc_compInv s0 s :
  compInv (self s0) -> rtc step s0 s -> compInv (self s).
Proof. intros Hinv Hsteps. induction Hsteps; eauto using step_compInv. Qed.

End Invariants.

(** ** On binary32 *)

(** The events of a sample session: the prop is spawned, a player grabs
    it, a frame passes, a bullet hits it, the distance timer fires. *)
Definition sampleEvents : list (Event b32) :=
  [ EvBeginPlay;
    EvGrab (Some 3%positive);
    EvTick (dec 1 60);
    EvPointDamage (ofZ 10) (vec 150 0 0) (vec 1 0 0) PlainDamage;
    EvTimer ].

(** The state the sample session ends in. *)
Definition hostSample : State b32 :=
  default (spawnState true) (deliver sampleEvents (spawnState true)).

Lemma ready_spawnState : ready (spawnState true).
Proof. apply (bool_decide_unpack _). by vm_compute. Qed.

Lemma compInv_spawnState : compInv (self (spawnState true)).
Proof. apply (bool_decide_unpack _). by vm_compute. Qed.

Lemma interval_b32 : (ofZ 50 : b32) <= ofZ 250.
Proof. by vm_compute. Qed.

Lemma hostSample_reachable : rtc step (spawnState true) hostSample.
Proof. apply (deliver_rtc sampleEvents). by vm_compute. Qed.

Lemma reachable_safe_witness :
  ready hostSample /\
  exists s', handle (EvThrow (vec 1 0 0) (ofZ 500)) hostSample = Done tt s' /\
    ready s' /\ step hostSample s'.
Proof.
  apply (reachable_safe (spawnState true) hostSample (EvThrow (vec 1 0 0) (ofZ 500)));
    [apply ready_spawnState | apply hostSample_reachable | exact I].
Defined.

(** C13. On binary32, in every state the host can reach from a state where
    the prop is not held, the prop is marked as held exactly when a holder
    is recorded, and while it is held the hold distance lies between 50 and
    250: no event, and no change of the world, breaks what [Grab]
    established. *)
Theorem reachable_compInv_b32 (s0 s : State b32) :
  compInv (self s0) -> rtc step s0 s ->
  (bIsGrabbed (self s) = true <-> is_Some (CurrentHolder (self s))) /\
  (bIsGrabbed (self s) = true ->
   ofZ 50 <= HoldDistance (self s) /\ HoldDistance (self s) <= ofZ 250).
Proof.
  intros Hinv Hsteps.
  by apply (rtc_compInv interval_b32 s0 s).
Qed.

Lemma reachable_compInv_b32_witness :
  (bIsGrabbed (self hostSample) = true <-> is_Some (CurrentHolder (self hostSample))) /\
  (bIsGrabbed (self hostSample) = true ->
   ofZ 50 <= HoldDistance (self hostSample) /\ HoldDistance (self hostSample) <= ofZ 250).
Proof.
  apply (reachable_compInv_b32 (spawnState true) hostSample);
    [apply compInv_spawnState | apply hostSample_reachable].
Defined.

(** The sample session leaves the prop held at 150 units. *)
Example hostSample_held :
  bIsGrabbed (self hostSample) = true /\
  CurrentHolder (self hostSample) = Some 3%positive /\
  HoldDistance (self hostSample) = ofZ 150.
Proof. by vm_compute. Qed.
