(* ===== verification/Scheduler.v ===== *)
(** * Scheduler: when the engine runs which handler

    [Host.v] lets any event come at any time.  The engine does not: it
    calls [BeginPlay] once, ticks a component whose tick is enabled, fires
    a timer that was set with a positive rate, and broadcasts a delegate to
    the callbacks bound to it, once per binding.  What enables each of
    these is a field the handlers themselves set ([bTickEnabled],
    [TimerHandle_DistanceCheck], the delegates of the mesh and of the
    owner), so the scheduler closes the loop between the handlers:
    [Physicalize] binds the callbacks that later run, the distance check
    puts the body to sleep, the sleep notification stops the tick.

    - [Broadcast] runs the callbacks of a delegate in the order of binding;
      [run] is what the engine executes for a [Label].
    - [Sched] adds to the state what the engine remembers: whether
      [BeginPlay] ran, and the sleep state each body last reported.
    - [guard] is when a label may fire, [sstep] one step of the scheduler
      (a label that fires, or a change of the world, [drift]), [fire] its
      executable form.

    The rules of the engine are assumptions of the model, stated in
    [guard]: a component is not called after its owner is destroyed; a
    body that generates wake events reports its sleep state when it
    differs from the last report, and a body that does not reports
    nothing; a timer set with a rate that is not positive does not
    fire. *)

From Stdlib Require Import ZArith.
From stdpp Require Import base tactics option list gmap relations.
From S2P Require Import Prelude Scalar Float32 Vec Engine ImpactData Component Frame Samples.
From S2P Require Import Grab GrabMachine Tick Proximity Lifecycle Damage Audio Host.

Local Open Scope scalar_scope.
Local Open Scope handler_scope.

Section Rules.
Context {F : Type} `{Scalar F}.

(** ** Delegates *)

(** The callback a notification is for: the member function whose
    signature is the delegate's. *)
Definition callbackOf (e : Event F) : option Callback :=
  match e with
  | EvSleep => Some CbSleep
  | EvWake => Some CbWake
  | EvHit _ _ => Some CbHit
  | EvAnyDamage _ _ _ _ => Some CbAnyDamage
  | EvPointDamage _ _ _ _ => Some CbPointDamage
  | EvRadialDamage _ _ _ => Some CbRadialDamage
  | _ => None
  end.

(** One bound callback receives the notification. *)
Definition Invoke (cb : Callback) (e : Event F) : H F unit :=
  if decide (callbackOf e = Some cb) then handle e else skip.

(** A multicast delegate calls its bindings in order. *)
Fixpoint Broadcast (cbs : list Callback) (e : Event F) : H F unit :=
  match cbs with
  | [] => skip
  | cb :: rest => Invoke cb e;; Broadcast rest e
  end.

(** ** What the engine runs *)

Inductive Label : Type :=
| LBeginPlay
| LTick (DeltaTime : F)
| LTimer
| LBody (m : positive)
| LHit (m : positive) (NormalImpulse : FVector F) (Hit : HitResult F)
| LAnyDamage (a : positive) (Damage : F) (dt : DamageType F)
    (InstigatedBy : option (FVector F)) (DamageCauser : option positive)
| LPointDamage (a : positive) (Damage : F) (HitLocation ShotFromDirection : FVector F)
    (dt : DamageType F)
| LRadialDamage (a : positive) (Damage : F) (dt : DamageType F) (Origin : FVector F)
| LPhysicalize (TargetMesh : option positive)
| LGrab (Holder : option positive)
| LDrop
| LThrow (Direction : FVector F) (Force : F).

(** The body [m] reports its sleep state: the wake delegate of the mesh is
    broadcast if it is awake, the sleep delegate if it is not. *)
Definition notifyBody (m : positive) : H F unit :=
  mesh ← call (getMesh m);
  if bAwake mesh then Broadcast (OnComponentWake mesh) EvWake
  else Broadcast (OnComponentSleep mesh) EvSleep.

Definition run (l : Label) : H F unit :=
  match l with
  | LBeginPlay => BeginPlay
  | LTick DeltaTime => TickComponent DeltaTime
  | LTimer => CheckDistanceToPlayer
  | LBody m => notifyBody m
  | LHit m NormalImpulse Hit =>
      mesh ← call (getMesh m);
      Broadcast (Engine.OnComponentHit mesh) (EvHit NormalImpulse Hit)
  | LAnyDamage a Damage dt InstigatedBy DamageCauser =>
      x ← call (getActor a);
      Broadcast (Engine.OnTakeAnyDamage x) (EvAnyDamage Damage dt InstigatedBy DamageCauser)
  | LPointDamage a Damage HitLocation ShotFromDirection dt =>
      x ← call (getActor a);
      Broadcast (Engine.OnTakePointDamage x)
        (EvPointDamage Damage HitLocation ShotFromDirection dt)
  | LRadialDamage a Damage dt Origin =>
      x ← call (getActor a);
      Broadcast (Engine.OnTakeRadialDamage x) (EvRadialDamage Damage dt Origin)
  | LPhysicalize TargetMesh => Physicalize TargetMesh
  | LGrab Holder => Grab Holder
  | LDrop => Drop
  | LThrow Direction Force => Throw Direction Force
  end.

(** The labels that are one call of a handler, and the event they are. *)
Definition direct (l : Label) : option (Event F) :=
  match l with
  | LBeginPlay => Some EvBeginPlay
  | LTick DeltaTime => Some (EvTick DeltaTime)
  | LTimer => Some EvTimer
  | LPhysicalize TargetMesh => Some (EvPhysicalize TargetMesh)
  | LGrab Holder => Some (EvGrab Holder)
  | LDrop => Some EvDrop
  | LThrow Direction Force => Some (EvThrow Direction Force)
  | _ => None
  end.

(** ** The state of the scheduler *)

Record Sched : Type := mkSched {
  st : State F;
  begun : bool;
  reported : gmap positive bool
}.

(** A body that has not reported yet was created awake. *)
Definition reportedAwake (h : Sched) (m : positive) : bool :=
  default true (reported h !! m).

Definition awakeOf (w : World F) (m : positive) : bool :=
  default true (bAwake <$> meshes w !! m).

(** The owner of the component exists and is not destroyed. *)
Definition alive (s : State F) : Prop :=
  match compOwner (self s) with
  | Some me =>
      match actors (world s) !! me with
      | Some a => bDestroyed a = false
      | None => False
      end
  | None => False
  end.

(** The timer is set, with a positive rate. *)
Definition timerOn (s : State F) : Prop :=
  match TimerHandle_DistanceCheck (self s) with
  | Some t => ofZ 0 < timerRate t
  | None => False
  end.

(** The body [m] generates wake events and has a sleep state it has not
    reported. *)
Definition pending (h : Sched) (m : positive) : Prop :=
  match meshes (world (st h)) !! m with
  | Some mesh => bGenerateWakeEvents mesh = true /\ reportedAwake h m <> bAwake mesh
  | None => False
  end.

Definition guard (h : Sched) (l : Label) : Prop :=
  alive (st h) /\
  match l with
  | LBeginPlay => begun h = false /\ enabled (st h) EvBeginPlay
  | LTick _ => begun h = true /\ bTickEnabled (self (st h)) = true
  | LTimer => timerOn (st h)
  | LBody m => pending h m
  | LHit m _ _ => is_Some (meshes (world (st h)) !! m)
  | LAnyDamage a _ _ _ DamageCauser =>
      is_Some (actors (world (st h)) !! a) /\ owner_ok (world (st h)) DamageCauser
  | LPointDamage a _ _ _ _ => is_Some (actors (world (st h)) !! a)
  | LRadialDamage a _ _ _ => is_Some (actors (world (st h)) !! a)
  | LPhysicalize TargetMesh => body_ok (world (st h)) TargetMesh
  | LGrab Holder => holder_ok (world (st h)) Holder
  | LDrop => True
  | LThrow _ _ => True
  end.

(** What the engine records when [l] has run and left the state [s']. *)
Definition after (l : Label) (h : Sched) (s' : State F) : Sched :=
  {| st := s';
     begun := match l with LBeginPlay => true | _ => begun h end;
     reported := match l with
                 | LBody m => <[m := awakeOf (world s') m]> (reported h)
                 | _ => reported h
                 end |}.

(** What a change of the world between two handlers keeps: the objects,
    the body instances, the owners of the scene components, the bindings
    and the log.  Positions, velocities, sleep states, the clock and the
    oracles may change. *)
Definition mesh_drift (x x' : Mesh F) : Prop :=
  hasBodyInstance x' = hasBodyInstance x /\
  bGenerateWakeEvents x' = bGenerateWakeEvents x /\
  OnComponentSleep x' = OnComponentSleep x /\
  OnComponentWake x' = OnComponentWake x /\
  Engine.OnComponentHit x' = Engine.OnComponentHit x.

Definition actor_drift (x x' : Actor F) : Prop :=
  FirstStaticMesh x' = FirstStaticMesh x /\
  bDestroyed x' = bDestroyed x /\
  Engine.OnTakeAnyDamage x' = Engine.OnTakeAnyDamage x /\
  Engine.OnTakePointDamage x' = Engine.OnTakePointDamage x /\
  Engine.OnTakeRadialDamage x' = Engine.OnTakeRadialDamage x.

Definition drift (w w' : World F) : Prop :=
  (forall i, option_Forall2 mesh_drift (meshes w !! i) (meshes w' !! i)) /\
  (forall i, option_Forall2 actor_drift (actors w !! i) (actors w' !! i)) /\
  (forall i hs, scenes w !! i = Some hs ->
     exists hs', scenes w' !! i = Some hs' /\ SceneOwner hs' = SceneOwner hs) /\
  calls w' = calls w.

(** One step: a label whose guard holds runs to its end, or the world
    drifts. *)
Inductive sstep : Sched -> option Label -> Sched -> Prop :=
| sstep_fire h l s' :
    guard h l -> run l (st h) = Done tt s' -> sstep h (Some l) (after l h s')
| sstep_world h w' :
    drift (world (st h)) w' ->
    sstep h None (mkSched (mkState w' (self (st h))) (begun h) (reported h)).

#[export] Instance alive_dec s : Decision (alive s).
Proof. unfold alive. repeat case_match; apply _. Defined.

#[export] Instance timerOn_dec s : Decision (timerOn s).
Proof. unfold timerOn. case_match; apply _. Defined.

#[export] Instance pending_dec h m : Decision (pending h m).
Proof. unfold pending. case_match; apply _. Defined.

#[export] Instance guard_dec h l : Decision (guard h l).
Proof. unfold guard. destruct l; apply _. Defined.

(** The step of a label, computed. *)
Definition fire (l : Label) (h : Sched) : option Sched :=
  if decide (guard h l) then
    match run l (st h) with
    | Done _ s' => Some (after l h s')
    | Fault _ => None
    end
  else None.

(** A session: the labels fire in order. *)
Fixpoint fires (ls : list Label) (h : Sched) : option Sched :=
  match ls with
  | [] => Some h
  | l :: rest => fire l h ≫= fires rest
  end.

(** The scheduler at the start of play: nothing has run, no body has
    reported. *)
Definition boot (s : State F) : Sched := mkSched s false ∅.

End Rules.

Arguments Label F : clear implicits.
Arguments Sched F : clear implicits.

(** ** The handlers keep the world *)

Section Keeps.
Context {F : Type} `{Scalar F}.
Implicit Types (s : State F) (h : Sched F) (l : Label F) (e : Event F).

Lemma handle_keeps e : hkeeps evolves (handle e).
Proof.
  destruct e; simpl.
  all: unfold BeginPlay, Physicalize, configureBody, startDistanceCheck, bindDamage,
         SetTimer, TickComponent, updateCCD, UpdateGrabbedPosition,
         CheckDistanceToPlayer, cullFar, IsInstanceAwake, OnPhysicsComponentSleep,
         OnPhysicsComponentWake, replicateMovement, OwnerHasAuthority,
         OnTakeAnyDamage, OnTakePointDamage, OnTakeRadialDamage, impulseDirection,
         OnComponentHit, Grab, ignoreHolderOwner, Throw, Drop, restoreHolderOwner.
  all: hkeeps_auto.
Qed.

Lemma Invoke_keeps cb e : hkeeps evolves (Invoke cb e).
Proof. unfold Invoke. case_decide; [apply handle_keeps | apply (hkeeps_skip evolves)]. Qed.

Lemma Broadcast_keeps cbs e : hkeeps evolves (Broadcast cbs e).
Proof.
  induction cbs as [|cb cbs IH]; simpl; [apply (hkeeps_skip evolves)|].
  apply (hkeeps_bind evolves); [apply Invoke_keeps | done].
Qed.

Lemma run_direct l e : direct l = Some e -> run l = handle e.
Proof. destruct l; simpl; by intros [= <-]. Qed.

Lemma run_keeps l : hkeeps evolves (run l).
Proof.
  destruct (direct l) as [e|] eqn:Hd; [rewrite (run_direct _ _ Hd); apply handle_keeps|].
  destruct l; try done; simpl; unfold notifyBody.
  - apply (hkeeps_bind evolves); [apply (hkeeps_call evolves), (wkeeps_getMesh evolves)|].
    intros mesh. destruct (bAwake mesh); apply Broadcast_keeps.
  - apply (hkeeps_bind evolves); [apply (hkeeps_call evolves), (wkeeps_getMesh evolves) | intros; apply Broadcast_keeps].
  - apply (hkeeps_bind evolves); [apply (hkeeps_call evolves), (wkeeps_getActor evolves) | intros; apply Broadcast_keeps].
  - apply (hkeeps_bind evolves); [apply (hkeeps_call evolves), (wkeeps_getActor evolves) | intros; apply Broadcast_keeps].
  - apply (hkeeps_bind evolves); [apply (hkeeps_call evolves), (wkeeps_getActor evolves) | intros; apply Broadcast_keeps].
Qed.

Lemma evolves_same_objects (w w' : World F) : evolves w w' -> same_objects w w'.
Proof.
  intros Hev. split_and!.
  - intros m mesh Hm. destruct (evolves_mesh _ _ _ _ Hev Hm) as (x' & ? & ? & _). eauto.
  - intros a [x Ha]. destruct (evolves_actor _ _ _ _ Hev Ha) as (x' & ? & _). eauto.
  - intros i hs Hi. destruct Hev as (_ & _ & -> & _). eauto.
Qed.

Lemma drift_same_objects (w w' : World F) : drift w w' -> same_objects w w'.
Proof.
  intros (Hm & Ha & Hs & _). split_and!; [| |done].
  - intros m mesh Hl. specialize (Hm m). rewrite Hl in Hm. inv Hm.
    match goal with Hd : mesh_drift _ _ |- _ => destruct Hd as (? & _) end. eauto.
  - intros a [x Hl]. specialize (Ha a). rewrite Hl in Ha. inv Ha. eauto.
Qed.

(** A notification that is enabled stays enabled while objects persist. *)
Lemma enabled_notice e s s' :
  is_Some (callbackOf e) -> enabled s e -> same_objects (world s) (world s') ->
  enabled s' e.
Proof.
  intros [cb Hcb] He Hsame. destruct e; try done. simpl in *.
  by eapply owner_ok_same.
Qed.

End Keeps.

(** ** No step of the scheduler faults *)

Section Safe.
Context {F : Type} `{Scalar F}.
Implicit Types (s : State F) (h : Sched F) (l : Label F) (e : Event F).

(** A handler from a ready state: it finishes, the state is ready, and
    the world has evolved. *)
Lemma handle_twp_keeps s e :
  ready s -> enabled s e ->
  twp (handle e) (fun _ s' => ready s' /\ evolves (world s) (world s')) s.
Proof. intros Hr He. apply twp_wlp; [by apply handle_twp | apply handle_keeps]. Qed.

Lemma Broadcast_twp cbs e s :
  is_Some (callbackOf e) -> ready s -> enabled s e ->
  twp (Broadcast cbs e) (fun _ => ready) s.
Proof.
  intros Hcb. revert s. induction cbs as [|cb cbs IH]; intros s Hr He; simpl; [done|].
  apply twp_bind. unfold Invoke. case_decide.
  - eapply twp_mono; [|by apply handle_twp_keeps]. intros [] s1 [Hr1 Hev]. cbv beta.
    apply IH; [done|]. eapply enabled_notice; eauto using evolves_same_objects.
  - by apply IH.
Qed.

(** The guard of a direct label is what its event needs. *)
Lemma guard_enabled h l e : direct l = Some e -> guard h l -> enabled (st h) e.
Proof. destruct l; simpl; intros [= <-] [_ Hg]; simpl; tauto. Qed.

Lemma run_twp h l : ready (st h) -> guard h l -> twp (run l) (fun _ => ready) (st h).
Proof.
  intros Hr Hg. destruct (direct l) as [e|] eqn:Hd.
  { rewrite (run_direct _ _ Hd). apply handle_twp; [done | by eapply guard_enabled]. }
  destruct Hg as [_ Hg]. destruct l; try done; simpl in *; unfold pending, notifyBody in *.
  - destruct (meshes (world (st h)) !! m) as [mesh|] eqn:Hm; [|done].
    eapply twp_step; [apply call_Done, getMesh_Done, Hm|].
    destruct (st h) as [w c]. destruct (bAwake mesh); by apply Broadcast_twp.
  - destruct Hg as [mesh Hm].
    eapply twp_step; [apply call_Done, getMesh_Done, Hm|].
    destruct (st h) as [w c]. by apply Broadcast_twp.
  - destruct Hg as [[x Hx] Hc].
    eapply twp_step; [apply call_Done, getActor_Done, Hx|].
    destruct (st h) as [w c]. by apply Broadcast_twp.
  - destruct Hg as [x Hx].
    eapply twp_step; [apply call_Done, getActor_Done, Hx|].
    destruct (st h) as [w c]. by apply Broadcast_twp.
  - destruct Hg as [x Hx].
    eapply twp_step; [apply call_Done, getActor_Done, Hx|].
    destruct (st h) as [w c]. by apply Broadcast_twp.
Qed.

Lemma fire_sstep l h h' : fire l h = Some h' <-> sstep h (Some l) h'.
Proof.
  unfold fire. split.
  - case_decide; [|done]. destruct (run l (st h)) as [[] s'|] eqn:Hrun; [|done].
    intros [= <-]. by constructor.
  - inversion 1; subst. rewrite decide_True by done.
    match goal with Hrun : run _ _ = _ |- _ => by rewrite Hrun end.
Qed.

(** Progress and preservation: a label whose guard holds in a ready state
    fires, and leaves a ready state. *)
Lemma guard_fires h l :
  ready (st h) -> guard h l -> exists h', fire l h = Some h' /\ ready (st h').
Proof.
  intros Hr Hg. destruct (twp_exec _ _ _ (run_twp h l Hr Hg)) as ([] & s' & Hrun & Hr').
  exists (after l h s'). unfold fire. by rewrite decide_True, Hrun.
Qed.

Lemma sstep_ready h ol h' : ready (st h) -> sstep h ol h' -> ready (st h').
Proof.
  intros Hr Hstep. destruct Hstep as [h l s' Hg Hrun | h w' Hd].
  - destruct (twp_exec _ _ _ (run_twp h l Hr Hg)) as ([] & s1 & Hrun' & Hr').
    simpl. by replace s' with s1 by congruence.
  - simpl. apply (ready_same (st h)); [done | by apply drift_same_objects].
Qed.

End Safe.

(** ** Every run of the scheduler is a run of the host *)

Section Refines.
Context {F : Type} `{Scalar F}.
Implicit Types (s : State F) (h : Sched F) (l : Label F) (e : Event F).

(** One step of the scheduler, whatever its label. *)
Definition snext (h h' : Sched F) : Prop := exists ol, sstep h ol h'.

Lemma call_getMesh_inv s m x s' :
  call (getMesh m) s = Done x s' -> s' = s /\ meshes (world s) !! m = Some x.
Proof.
  unfold call. destruct (meshes (world s) !! m) as [y|] eqn:Hm.
  - rewrite (getMesh_Done _ _ _ Hm). intros [= <- <-]. by destruct s.
  - by rewrite (getMesh_Fault _ _ Hm).
Qed.

Lemma call_getActor_inv s a x s' :
  call (getActor a) s = Done x s' -> s' = s /\ actors (world s) !! a = Some x.
Proof.
  unfold call. destruct (actors (world s) !! a) as [y|] eqn:Ha.
  - rewrite (getActor_Done _ _ _ Ha). intros [= <- <-]. by destruct s.
  - by rewrite (getActor_Fault _ _ Ha).
Qed.

Lemma Broadcast_rtc cbs e s s' :
  is_Some (callbackOf e) -> enabled s e -> Broadcast cbs e s = Done tt s' ->
  rtc step s s'.
Proof.
  intros Hcb. revert s. induction cbs as [|cb cbs IH]; intros s He Hrun; simpl in Hrun.
  - inv Hrun. constructor.
  - apply bind_inv in Hrun as ([] & s1 & Hinv & Hrest). unfold Invoke in Hinv.
    case_decide.
    + eapply rtc_l; [by eapply step_event|]. apply IH; [|done].
      eapply enabled_notice; [done | done |]. apply evolves_same_objects.
      exact (hkeeps_Done evolves _ _ _ _ (handle_keeps e) Hinv).
    + inv Hinv. by apply IH.
Qed.

Lemma run_rtc h l s' : guard h l -> run l (st h) = Done tt s' -> rtc step (st h) s'.
Proof.
  intros Hg Hrun. destruct (direct l) as [e|] eqn:Hd.
  { rewrite (run_direct _ _ Hd) in Hrun.
    apply rtc_once. eapply step_event; [by eapply guard_enabled | done]. }
  destruct Hg as [_ Hg]. destruct l; try done; simpl in *; unfold notifyBody in *.
  all: apply bind_inv in Hrun as (x & s1 & Hget & Hrun).
  all: first [ apply call_getMesh_inv in Hget as [-> Hx]
             | apply call_getActor_inv in Hget as [-> Hx] ].
  1: case_match.
  all: match goal with Hb : Broadcast _ ?e _ = _ |- _ =>
         eapply (Broadcast_rtc _ e); [by eexists | simpl; tauto | done] end.
Qed.

Lemma sstep_refines h ol h' : sstep h ol h' -> rtc step (st h) (st h').
Proof.
  intros Hstep. destruct Hstep as [h l s' Hg Hrun | h w' Hd]; simpl.
  - by eapply run_rtc.
  - apply rtc_once. destruct (st h) as [w c]. apply (step_world (mkState w c)).
    by apply drift_same_objects.
Qed.

Lemma snext_refines h h' : rtc snext h h' -> rtc step (st h) (st h').
Proof.
  induction 1 as [|h1 h2 h3 [ol Hstep] _ IH]; [done|].
  etrans; [by eapply sstep_refines | done].
Qed.

(** A session that fires is a run of the scheduler. *)
Lemma fires_rtc ls h h' : fires ls h = Some h' -> rtc snext h h'.
Proof.
  revert h. induction ls as [|l ls IH]; intros h Hf; simpl in Hf; [by simplify_eq|].
  destruct (fire l h) as [h1|] eqn:Hfire; [|done]. simpl in Hf.
  eapply rtc_l; [exists (Some l); by apply fire_sstep | by apply IH].
Qed.

End Refines.

(** ** Delegates stay typed *)

Section TypedRuns.
Context {F : Type} `{Scalar F}.
Implicit Types (s : State F) (h : Sched F) (l : Label F) (e : Event F).

(** Run a handler [n] times. *)
Fixpoint repeatH (n : nat) (m : H F unit) : H F unit :=
  match n with
  | 0 => skip
  | S n => m;; repeatH n m
  end.

Lemma drift_typed (w w' : World F) : drift w w' -> typedWorld w -> typedWorld w'.
Proof.
  intros (Hm & Ha & _) [Htm Hta]. split.
  - intros i x' Hi. specialize (Hm i). rewrite Hi in Hm. inv Hm.
    match goal with Hd : mesh_drift _ _, Hx : Some _ = _ |- _ =>
      destruct Hd as (_ & _ & Hs & Hw & Hh); symmetry in Hx; specialize (Htm _ _ Hx) end.
    unfold typedMesh in *. by rewrite Hs, Hw, Hh.
  - intros i x' Hi. specialize (Ha i). rewrite Hi in Ha. inv Ha.
    match goal with Hd : actor_drift _ _, Hx : Some _ = _ |- _ =>
      destruct Hd as (_ & _ & Hs & Hw & Hh); symmetry in Hx; specialize (Hta _ _ Hx) end.
    unfold typedActor in *. by rewrite Hs, Hw, Hh.
Qed.

Lemma sstep_typed h ol h' :
  typedWorld (world (st h)) -> sstep h ol h' -> typedWorld (world (st h')).
Proof.
  intros Ht Hstep. destruct Hstep as [h l s' Hg Hrun | h w' Hd]; simpl.
  - eapply evolves_typed; [|done]. exact (hkeeps_Done evolves _ _ _ _ (run_keeps l) Hrun).
  - by eapply drift_typed.
Qed.

(** A delegate whose bindings are all the callback of the notification
    runs the handler once per binding. *)
Lemma Broadcast_typed cb cbs e s :
  callbackOf e = Some cb -> Forall (eq cb) cbs ->
  Broadcast cbs e s = repeatH (length cbs) (handle e) s.
Proof.
  intros Hcb Hall. revert s. induction Hall as [|cb' cbs <- _ IH]; intros s; [done|].
  simpl. unfold Invoke. rewrite decide_True by done.
  unfold bind. destruct (handle e s); [apply IH | done].
Qed.

End TypedRuns.

(** ** The claims of this file, and sessions on binary32 *)

Section Claims.
Context {F : Type} `{Scalar F}.
Implicit Types (s : State F) (h : Sched F) (l : Label F) (e : Event F).

Lemma rtc_snext_ready h0 h : ready (st h0) -> rtc snext h0 h -> ready (st h).
Proof.
  intros Hr Hrun. induction Hrun as [|h1 h2 h3 [ol Hstep] _ IH]; [done|].
  apply IH. by eapply sstep_ready.
Qed.

Lemma rtc_snext_typed h0 h :
  typedWorld (world (st h0)) -> rtc snext h0 h -> typedWorld (world (st h)).
Proof.
  intros Ht Hrun. induction Hrun as [|h1 h2 h3 [ol Hstep] _ IH]; [done|].
  apply IH. by eapply sstep_typed.
Qed.

(** C5. The scheduler refines the host: every run of the scheduler is a
    run of [Host.step] on the states, so what holds of every run of the
    host holds of the runs the engine produces; and from a ready state no
    label whose guard holds faults, wherever the run has led. *)
Theorem scheduler_refines_host h0 h :
  rtc snext h0 h ->
  rtc step (st h0) (st h) /\
  (ready (st h0) ->
   ready (st h) /\ forall l, guard h l -> exists h', fire l h = Some h' /\ ready (st h')).
Proof.
  intros Hrun. split; [by apply snext_refines|]. intros Hr.
  pose proof (rtc_snext_ready _ _ Hr Hrun) as Hr'. split; [done|].
  intros l Hg. by apply guard_fires.
Qed.

(** C9. Delegates are typed.  If every delegate of the world holds only
    the callback of its signature when play starts, it does in every state
    the scheduler reaches, and a body that reports its sleep state runs
    the sleep or the wake callback once per binding, and nothing else. *)
Theorem delegates_typed h0 h :
  typedWorld (world (st h0)) -> rtc snext h0 h ->
  typedWorld (world (st h)) /\
  forall m mesh, meshes (world (st h)) !! m = Some mesh ->
    run (LBody m) (st h)
    = (if bAwake mesh
       then repeatH (length (OnComponentWake mesh)) OnPhysicsComponentWake
       else repeatH (length (OnComponentSleep mesh)) OnPhysicsComponentSleep) (st h).
Proof.
  intros Ht Hrun. pose proof (rtc_snext_typed _ _ Ht Hrun) as [Htm Hta].
  split; [done|]. intros m mesh Hm. destruct (Htm _ _ Hm) as (Hs & Hw & _).
  simpl. unfold notifyBody.
  erewrite bind_Done by (apply call_Done, getMesh_Done, Hm).
  destruct (st h) as [w c]. simpl. destruct (bAwake mesh).
  - by apply (Broadcast_typed CbWake _ EvWake).
  - by apply (Broadcast_typed CbSleep _ EvSleep).
Qed.

End Claims.

(** A level with the prop's actor at distance [d] from the view point, its
    first static mesh 1 simulating, awake or not, and a second mesh 7;
    nothing is bound, the component is fresh. *)
Definition spawnWorld (d : Z) (awake : bool) : World b32 :=
  let w := sampleWorld d (vec 0 0 0) in
  set_actors (<[2%positive := set_ActorLocation (vec d 0 0) propActor]> (actors w))
    (set_meshes
       (<[7%positive := rawMesh true]>
          (<[1%positive := set_bAwake awake (rawMesh true)]> (meshes w))) w).

Definition spawnAt (d : Z) (awake : bool) : State b32 :=
  mkState (spawnWorld d awake) (newComp (Some 2%positive) true).

(** The session after the labels [ls], from the start of play. *)
Definition session (s : State b32) (ls : list (Label b32)) : Sched b32 :=
  default (boot s) (fires ls (boot s)).

Definition meshOf (h : Sched b32) (m : positive) : Mesh b32 :=
  default (rawMesh true) (meshes (world (st h)) !! m).

Definition ownerOf (h : Sched b32) : Actor b32 :=
  default propActor (actors (world (st h)) !! 2%positive).


Lemma ready_spawnAt : ready (spawnAt 150 true).
Proof. apply (bool_decide_unpack _). by vm_compute. Qed.

Lemma typed_spawnAt : typedWorld (world (spawnAt 150 true)).
Proof. apply (bool_decide_unpack _). by vm_compute. Qed.

(** A session: play begins, the timer fires, the prop takes a bullet, is
    grabbed and thrown. *)
Definition sampleLabels : list (Label b32) :=
  [ LBeginPlay; LTimer;
    LPointDamage 2%positive (ofZ 10) (vec 150 0 0) (vec 1 0 0) PlainDamage;
    LGrab (Some 3%positive); LTick (dec 1 60); LThrow (vec 1 0 0) (ofZ 500) ].

Definition sampleSession : Sched b32 := session (spawnAt 150 true) sampleLabels.

Lemma sampleLabels_run : rtc snext (boot (spawnAt 150 true)) sampleSession.
Proof. apply (fires_rtc sampleLabels). by vm_compute. Qed.

Lemma scheduler_refines_host_witness :
  rtc step (spawnAt 150 true) (st sampleSession) /\
  (ready (spawnAt 150 true) ->
   ready (st sampleSession) /\
   forall l, guard sampleSession l ->
     exists h', fire l sampleSession = Some h' /\ ready (st h')).
Proof.
  exact (scheduler_refines_host (boot (spawnAt 150 true)) sampleSession sampleLabels_run).
Defined.

Lemma delegates_typed_witness :
  typedWorld (world (st sampleSession)) /\
  forall m mesh, meshes (world (st sampleSession)) !! m = Some mesh ->
    run (LBody m) (st sampleSession)
    = (if bAwake mesh
       then repeatH (length (OnComponentWake mesh)) OnPhysicsComponentWake
       else repeatH (length (OnComponentSleep mesh)) OnPhysicsComponentSleep)
        (st sampleSession).
Proof.
  exact (delegates_typed (boot (spawnAt 150 true)) sampleSession
           typed_spawnAt sampleLabels_run).
Defined.

(** The sample session ends with the prop thrown: free, simulating, with
    the impulse of the throw as its last call. *)
Example sampleLabels_end :
  bIsGrabbed (self (st sampleSession)) = false /\
  bSimulatePhysics (meshOf sampleSession 1) = true /\
  last (calls (world (st sampleSession)))
  = Some (CallAddImpulse 1 (vscale (GetSafeNormal (vec 1 0 0)) (ofZ 500)) true).
Proof. by vm_compute. Qed.
