(* ===== verification/Notify.v ===== *)
(** * Notify: the sleep and wake notifications terminate

    The engine reports the sleep state of a body to the delegates of its
    mesh ([Scheduler.notifyBody]).  The callbacks of the component touch no
    mesh, so a notification raises no other: [nstep], the delivery of one
    notification, is strongly normalising, and [settle] delivers all that
    are pending. *)

From Stdlib Require Import ZArith Lia.
From stdpp Require Import base tactics option list gmap relations.
From S2P Require Import Prelude Scalar Float32 Vec Engine ImpactData Component Frame Samples.
From S2P Require Import Grab GrabMachine Tick Proximity Lifecycle Damage Audio Host Scheduler.

Local Open Scope scalar_scope.
Local Open Scope handler_scope.

Section Notify.
Context {F : Type} `{Scalar F}.
Implicit Types (s : State F) (h : Sched F) (l : Label F) (e : Event F).

(** The delivery of one notification. *)
Definition nstep (h h' : Sched F) : Prop := exists m, sstep h (Some (LBody m)) h'.

(** The bodies that have a sleep state to report. *)
Definition pendingSet (h : Sched F) : gset positive :=
  dom (filter (fun p : positive * Mesh F =>
                 bGenerateWakeEvents p.2 = true /\ reportedAwake h p.1 <> bAwake p.2)
         (meshes (world (st h)))).

(** Deliver notifications until no body has one, at most [n] of them. *)
Fixpoint settleN (n : nat) (h : Sched F) : option (Sched F) :=
  match elements (pendingSet h), n with
  | [], _ => Some h
  | _ :: _, 0 => None
  | m :: _, S n => fire (LBody m) h ≫= settleN n
  end.

Definition settle (h : Sched F) : option (Sched F) :=
  settleN (size (pendingSet h)) h.

Lemma elem_of_pendingSet h m : m ∈ pendingSet h <-> pending h m.
Proof.
  unfold pendingSet, pending. rewrite elem_of_dom. unfold is_Some.
  setoid_rewrite map_lookup_filter_Some. simpl.
  destruct (meshes (world (st h)) !! m) as [mesh|]; split.
  - by intros (x & [[= <-] Hp]).
  - intros Hp. by exists mesh.
  - by intros (x & [? _]).
  - done.
Qed.

(** The two callbacks touch no mesh, destroy no actor and keep the owner. *)
Lemma handle_calm e s :
  callbackOf e = Some CbSleep \/ callbackOf e = Some CbWake ->
  wlp (handle e)
    (fun _ s' => calm (world s) (world s') /\ compOwner (self s') = compOwner (self s)) s.
Proof.
  intros He. destruct e; simpl in He; try (destruct He; discriminate); simpl.
  all: unfold OnPhysicsComponentSleep, OnPhysicsComponentWake, replicateMovement,
         OwnerHasAuthority.
  all: repeat wlp_kstep (calm (F:=F)).
  all: split; [keeps_chain | by destruct (bCanEverTick (self s))].
Qed.

Lemma Broadcast_calm cbs e s :
  callbackOf e = Some CbSleep \/ callbackOf e = Some CbWake ->
  wlp (Broadcast cbs e)
    (fun _ s' => calm (world s) (world s') /\ compOwner (self s') = compOwner (self s)) s.
Proof.
  intros He. revert s. induction cbs as [|cb cbs IH]; intros s; simpl.
  - apply wlp_skip. by split.
  - apply wlp_bind. unfold Invoke. case_decide.
    + eapply wlp_mono; [|by apply handle_calm]. intros [] s1 [Hc Ho]. cbv beta.
      eapply wlp_mono; [|apply IH]. intros [] s2 [Hc' Ho'].
      split; [by etrans | congruence].
    + apply wlp_skip. apply IH.
Qed.

Lemma notifyBody_calm m s s' :
  notifyBody m s = Done tt s' ->
  calm (world s) (world s') /\ compOwner (self s') = compOwner (self s).
Proof.
  unfold notifyBody. intros Hrun.
  apply bind_inv in Hrun as (x & s1 & [-> Hx]%call_getMesh_inv & Hrun).
  destruct (bAwake x); eapply (wlp_Done _ _ _ _ _ (Broadcast_calm _ _ s _) Hrun).
  Unshelve. all: simpl; auto.
Qed.

(** A delivery takes its body out of the pending set and adds none. *)
Lemma nstep_pendingSet h m h' :
  sstep h (Some (LBody m)) h' ->
  m ∈ pendingSet h /\ pendingSet h' = pendingSet h ∖ {[m]}.
Proof.
  inversion 1 as [h0 l s' [_ Hg] Hrun|]; subst. simpl in Hg, Hrun.
  destruct (notifyBody_calm _ _ _ Hrun) as [[Hmeshes _] _].
  split; [by apply elem_of_pendingSet|].
  apply set_eq. intros i. rewrite elem_of_difference, !elem_of_pendingSet, elem_of_singleton.
  unfold pending, reportedAwake, after in *. simpl. unfold awakeOf. rewrite Hmeshes.
  destruct (decide (i = m)) as [->|Hne].
  - rewrite lookup_insert_eq. destruct (meshes (world (st h)) !! m); simpl; intuition.
  - rewrite lookup_insert_ne by done. intuition.
Qed.

Lemma sn_measure {A} (R : relation A) (f : A -> nat) :
  (forall x y, R x y -> (f y < f x)%nat) -> forall x, sn R x.
Proof.
  intros Hdec x. remember (f x) as n eqn:Hn. revert x Hn.
  induction n as [n IH] using lt_wf_ind. intros x ->.
  constructor. intros y Hy. eapply IH; [by apply Hdec | done].
Qed.

Lemma nstep_decreases h h' : nstep h h' -> (size (pendingSet h') < size (pendingSet h))%nat.
Proof.
  intros [m Hstep]. destruct (nstep_pendingSet _ _ _ Hstep) as [Hin ->].
  by apply subset_size, subset_difference_elem_of.
Qed.

(** Every sequence of deliveries is finite. *)
Lemma nstep_sn h : sn nstep h.
Proof. apply (sn_measure nstep (fun h => size (pendingSet h))), nstep_decreases. Qed.

Lemma alive_calm s s' :
  alive s -> calm (world s) (world s') -> compOwner (self s') = compOwner (self s) ->
  alive s'.
Proof.
  unfold alive. intros Ha [_ Hd] ->. destruct (compOwner (self s)) as [me|]; [|done].
  specialize (Hd me). destruct (actors (world s) !! me) as [a|]; [|done].
  destruct (actors (world s') !! me) as [a'|]; simplify_eq/=; congruence.
Qed.

Lemma pendingSet_nf h : pendingSet h = ∅ -> nf nstep h.
Proof.
  intros He [h' [m Hstep]]. destruct (nstep_pendingSet _ _ _ Hstep) as [Hin _].
  rewrite He in Hin. by apply not_elem_of_empty in Hin.
Qed.

(** With as much fuel as there are bodies to report, the deliveries reach
    a state where none is left. *)
Lemma settleN_total n h :
  ready (st h) -> alive (st h) -> (size (pendingSet h) <= n)%nat ->
  exists h', settleN n h = Some h' /\ pendingSet h' = ∅ /\ rtc nstep h h' /\
    ready (st h') /\ alive (st h').
Proof.
  revert h. induction n as [|n IH]; intros h Hr Ha Hn.
  - exists h. apply Nat.le_0_r, size_empty_inv in Hn. apply leibniz_equiv in Hn.
    unfold settleN. by rewrite Hn, elements_empty.
  - simpl. destruct (elements (pendingSet h)) as [|m ms] eqn:He.
    { exists h. by apply elements_empty_inv, leibniz_equiv in He. }
    assert (m ∈ pendingSet h) as Hin by (apply elem_of_elements; rewrite He; left).
    destruct (guard_fires h (LBody m) Hr) as (h1 & Hfire & Hr1).
    { split; [done | by apply elem_of_pendingSet]. }
    pose proof Hfire as Hstep. apply fire_sstep in Hstep.
    destruct (nstep_pendingSet _ _ _ Hstep) as [_ Hp].
    assert (alive (st h1)) as Ha1.
    { inversion Hstep as [h0 l s' _ Hrun|]; subst. simpl in *.
      destruct (notifyBody_calm _ _ _ Hrun). by eapply alive_calm. }
    destruct (IH h1 Hr1 Ha1) as (h' & Hs & He' & Hrtc & Hr' & Ha').
    { rewrite Hp. pose proof (subset_size _ _ (subset_difference_elem_of _ _ Hin)). lia. }
    exists h'. rewrite Hfire. simpl. split_and!; try done.
    eapply rtc_l; [by exists m | done].
Qed.

End Notify.

(** ** The claim of this file *)

Section Claims.
Context {F : Type} `{Scalar F}.

(** C7. The notifications terminate.  Every sequence of deliveries of
    sleep and wake notifications is finite, whatever the state; and from a
    ready state with a living owner [settle] delivers the pending
    notifications, one per body, and ends in a state where no
    notification can be delivered and no body has anything to report. *)
Theorem settle_terminates (h : Sched F) :
  ready (st h) -> alive (st h) ->
  sn nstep h /\
  exists h', settle h = Some h' /\ rtc nstep h h' /\ nf nstep h' /\ pendingSet h' = ∅.
Proof.
  intros Hr Ha. split; [apply nstep_sn|].
  destruct (settleN_total (size (pendingSet h)) h Hr Ha) as (h' & Hs & He & Hrun & _);
    [done|].
  exists h'. split_and!; [done | done | by apply pendingSet_nf | done].
Qed.

End Claims.

(** A session in which two bodies have a sleep to report: mesh 1 was
    asleep when play began, and so was mesh 7. *)
Definition sleepy : Sched b32 :=
  session (mkState (set_meshes (<[7%positive := set_bAwake false (rawMesh true)]>
                                  (meshes (spawnWorld 150 false))) (spawnWorld 150 false))
             (newComp (Some 2%positive) true))
    [LPhysicalize (Some 1%positive); LPhysicalize (Some 7%positive)].

Lemma settle_terminates_witness :
  sn nstep sleepy /\
  exists h', settle sleepy = Some h' /\ rtc nstep sleepy h' /\ nf nstep h' /\
    pendingSet h' = ∅.
Proof.
  apply (settle_terminates sleepy); apply (bool_decide_unpack _); by vm_compute.
Defined.

(** Both notifications are delivered, each callback runs for each: the
    sleep callback was bound to mesh 1 once and to mesh 7 once. *)
Example settle_sleepy :
  size (pendingSet sleepy) = 2 /\
  (pendingSet <$> settle sleepy) = Some ∅ /\
  (fun h' => count (fun c => match c with CallSetComponentTickEnabled false => true | _ => false end)
               (issued (calls (world (st sleepy))) (calls (world (st h')))))
    <$> settle sleepy = Some 2.
Proof. by vm_compute. Qed.
