(* ===== verification/Session.v ===== *)
(** * Session: the handlers in the order the engine runs them

    What the component's fields are after a step of the scheduler, by the
    label of the step ([kept]), and the chains of handlers that the design
    relies on: the distance check puts a far body to sleep and the sleep
    notification stops the ticks; nothing but a notification or [Grab]
    switches the tick of the component.  Then what the same rules allow
    and the design does not intend: a body without wake events never
    notifies, a component is not ticked before a body has slept, and
    the sleep of a mesh that is no longer managed stops the tick. *)

From Stdlib Require Import ZArith Lia.
From stdpp Require Import base tactics option list gmap relations.
From S2P Require Import Prelude Scalar Float32 Vec Engine ImpactData Component Frame Samples.
From S2P Require Import Grab GrabMachine Tick Proximity Lifecycle Damage Audio Host Scheduler.
From S2P Require Import Notify.

Local Open Scope scalar_scope.
Local Open Scope handler_scope.

Section Fields.
Context {F : Type} `{Scalar F}.
Implicit Types (s : State F) (h : Sched F) (l : Label F) (e : Event F) (c : Comp F).

(** The events that switch the tick of the component. *)
Definition tickSource (e : Event F) : bool :=
  match e with
  | EvSleep | EvWake | EvGrab _ => true
  | _ => false
  end.

(** The events that set the timer. *)
Definition timerSource (e : Event F) : bool :=
  match e with
  | EvBeginPlay | EvPhysicalize _ => true
  | _ => false
  end.

(** What the event [e] keeps of the component: the configuration and what
    the engine set at registration always; a managed mesh once there is
    one; the tick and the timer unless [e] is one of their sources. *)
Definition kept (e : Event F) (c c' : Comp F) : Prop :=
  cfg c' = cfg c /\
  compOwner c' = compOwner c /\
  hasWorld c' = hasWorld c /\
  bCanEverTick c' = bCanEverTick c /\
  (is_Some (ManagedMesh c) -> is_Some (ManagedMesh c')) /\
  (tickSource e = false -> bTickEnabled c' = bTickEnabled c) /\
  (timerSource e = false ->
   TimerHandle_DistanceCheck c' = TimerHandle_DistanceCheck c).

Lemma kept_refl e c : kept e c c.
Proof. by unfold kept. Qed.

Lemma kept_trans e c1 c2 c3 : kept e c1 c2 -> kept e c2 c3 -> kept e c1 c3.
Proof.
  intros (? & ? & ? & ? & ? & Ht & Hr) (? & ? & ? & ? & ? & Ht' & Hr').
  split_and!; try congruence; [auto | |].
  - intros Hs. by rewrite Ht', Ht.
  - intros Hs. by rewrite Hr', Hr.
Qed.

Ltac kept_solve :=
  unfold kept; state_simpl;
  repeat match goal with
  | |- context [if ?b then _ else _] => destruct b eqn:?
  end; state_simpl;
  split_and!; first [ done | congruence | by eauto ].

Lemma handle_kept e s : wlp (handle e) (fun _ s' => kept e (self s) (self s')) s.
Proof.
  destruct e; simpl.
  all: unfold BeginPlay, Physicalize, configureBody, startDistanceCheck, bindDamage,
         SetTimer, TickComponent, updateCCD, UpdateGrabbedPosition,
         CheckDistanceToPlayer, cullFar, IsInstanceAwake, OnPhysicsComponentSleep,
         OnPhysicsComponentWake, replicateMovement, OwnerHasAuthority,
         OnTakeAnyDamage, OnTakePointDamage, OnTakeRadialDamage, impulseDirection,
         OnComponentHit, Grab, ignoreHolderOwner, Throw, Drop, restoreHolderOwner.
  all: wlp_auto; kept_solve.
Qed.

Lemma Broadcast_kept cbs e s :
  wlp (Broadcast cbs e) (fun _ s' => kept e (self s) (self s')) s.
Proof.
  revert s. induction cbs as [|cb cbs IH]; intros s; simpl.
  - apply wlp_skip, kept_refl.
  - apply wlp_bind. unfold Invoke. case_decide.
    + eapply wlp_mono; [|apply handle_kept]. intros [] s1 Hk. cbv beta.
      eapply wlp_mono; [|apply IH]. intros [] s2 Hk'. by eapply kept_trans.
    + apply wlp_skip, IH.
Qed.

(** The event whose handler a label runs. *)
Definition eventOf (l : Label F) : Event F :=
  match l with
  | LBeginPlay => EvBeginPlay
  | LTick DeltaTime => EvTick DeltaTime
  | LTimer => EvTimer
  | LBody _ => EvSleep
  | LHit _ NormalImpulse Hit => EvHit NormalImpulse Hit
  | LAnyDamage _ Damage dt InstigatedBy DamageCauser =>
      EvAnyDamage Damage dt InstigatedBy DamageCauser
  | LPointDamage _ Damage HitLocation ShotFromDirection dt =>
      EvPointDamage Damage HitLocation ShotFromDirection dt
  | LRadialDamage _ Damage dt Origin => EvRadialDamage Damage dt Origin
  | LPhysicalize TargetMesh => EvPhysicalize TargetMesh
  | LGrab Holder => EvGrab Holder
  | LDrop => EvDrop
  | LThrow Direction Force => EvThrow Direction Force
  end.

Lemma direct_eventOf l e : direct l = Some e -> eventOf l = e.
Proof. destruct l; simpl; by intros [= <-]. Qed.

Lemma run_kept l s : wlp (run l) (fun _ s' => kept (eventOf l) (self s) (self s')) s.
Proof.
  destruct (direct l) as [e|] eqn:Hd.
  { rewrite (run_direct _ _ Hd), (direct_eventOf _ _ Hd). apply handle_kept. }
  destruct l; try done; simpl; unfold notifyBody.
  all: apply wlp_bind, wlp_call; intros x w; state_simpl; try destruct (bAwake x).
  all: first [ apply (Broadcast_kept _ EvSleep (mkState w (self s)))
             | apply (Broadcast_kept _ EvWake (mkState w (self s)))
             | apply (Broadcast_kept _ _ (mkState w (self s))) ].
Qed.

End Fields.

(** ** What the steps of the scheduler keep of the component *)

Section Steps.
Context {F : Type} `{Scalar F}.
Implicit Types (s : State F) (h : Sched F) (l : Label F) (e : Event F) (c : Comp F).

Lemma sstep_kept h l h' :
  sstep h (Some l) h' -> kept (eventOf l) (self (st h)) (self (st h')).
Proof.
  inversion 1 as [h0 l0 s' _ Hrun|]; subst. simpl.
  exact (wlp_Done _ _ _ _ _ (run_kept l (st h)) Hrun).
Qed.

(** The configuration, the owner and the world of the component never
    change, and a managed mesh stays managed. *)
Definition static (c c' : Comp F) : Prop :=
  cfg c' = cfg c /\ compOwner c' = compOwner c /\ hasWorld c' = hasWorld c /\
  bCanEverTick c' = bCanEverTick c /\
  (is_Some (ManagedMesh c) -> is_Some (ManagedMesh c')).

Lemma snext_static h h' : snext h h' -> static (self (st h)) (self (st h')).
Proof.
  intros [ol Hstep]. destruct ol as [l|].
  - destruct (sstep_kept _ _ _ Hstep) as (? & ? & ? & ? & ? & _). by unfold static.
  - inversion Hstep; subst. by unfold static.
Qed.

Lemma rtc_static h h' : rtc snext h h' -> static (self (st h)) (self (st h')).
Proof.
  induction 1 as [|h1 h2 h3 Hstep _ IH]; [by unfold static|].
  destruct (snext_static _ _ Hstep) as (? & ? & ? & ? & ?).
  destruct IH as (? & ? & ? & ? & ?). unfold static. split_and!; try congruence. auto.
Qed.

(** C14. The tick of the component is switched by a sleep or wake
    notification and by [Grab], and by nothing else: every other step of
    the scheduler, the distance timer included, leaves [bTickEnabled] as
    it was. *)
Theorem tick_switched_by_notifications h ol h' :
  sstep h ol h' ->
  (forall l, ol = Some l -> tickSource (eventOf l) = false) ->
  bTickEnabled (self (st h')) = bTickEnabled (self (st h)).
Proof.
  intros Hstep Hsrc. destruct ol as [l|].
  - destruct (sstep_kept _ _ _ Hstep) as (_ & _ & _ & _ & _ & Ht & _). by apply Ht, Hsrc.
  - by inversion Hstep.
Qed.

End Steps.

(** ** The chain of the proximity scheduler *)

Section Chains.
Context {F : Type} `{Scalar F}.
Implicit Types (s : State F) (h : Sched F) (l : Label F) (e : Event F) (c : Comp F).

(** What the distance timer and the sleep notification leave of a far prop
    that was simulating and awake. *)
Record AtRest (h h' : Sched F) (m me : positive) (a : Actor F) : Prop := {
  rest_mesh : exists mesh',
    meshes (world (st h')) !! m = Some mesh' /\ bAwake mesh' = false /\
    TickInterval mesh' = ofZ 1;
  rest_tick : bTickEnabled (self (st h')) = false;
  rest_actor : exists a',
    actors (world (st h')) !! me = Some a' /\ bActorTickEnabled a' = false /\
    bReplicateMovement a' = (if hasAuthority a then false else bReplicateMovement a);
  rest_quiet : ~ pending h' m;
  rest_calls :
    issued (calls (world (st h))) (calls (world (st h')))
    = [CallPutAllRigidBodiesToSleep m; CallSetComponentTickInterval m (ofZ 1);
       CallSetComponentTickEnabled false; CallSetActorTickEnabled me false]
      ++ (if hasAuthority a then [CallSetReplicateMovement me false] else [])
}.

Lemma issued_prefix {A} (l l' : list A) : l `prefix_of` l' -> l' = l ++ issued l l'.
Proof. intros [k ->]. by rewrite issued_app. Qed.

Lemma Broadcast_once cb e s : callbackOf e = Some cb -> Broadcast [cb] e s = handle e s.
Proof.
  intros Hcb. simpl. unfold Invoke. rewrite decide_True by done.
  unfold bind. by destruct (handle e s) as [[] ?|].
Qed.

(** C8. The chain the proximity scheduler relies on.  A managed body that
    generates wake events, simulates, is awake and is farther from the
    view point than the cull distance: when the timer fires, the distance check puts it to sleep;
    the body then reports its sleep, and the sleep callback switches off
    the tick of the component and of the owner.  These five calls are the
    only ones, and no notification is left. *)
Theorem cull_chain h m mesh me a ObserverLoc :
  ManagedMesh (self (st h)) = Some m ->
  meshes (world (st h)) !! m = Some mesh ->
  hasBodyInstance mesh = true ->
  bGenerateWakeEvents mesh = true ->
  bSimulatePhysics mesh = true ->
  bAwake mesh = true ->
  OnComponentSleep mesh = [CbSleep] ->
  reportedAwake h m = true ->
  hasWorld (self (st h)) = true ->
  bCanEverTick (self (st h)) = true ->
  compOwner (self (st h)) = Some me ->
  actors (world (st h)) !! me = Some a ->
  bDestroyed a = false ->
  (vZ (ActorLocation a) <? ofZ (-20000)) = false ->
  playerView (world (st h)) = Some ObserverLoc ->
  isFar ObserverLoc (ActorLocation a) (PhysicsCullDistance (cfg (self (st h)))) = true ->
  timerOn (st h) ->
  exists h', fires [LTimer; LBody m] h = Some h' /\ AtRest h h' m me a.
Proof.
  intros Hm Hmesh Hbody Hgen Hsim Hawake Hbound Hrep Hw Hcan Ho Ha Hd Hz Hpc Hfar Hon.
  destruct (CheckDistanceToPlayer_far_run (st h) m mesh me a ObserverLoc)
    as (s1 & Hrun1 & Hself & Hactors & _ & Hmesh1 & Hcalls1); try done.
  rewrite Hsim, Hawake in Hmesh1, Hcalls1. simpl in Hmesh1, Hcalls1.
  destruct (callback_run s1 me a false) as (s2 & a' & Hrun2 & Htick & _ & Hmeshes & Ha' &
    Hat & Hrm & Hcalls2); [by rewrite Hself | by rewrite Hactors |].
  set (h1 := after LTimer h s1).
  assert (fire LTimer h = Some h1) as Hf1.
  { unfold fire. rewrite decide_True; [cbn [run]; by rewrite Hrun1|].
    split; [|done]. unfold alive. by rewrite Ho, Ha. }
  assert (fire (LBody m) h1 = Some (after (LBody m) h1 s2)) as Hf2.
  { unfold fire. rewrite decide_True.
    - simpl. unfold notifyBody.
      erewrite bind_Done by (apply call_Done, getMesh_Done, Hmesh1).
      destruct s1 as [w1 c1]. simpl. rewrite Hbound.
      rewrite (Broadcast_once CbSleep EvSleep) by done. simpl.
      unfold set_world, OnPhysicsComponentSleep. simpl. by rewrite Hrun2.
    - split; simpl.
      + unfold alive. by rewrite Hself, Ho, Hactors, Ha.
      + unfold pending, reportedAwake in *. simpl. rewrite Hmesh1. simpl.
        split; [done | by rewrite Hrep]. }
  exists (after (LBody m) h1 s2). split; [simpl; by rewrite Hf1; simpl; rewrite Hf2|].
  split; simpl.
  - rewrite Hmeshes, Hmesh1. by eexists.
  - by rewrite Htick, Hself, Hcan.
  - exists a'. by rewrite Hrm.
  - unfold pending, reportedAwake. simpl. rewrite Hmeshes, Hmesh1. simpl.
    rewrite lookup_insert_eq. unfold awakeOf. rewrite Hmeshes, Hmesh1. simpl.
    by intros [_ []].
  - pose proof (hkeeps_Done evolves _ _ _ _ (handle_keeps EvSleep) Hrun2)
      as (_ & _ & _ & Hpre).
    rewrite (issued_prefix _ _ Hpre), Hcalls2, Hcalls1.
    by rewrite <- app_assoc, issued_app.
Qed.

End Chains.

(** ** Bodies that generate no wake events

    The engine broadcasts the sleep and the wake of a body only if the
    body generates wake events.  No handler switches that setting, and
    neither does the solver. *)

Section Silent.
Context {F : Type} `{Scalar F}.
Implicit Types (s : State F) (h : Sched F) (l : Label F).

Lemma snext_wake_events h h' m x :
  snext h h' -> meshes (world (st h)) !! m = Some x ->
  exists x', meshes (world (st h')) !! m = Some x' /\
    bGenerateWakeEvents x' = bGenerateWakeEvents x.
Proof.
  intros [ol Hstep] Hm. destruct Hstep as [h l s' Hg Hrun | h w' Hd]; simpl.
  - pose proof (hkeeps_Done evolves _ _ _ _ (run_keeps l) Hrun) as Hev.
    destruct (evolves_mesh _ _ _ _ Hev Hm) as (x' & ? & _ & ? & _). eauto.
  - destruct Hd as (Hd & _). specialize (Hd m). rewrite Hm in Hd. inv Hd.
    match goal with Hx : mesh_drift _ _ |- _ => destruct Hx as (_ & ? & _) end. eauto.
Qed.

(** C15. The component never switches wake events on.  A body that does
    not generate wake events when play starts does not in any state the
    scheduler reaches, and never notifies: the sleep and wake callbacks
    that [Physicalize] binds to it never run, so the ticks of the
    component and of the owner are never switched by its sleep state. *)
Theorem wake_events_never_enabled h0 h m mesh0 :
  rtc snext h0 h ->
  meshes (world (st h0)) !! m = Some mesh0 ->
  bGenerateWakeEvents mesh0 = false ->
  (exists mesh, meshes (world (st h)) !! m = Some mesh /\
     bGenerateWakeEvents mesh = false) /\
  ~ guard h (LBody m).
Proof.
  intros Hrun. revert mesh0. induction Hrun as [h|h1 h2 h3 Hstep _ IH]; intros mesh0 Hm Hoff.
  - split; [by eauto|]. intros [_ Hp]. unfold pending in Hp. rewrite Hm in Hp.
    destruct Hp. congruence.
  - destruct (snext_wake_events _ _ _ _ Hstep Hm) as (x' & Hm' & Heq).
    apply (IH x' Hm'). congruence.
Qed.

End Silent.

(** ** A prop whose body never slept *)

Section Fresh.
Context {F : Type} `{Scalar F}.
Implicit Types (s : State F) (h : Sched F) (l : Label F).

Definition allAwake (w : World F) : Prop :=
  map_Forall (fun _ mesh => bAwake mesh = true) (meshes w).

#[export] Instance allAwake_dec w : Decision (allAwake w).
Proof. unfold allAwake. apply _. Defined.

(** No body has reported a sleep. *)
Definition unreported h : Prop := forall m, reportedAwake h m = true.

(** A step from a state in which every body is awake, other than a
    [Grab]. *)
Definition wakeful (h h' : Sched F) : Prop :=
  allAwake (world (st h)) /\
  exists ol, sstep h ol h' /\ forall Holder, ol <> Some (LGrab Holder).

Lemma unreported_boot s : unreported (boot s).
Proof. intros m. unfold reportedAwake. simpl. by rewrite lookup_empty. Qed.

Lemma unreported_no_notice h m :
  unreported h -> allAwake (world (st h)) -> ~ guard h (LBody m).
Proof.
  intros Hu Ha [_ Hp]. unfold pending in Hp.
  destruct (meshes (world (st h)) !! m) as [mesh|] eqn:Hm; [|done].
  destruct Hp as [_ Hp]. apply Hp. by rewrite Hu, (Ha _ _ Hm).
Qed.

Lemma wakeful_keeps h h' :
  wakeful h h' -> unreported h -> bTickEnabled (self (st h)) = false ->
  unreported h' /\ bTickEnabled (self (st h')) = false.
Proof.
  intros (Ha & ol & Hstep & Hgrab) Hu Ht.
  destruct ol as [l|]; [|by inversion Hstep; subst].
  pose proof (sstep_kept _ _ _ Hstep) as (_ & _ & _ & _ & _ & Hk & _).
  inversion Hstep as [h0 l0 s' Hg Hrun|]; subst.
  destruct l; simpl in *; try (split; [exact Hu | by rewrite Hk]).
  - by destruct (unreported_no_notice h m Hu Ha).
  - by destruct (Hgrab Holder).
Qed.

(** C36. A component whose tick is off stays unticked while every body is
    awake and nobody grabs the prop.  The constructor leaves the tick of
    the component off and only a wake notification or [Grab] switch it
    on; a body that is awake has no wake to report.  So from the start of
    play, whatever the timer, the hits and the damages do, no tick of the
    component runs (and with it no evaluation of the CCD gate) before a
    body has fallen asleep, and no notification comes while all are
    awake. *)
Theorem fresh_prop_is_not_ticked h0 h :
  bTickEnabled (self (st h0)) = false ->
  unreported h0 ->
  rtc wakeful h0 h ->
  bTickEnabled (self (st h)) = false /\
  (forall DeltaTime, ~ guard h (LTick DeltaTime)) /\
  (allAwake (world (st h)) -> forall m, ~ guard h (LBody m)).
Proof.
  intros Ht Hu Hrun.
  assert (unreported h /\ bTickEnabled (self (st h)) = false) as [Hu' Ht'].
  { induction Hrun as [|h1 h2 h3 Hstep _ IH]; [done|].
    destruct (wakeful_keeps _ _ Hstep Hu Ht). by apply IH. }
  split_and!; [done| |].
  - intros DeltaTime (_ & _ & Hon). congruence.
  - intros Ha m. by apply unreported_no_notice.
Qed.

Lemma wakeful_fire l h h' :
  allAwake (world (st h)) -> fire l h = Some h' ->
  (forall Holder, l <> LGrab Holder) -> wakeful h h'.
Proof.
  intros Ha Hf Hl. split; [done|]. exists (Some l).
  split; [by apply fire_sstep | intros Holder [= ->]; by destruct (Hl Holder)].
Qed.

End Fresh.

(** ** A sleep callback bound to a mesh the component does not manage *)

Section Stale.
Context {F : Type} `{Scalar F}.
Implicit Types (s : State F) (h : Sched F) (l : Label F) (c : Comp F).

(** What the sleep callback keeps of the component. *)
Definition held_as (c c' : Comp F) : Prop :=
  bCanEverTick c' = bCanEverTick c /\ ManagedMesh c' = ManagedMesh c /\
  bIsGrabbed c' = bIsGrabbed c /\ CurrentHolder c' = CurrentHolder c /\
  (bTickEnabled c = false -> bTickEnabled c' = false).

Lemma OnPhysicsComponentSleep_held s :
  wlp OnPhysicsComponentSleep
    (fun _ s' => held_as (self s) (self s') /\
       (bCanEverTick (self s) = true -> bTickEnabled (self s') = false)) s.
Proof.
  unfold OnPhysicsComponentSleep, replicateMovement, OwnerHasAuthority.
  wlp_auto.
  all: unfold held_as; destruct (bCanEverTick (self s)) eqn:?; state_simpl.
  all: split_and!; first [done | congruence].
Qed.

Lemma Broadcast_sleep cbs s :
  bCanEverTick (self s) = true ->
  wlp (Broadcast cbs EvSleep)
    (fun _ s' => held_as (self s) (self s') /\
       (CbSleep ∈ cbs -> bTickEnabled (self s') = false)) s.
Proof.
  revert s. induction cbs as [|cb cbs IH]; intros s Hcan; simpl.
  - apply wlp_skip. split; [by unfold held_as | by intros ?%elem_of_nil].
  - apply wlp_bind. unfold Invoke. case_decide as Hcb.
    + eapply wlp_mono; [|apply OnPhysicsComponentSleep_held].
      intros [] s1 [(Hc1 & Hm1 & Hg1 & Hh1 & Ht1) Hoff]. cbv beta.
      eapply wlp_mono; [|apply IH; congruence].
      intros [] s2 [(Hc2 & Hm2 & Hg2 & Hh2 & Ht2) _].
      split; [unfold held_as; split_and!; try congruence; auto|].
      intros _. auto.
    + apply wlp_skip. eapply wlp_mono; [|by apply IH].
      intros [] s2 [Hk Hin]. split; [done|].
      intros [Heq|?]%elem_of_cons; [subst cb; by destruct Hcb | auto].
Qed.

(** C37. The sleep callback does not look at the body that fell asleep.
    When any body with the callback bound reports its sleep, whether or
    not it is the managed mesh, the tick of the component is switched off
    and nothing else of the grab state changes: a prop that is held, and
    whose own body is awake, is then no longer ticked, so it stops
    following its holder.  [Physicalize] on a second mesh leaves the
    bindings of the first in place, which is how such a body arises. *)
Theorem stale_mesh_stops_tick h m mesh :
  ready (st h) ->
  guard h (LBody m) ->
  meshes (world (st h)) !! m = Some mesh ->
  bAwake mesh = false ->
  CbSleep ∈ OnComponentSleep mesh ->
  bCanEverTick (self (st h)) = true ->
  exists h',
    fire (LBody m) h = Some h' /\
    bTickEnabled (self (st h')) = false /\
    ManagedMesh (self (st h')) = ManagedMesh (self (st h)) /\
    bIsGrabbed (self (st h')) = bIsGrabbed (self (st h)) /\
    CurrentHolder (self (st h')) = CurrentHolder (self (st h)) /\
    forall DeltaTime, ~ guard h' (LTick DeltaTime).
Proof.
  intros Hr Hg Hm Hasleep Hin Hcan.
  destruct (guard_fires h (LBody m) Hr Hg) as (h' & Hfire & _).
  exists h'. split; [done|].
  apply fire_sstep in Hfire. inversion Hfire as [h0 l0 s' _ Hrun|]; subst.
  simpl in *. unfold notifyBody in Hrun.
  erewrite bind_Done in Hrun by (apply call_Done, getMesh_Done, Hm).
  rewrite Hasleep in Hrun. destruct (st h) as [w c]. simpl in *.
  destruct (wlp_Done _ _ _ _ _ (Broadcast_sleep _ (mkState w c) Hcan) Hrun)
    as [(_ & ? & ? & ? & _) Hoff].
  specialize (Hoff Hin). split_and!; try done.
  intros DeltaTime (_ & _ & Hon). simpl in Hon. congruence.
Qed.

End Stale.

(** ** Sessions on binary32 *)

(** The far prop once play has begun. *)
Definition farProp : Sched b32 := session (spawnAt 5000 true) [LBeginPlay].

Lemma cull_chain_witness :
  exists h', fires [LTimer; LBody 1%positive] farProp = Some h' /\
    AtRest farProp h' 1%positive 2%positive (ownerOf farProp).
Proof.
  apply (cull_chain farProp 1 (meshOf farProp 1) 2 (ownerOf farProp) (vec 0 0 0));
    by vm_compute.
Defined.

Lemma tick_switched_by_notifications_witness :
  bTickEnabled (self (st (session (spawnAt 5000 true) [LBeginPlay; LTimer])))
  = bTickEnabled (self (st farProp)).
Proof.
  apply (tick_switched_by_notifications farProp (Some LTimer)).
  - apply fire_sstep. by vm_compute.
  - by intros l [= <-].
Defined.

(** The prop spawned with every body awake, after [BeginPlay] and a
    radial damage. *)
Definition begunProp : Sched b32 := session (spawnAt 150 true) [LBeginPlay].

Definition freshProp : Sched b32 :=
  session (spawnAt 150 true)
    [LBeginPlay; LRadialDamage 2%positive (ofZ 5) PlainDamage (vec 140 0 0)].

Lemma fresh_prop_is_not_ticked_witness :
  bTickEnabled (self (st freshProp)) = false /\
  (forall DeltaTime, ~ guard freshProp (LTick DeltaTime)) /\
  (allAwake (world (st freshProp)) -> forall m, ~ guard freshProp (LBody m)).
Proof.
  apply (fresh_prop_is_not_ticked (boot (spawnAt 150 true)) freshProp);
    [reflexivity | apply unreported_boot |].
  eapply rtc_l; [apply (wakeful_fire LBeginPlay _ begunProp);
                 [apply (bool_decide_unpack _) | |]; by vm_compute |].
  eapply rtc_l; [|apply rtc_refl].
  apply (wakeful_fire (LRadialDamage 2%positive (ofZ 5) PlainDamage (vec 140 0 0)));
    [apply (bool_decide_unpack _) | |]; by vm_compute.
Defined.

(** The prop physicalized on the mesh 1, whose body is asleep, then on
    the mesh 7, and grabbed. *)
Definition staleProp : Sched b32 :=
  session (spawnAt 150 false)
    [LPhysicalize (Some 1%positive); LPhysicalize (Some 7%positive);
     LGrab (Some 3%positive)].

Lemma stale_mesh_stops_tick_witness :
  exists h',
    fire (LBody 1%positive) staleProp = Some h' /\
    bTickEnabled (self (st h')) = false /\
    ManagedMesh (self (st h')) = Some 7%positive /\
    bIsGrabbed (self (st h')) = true /\
    CurrentHolder (self (st h')) = Some 3%positive /\
    forall DeltaTime, ~ guard h' (LTick DeltaTime).
Proof.
  apply (stale_mesh_stops_tick staleProp 1 (meshOf staleProp 1));
    first [ apply (bool_decide_unpack _); by vm_compute | by vm_compute ].
Defined.

(** The far prop whose body generates no wake events. *)
Definition silentAt (d : Z) : State b32 :=
  let s := spawnAt d true in
  set_world
    (set_meshes (<[1%positive := set_bGenerateWakeEvents false (rawMesh true)]>
                   (meshes (world s))) (world s)) s.

Definition silentProp : Sched b32 := session (silentAt 5000) [LBeginPlay; LTimer].

Lemma silentProp_run : rtc snext (boot (silentAt 5000)) silentProp.
Proof. apply (fires_rtc [LBeginPlay; LTimer]). by vm_compute. Qed.

Lemma wake_events_never_enabled_witness :
  (exists mesh, meshes (world (st silentProp)) !! 1%positive = Some mesh /\
     bGenerateWakeEvents mesh = false) /\
  ~ guard silentProp (LBody 1%positive).
Proof.
  apply (wake_events_never_enabled (boot (silentAt 5000)) silentProp 1
           (set_bGenerateWakeEvents false (rawMesh true)));
    [exact silentProp_run | reflexivity | reflexivity].
Defined.

(** The timer has put the body of the silent prop to sleep, and the tick
    of its owner, which the sleep callback would switch off, is as
    [Physicalize] left it. *)
Example silentProp_asleep :
  bAwake (meshOf silentProp 1) = false /\ pendingSet silentProp = ∅.
Proof. split; by vm_compute. Qed.
