(* ===== verification/Temporal.v ===== *)
(** * Temporal: runs that do not end, fairness, leads-to

    A run of a labelled transition system is the state and the label at
    each index [n : nat]; no coinduction is needed.  [always],
    [leads_to] and [fair] are the three notions the liveness of the
    scheduler is stated with, and [wf1] is the rule that proves a
    leads-to property from a fair action: what the rule needs of the
    system are three facts about single steps. *)

From Stdlib Require Import Arith Lia.
From stdpp Require Import base tactics.

Section Runs.
Context {Σ L : Type}.
Variable step : Σ -> L -> Σ -> Prop.

Record Run : Type := mkRun {
  state_at : nat -> Σ;
  label_at : nat -> L
}.

(** Every index is a step of the system. *)
Definition is_run (r : Run) : Prop :=
  forall n, step (state_at r n) (label_at r n) (state_at r (S n)).

Definition always (r : Run) (P : Σ -> Prop) : Prop :=
  forall n, P (state_at r n).

(** Whenever [P] holds, [Q] holds then or later. *)
Definition leads_to (r : Run) (P Q : Σ -> Prop) : Prop :=
  forall n, P (state_at r n) -> exists k, Q (state_at r (n + k)).

(** Weak fairness of the steps [tk], enabled in the states [en]: from an
    index where they are enabled there is a later one where they are not,
    or where one is taken. *)
Definition fair (r : Run) (en : Σ -> Prop) (tk : L -> Prop) : Prop :=
  forall n, en (state_at r n) ->
  exists k, ~ en (state_at r (n + k)) \/ tk (label_at r (n + k)).

(** An invariant of the steps holds along a run that starts in it. *)
Lemma always_intro r (P : Σ -> Prop) :
  is_run r -> P (state_at r 0) ->
  (forall s l s', P s -> step s l s' -> P s') ->
  always r P.
Proof. intros Hrun H0 Hstep n. induction n as [|n IH]; eauto. Qed.

Lemma leads_to_refl r (P : Σ -> Prop) : leads_to r P P.
Proof. intros n Hn. exists 0. by rewrite Nat.add_0_r. Qed.

Lemma leads_to_trans r (P Q R : Σ -> Prop) :
  leads_to r P Q -> leads_to r Q R -> leads_to r P R.
Proof.
  intros HPQ HQR n Hn. destruct (HPQ n Hn) as [k Hk].
  destruct (HQR (n + k) Hk) as [j Hj]. exists (k + j). by rewrite Nat.add_assoc.
Qed.

Lemma leads_to_weaken r (P P' Q Q' : Σ -> Prop) :
  (forall s, P' s -> P s) -> (forall s, Q s -> Q' s) ->
  leads_to r P Q -> leads_to r P' Q'.
Proof. intros HP HQ H n Hn. destruct (H n (HP _ Hn)) as [k Hk]. eauto. Qed.

(** While [Q] has not held, [P] has. *)
Lemma until_or r (I P Q : Σ -> Prop) n k :
  is_run r -> always r I ->
  (forall s l s', I s -> P s -> step s l s' -> P s' \/ Q s') ->
  P (state_at r n) ->
  (exists j, j <= k /\ Q (state_at r (n + j))) \/ P (state_at r (n + k)).
Proof.
  intros Hrun HI Hstep Hn. induction k as [|k [(j & Hj & HQ)|HP]].
  - right. by rewrite Nat.add_0_r.
  - left. exists j. split; [lia | done].
  - destruct (Hstep _ _ _ (HI _) HP (Hrun (n + k))) as [HP'|HQ'].
    + right. by rewrite Nat.add_succ_r.
    + left. exists (S k). split; [done|]. by rewrite Nat.add_succ_r.
Qed.

(** The rule WF1.  Along a run on which [I] always holds: if a step from
    [P] leads to [P] or to [Q], a step of the fair action from [P] leads
    to [Q], and [P] enables the action, then [P] leads to [Q]. *)
Theorem wf1 r (I P Q en : Σ -> Prop) (tk : L -> Prop) :
  is_run r -> always r I ->
  (forall s l s', I s -> P s -> step s l s' -> P s' \/ Q s') ->
  (forall s l s', I s -> P s -> step s l s' -> tk l -> Q s') ->
  (forall s, I s -> P s -> en s) ->
  fair r en tk ->
  leads_to r P Q.
Proof.
  intros Hrun HI Hstay Htake Hen Hfair n Hn.
  destruct (Hfair n (Hen _ (HI _) Hn)) as [k Hk].
  destruct (until_or r I P Q n k Hrun HI Hstay Hn) as [(j & _ & HQ)|HP]; [eauto|].
  destruct Hk as [Hoff|Htk]; [by destruct Hoff; apply Hen|].
  exists (S k). rewrite Nat.add_succ_r. by eapply Htake.
Qed.

End Runs.

Arguments Run Σ L : clear implicits.

(** ** Runs that repeat one label

    The run that takes the step [next] with the label [l] for ever.  It
    is a run when an invariant of [next] makes each of these a step of
    the system, and it is fair to [l] whatever enables it. *)

Section Iterate.
Context {Σ L : Type}.
Variable step : Σ -> L -> Σ -> Prop.

Definition iterate (next : Σ -> Σ) (l : L) (s0 : Σ) : Run Σ L :=
  mkRun (fun n => Nat.iter n next s0) (fun _ => l).

Lemma iterate_inv next l s0 (I : Σ -> Prop) n :
  I s0 -> (forall s, I s -> I (next s)) -> I (state_at (iterate next l s0) n).
Proof. intros H0 Hnext. induction n; simpl; auto. Qed.

Lemma iterate_is_run next l s0 (I : Σ -> Prop) :
  I s0 -> (forall s, I s -> I (next s)) -> (forall s, I s -> step s l (next s)) ->
  is_run step (iterate next l s0).
Proof. intros H0 Hnext Hstep n. by apply Hstep, iterate_inv. Qed.

Lemma iterate_fair next l s0 (en : Σ -> Prop) : fair (iterate next l s0) en (eq l).
Proof. intros n _. exists 0. by right. Qed.

End Iterate.
