(* ===== verification/Liveness.v ===== *)
(** * Liveness: the distance timer grades the prop

    The runs of the scheduler that do not end, and what a fair timer
    achieves on them.  [graded] is the state the distance check of
    PhysicsPropComponent.cpp aims at: beyond the cull distance the body
    of the managed mesh does not simulate awake and the mesh ticks once a
    second, within it the mesh ticks every frame.  [timer_grades] shows,
    with the rule [wf1] of Temporal.v, that on every run that is fair to
    the timer, an armed timer leads to a graded prop, or to a timer that
    is no longer armed (the owner destroyed below the floor, the timer
    set again with a rate that is not positive).  [timer_again] shows
    that above the floor a firing of the timer leaves it armed, which
    makes the run of timer firings [timerRun] a run of the scheduler. *)

From Stdlib Require Import ZArith Floats.SpecFloat.
From stdpp Require Import base tactics option list gmap relations.
From S2P Require Import Prelude Scalar Float32 Vec Engine ImpactData Component Frame Samples.
From S2P Require Import Grab GrabMachine Tick Proximity Lifecycle Damage Audio Host.
From S2P Require Import Scheduler Notify Session Temporal.

Local Open Scope scalar_scope.
Local Open Scope handler_scope.

(** Rewrite with the lookups and the tests the context has decided. *)
Ltac known :=
  repeat match goal with
  | Hx : ?l = Some _ |- context [?l] => rewrite Hx
  | Hx : ?l = None |- context [?l] => rewrite Hx
  | Hx : ?l = true |- context [?l] => rewrite Hx
  | Hx : ?l = false |- context [?l] => rewrite Hx
  end; simpl.

Section Graded.
Context {F : Type} `{Scalar F}.
Implicit Types (s : State F) (h : Sched F).

Definition ownerActor s : option (Actor F) :=
  compOwner (self s) ≫= fun me => actors (world s) !! me.

Definition managedBody s : option (Mesh F) :=
  ManagedMesh (self s) ≫= fun m => meshes (world s) !! m.

(** The physics cost of the prop fits its distance to the player: beyond
    the cull distance its body does not simulate awake and its mesh
    ticks once a second; within, its mesh ticks every frame. *)
Definition graded s : Prop :=
  match managedBody s, ownerActor s, playerView (world s) with
  | Some mesh, Some a, Some ObserverLoc =>
      if isFar ObserverLoc (ActorLocation a) (PhysicsCullDistance (cfg (self s)))
      then bSimulatePhysics mesh && bAwake mesh = false /\ TickInterval mesh = ofZ 1
      else TickInterval mesh = ofZ 0
  | _, _, _ => True
  end.

Lemma CheckDistanceToPlayer_grades s :
  ready s -> twp CheckDistanceToPlayer (fun _ s' => graded s' \/ ~ alive s') s.
Proof.
  intros Hr. pose proof Hr as Hr'. ready_destruct Hr'.
  all: unfold CheckDistanceToPlayer, GetWorld, cullFar, IsInstanceAwake; trun; try done.
  all: unfold graded, alive, managedBody, ownerActor, isFar; state_simpl.
  all: known; rewrite ?lookup_insert_eq; known; state_simpl.
  all: try (right; congruence).
  all: try (left; done).
  all: left; known; by rewrite ?andb_false_r.
Qed.

(** The owner is above the floor under which the prop is destroyed. *)
Definition aboveFloor s : Prop :=
  match ownerActor s with
  | Some a => (vZ (ActorLocation a) <? ofZ (-20000)) = false
  | None => True
  end.

(** Above the floor, the distance check touches neither the component
    nor the actors. *)
Lemma CheckDistanceToPlayer_owner s :
  ready s -> aboveFloor s ->
  twp CheckDistanceToPlayer
    (fun _ s' => self s' = self s /\ actors (world s') = actors (world s)) s.
Proof.
  intros Hr. pose proof Hr as Hr'. ready_destruct Hr'.
  all: unfold aboveFloor, ownerActor; do 2 known; intros Hz.
  all: unfold CheckDistanceToPlayer, GetWorld, cullFar, IsInstanceAwake; trun; try done.
  all: congruence.
Qed.

End Graded.

#[global] Instance aboveFloor_dec {F : Type} `{Scalar F} (s : State F) : Decision (aboveFloor s).
Proof. unfold aboveFloor. case_match; apply _. Defined.

#[global] Instance b32_eq_dec : EqDecision b32.
Proof. solve_decision. Defined.

#[global] Instance graded_dec (s : State b32) : Decision (graded s).
Proof. unfold graded. repeat case_match; apply _. Defined.

Section Live.
Context {F : Type} `{Scalar F}.
Implicit Types (s : State F) (h : Sched F) (r : Run (Sched F) (option (Label F))).

(** What a firing of the timer leaves. *)
Lemma timer_fired h h' :
  ready (st h) -> sstep h (Some LTimer) h' ->
  (graded (st h') \/ ~ alive (st h')) /\
  (aboveFloor (st h) -> self (st h') = self (st h) /\
     actors (world (st h')) = actors (world (st h))).
Proof.
  intros Hr Hstep. inversion Hstep as [h0 l0 s' _ Hrun|]; subst. simpl in *.
  pose proof (CheckDistanceToPlayer_grades _ Hr) as Hg.
  split; [by unfold twp in Hg; rewrite Hrun in Hg|].
  intros Hz. pose proof (CheckDistanceToPlayer_owner _ Hr Hz) as Ho.
  unfold twp in Ho. by rewrite Hrun in Ho.
Qed.

(** Above the floor, the timer fires and is armed again. *)
Lemma timer_again h :
  ready (st h) -> guard h LTimer -> aboveFloor (st h) ->
  exists h', fire LTimer h = Some h' /\
    ready (st h') /\ guard h' LTimer /\ aboveFloor (st h').
Proof.
  intros Hr Hg Hz. destruct (guard_fires h LTimer Hr Hg) as (h' & Hfire & Hr').
  exists h'. split_and!; [done..| |].
  all: apply fire_sstep in Hfire.
  all: destruct (timer_fired h h' Hr Hfire) as [_ Hsame].
  all: destruct (Hsame Hz) as [Hself Hact]; destruct Hg as [Ha Ht].
  - unfold guard, alive, timerOn in *. by rewrite Hself, Hact.
  - unfold aboveFloor, ownerActor in *. by rewrite Hself, Hact.
Qed.

Lemma always_ready r :
  is_run sstep r -> ready (st (state_at r 0)) -> always r (fun h => ready (st h)).
Proof. intros Hrun Hr. apply (always_intro sstep); eauto using sstep_ready. Qed.

(** C6. The distance timer is live.  On a run of the scheduler that
    starts ready and is fair to the timer, whenever the timer is armed
    (the owner alive, the timer set with a positive rate) there is a
    later state in which the prop is graded by its distance to the
    player (far: the body does not simulate awake and the mesh ticks once
    a second; near: the mesh ticks every frame), or in which the timer is
    no longer armed. *)
Theorem timer_grades r :
  is_run sstep r -> ready (st (state_at r 0)) ->
  fair r (fun h => guard h LTimer) (eq (Some LTimer)) ->
  leads_to r (fun h => guard h LTimer) (fun h => graded (st h) \/ ~ guard h LTimer).
Proof.
  intros Hrun Hstart Hfair.
  apply (wf1 sstep r (fun h => ready (st h)) _ _ (fun h => guard h LTimer) (eq (Some LTimer)));
    auto using always_ready.
  - intros h l h' _ _ _. destruct (decide (guard h' LTimer)); auto.
  - intros h l h' Hr _ Hstep <-. destruct (timer_fired h h' Hr Hstep) as [[Hg|Hd] _]; [auto|].
    right. by intros [Ha _].
Qed.

End Live.

(** ** A run of the scheduler that does not end

    The prop spawned far from the player, after [BeginPlay]: the timer
    fires for ever. *)

Definition timerNext (h : Sched b32) : Sched b32 := default h (fire LTimer h).

Definition timerRun : Run (Sched b32) (option (Label b32)) :=
  iterate timerNext (Some LTimer) farProp.

Definition armed (h : Sched b32) : Prop :=
  ready (st h) /\ guard h LTimer /\ aboveFloor (st h).

#[global] Instance armed_dec h : Decision (armed h).
Proof. unfold armed. apply _. Defined.

Lemma armed_next h : armed h -> armed (timerNext h) /\ sstep h (Some LTimer) (timerNext h).
Proof.
  intros (Hr & Hg & Hz). destruct (timer_again h Hr Hg Hz) as (h' & Hfire & Hrest).
  unfold timerNext. rewrite Hfire. simpl. split; [done|]. by apply fire_sstep.
Qed.

Lemma armed_farProp : armed farProp.
Proof. apply (bool_decide_unpack _). by vm_compute. Qed.

Lemma timerRun_is_run : is_run sstep timerRun.
Proof.
  apply (iterate_is_run sstep _ _ _ armed); [exact armed_farProp|..];
    intros h Hh; by apply armed_next.
Qed.

Lemma timer_grades_witness :
  leads_to timerRun (fun h => guard h LTimer) (fun h => graded (st h) \/ ~ guard h LTimer).
Proof.
  apply (timer_grades timerRun);
    [exact timerRun_is_run | exact (proj1 armed_farProp) | apply iterate_fair].
Defined.

(** The far prop is not graded when play begins (its body simulates
    awake), and is after the first firing of the timer. *)
Example timerRun_grades :
  ~ graded (st farProp) /\ graded (st (timerNext farProp)).
Proof.
  split; [apply (@bool_decide_unpack _ (not_dec (graded_dec _)))
         | apply (@bool_decide_unpack _ (graded_dec _))]; by vm_compute.
Qed.
